(** * Astrobotany: the item catalogue, the request handlers and their
    inventory, plant and mailbox effects.

    The development follows [astrobotany/items.py] and [astrobotany/views.py].
    Python [str] values are Rocq strings, one [ascii] per character: request
    text ranges over the code points below 256, and a literal of the source
    that holds other characters keeps its UTF-8 bytes (this only concerns the
    description texts of the catalogue).  Python [int] is [Z]. *)

From stdpp Require Import gmap strings list fin_maps sorting pretty.
From Stdlib Require Import ZArith Ascii String HexString.

Local Open Scope string_scope.
Local Open Scope Z_scope.

(** ** Python string operations used by the program *)

Module PyStr.

(** [str.isspace] on one character (code points below 256). *)
Definition isspace (c : ascii) : bool :=
    let n := N_of_ascii c in
    ((9 <=? n) && (n <=? 13) || (28 <=? n) && (n <=? 32)
     || (n =? 133) || (n =? 160))%N.

Fixpoint lstrip_with (p : ascii -> bool) (s : string) : string :=
    match s with
    | EmptyString => EmptyString
    | String c s' => if p c then lstrip_with p s' else s
    end.

Fixpoint rstrip_with (p : ascii -> bool) (s : string) : string :=
    match s with
    | EmptyString => EmptyString
    | String c s' =>
        match rstrip_with p s' with
        | EmptyString => if p c then EmptyString else String c EmptyString
        | r => String c r
        end
    end.

(** [s.strip()] *)
Definition strip (s : string) : string :=
    rstrip_with isspace (lstrip_with isspace s).

Fixpoint mem_char (c : ascii) (chars : string) : bool :=
    match chars with
    | EmptyString => false
    | String d chars' => Ascii.eqb c d || mem_char c chars'
    end.

(** [s.strip(chars)] *)
Definition strip_chars (chars s : string) : string :=
    rstrip_with (fun c => mem_char c chars)
      (lstrip_with (fun c => mem_char c chars) s).

(** [str.lower] on one character (code points below 256). *)
Definition lower_char (c : ascii) : ascii :=
    let n := N_of_ascii c in
    if ((65 <=? n) && (n <=? 90)
        || (192 <=? n) && (n <=? 222) && negb (n =? 215))%N
    then ascii_of_N (n + 32) else c.

Fixpoint lower (s : string) : string :=
    match s with
    | EmptyString => EmptyString
    | String c s' => String (lower_char c) (lower s')
    end.

(** [s[:n]] *)
Fixpoint take (n : nat) (s : string) : string :=
    match n, s with
    | O, _ => EmptyString
    | _, EmptyString => EmptyString
    | S n', String c s' => String c (take n' s')
    end.

(** [len(s)] *)
Definition len (s : string) : Z := Z.of_nat (String.length s).

(** [s.startswith(p)] *)
Definition startswith (s p : string) : bool := String.prefix p s.

(** [s.endswith(p)] *)
Fixpoint endswith (s p : string) : bool :=
    if String.eqb s p then true
    else match s with
         | EmptyString => false
         | String _ s' => endswith s' p
         end.

(** [s.split(sep)] for a one-character separator. *)
Fixpoint split (sep : ascii) (s : string) : list string :=
    match s with
    | EmptyString => [EmptyString]
    | String c s' =>
        if Ascii.eqb c sep then EmptyString :: split sep s'
        else match split sep s' with
             | [] => [String c EmptyString]
             | w :: ws => String c w :: ws
             end
    end.

(** [sep.join(parts)] *)
Fixpoint join (sep : string) (parts : list string) : string :=
    match parts with
    | [] => EmptyString
    | [x] => x
    | x :: rest => x ++ sep ++ join sep rest
    end.

(** [s.lstrip(chars)] *)
Definition lstrip_chars (chars s : string) : string :=
    lstrip_with (fun c => mem_char c chars) s.

(** The one-character string holding a double quote. *)
Definition dquote : string := String (ascii_of_N 34) EmptyString.

(** [bool(s)]: a string is true when it is not empty. *)
Definition truthy (s : string) : bool :=
    match s with EmptyString => false | _ => true end.

End PyStr.

(** ** items.py *)

Module Items.

Record Item := mkItem {
    item_id : Z;
    price : Z;
    name : string;
    description : string;
    for_sale : bool;
  }.

#[global] Instance Item_eq_dec : EqDecision Item.
Proof. solve_decision. Defined.

Section Catalogue.

(** [constants.COLORS_PLAIN]: the module [constants] is outside the
        sources at hand, so the list of colours is left open. *)
Variable COLORS_PLAIN : list string.

(** [textwrap.dedent] of Python's standard library. *)
Variable dedent : string -> string.

(** [Item.__init__]: the new item takes the id [len(registry) + 1] and is
        stored in the registry under it.  The registry is threaded. *)
Definition Item_init (price : Z) (name description : string)
        (for_sale : bool) (registry : gmap Z Item) : Item * gmap Z Item :=
      let self :=
        {| item_id := Z.of_nat (size registry) + 1;
           price := price;
           name := name;
           description := PyStr.strip (dedent description);
           for_sale := for_sale |} in
      (self, <[item_id self := self]> registry).

Definition paperclip_description : string := "
    A length of wire bent into flat loops that is used to hold papers together.
    
    ✨ 📎 ✨
    
    Origin unknown.
    ".

Definition fertilizer_description : string := "
    A bottle of plant fertilizer.
    
    When applied, will increase plant growth rate by 1.5x for 3 days.    
    ".

Definition petal_description (description : string) : string :=
      "
        A single flower petal from " ++ description ++ " plant.

        Graceful, delicate, and reserved.
        ".

Definition coin_description : string := "
    A copper coin.
     
    Can be used to purchase items at the shop.
    
    ```
                 ██████████          
         ██████      ███████      
       ████    ░░░░░░░░░░████      
       ██  ░░░░      ██░░░░████  ░░
     ████  ░░░░  ░░░░██░░░░████    
     ██  ░░░░░░  ░░░░██░░░░░░████  
     ██  ░░░░░░  ░░░░██░░░░░░████  
     ██  ░░░░░░  ░░░░██░░░░░░████  
     ██  ░░░░░░  ░░░░██░░░░░░████  
     ██  ░░░░░░  ░░░░██░░░░░░████  
     ██  ░░░░░░  ░░░░██░░░░░░████  
     ████  ░░░░  ░░░░██░░░░████  ░░
       ██  ░░░░████████░░░░████    
       ████  ░░░░░░░░░░░░████      
         ██████░░░░░░████████      
         ██████▓▓░░▓▓████░
    ```     
    ".

Definition postcard_description : string := "
    A blank postcard.

    Can be used to send a private message to another user. 
    ".

(** One turn of the loop [for color in constants.COLORS_PLAIN]. *)
Definition petals_step (st : gmap string Item * gmap Z Item)
        (color : string) : gmap string Item * gmap Z Item :=
      let '(petals, registry) := st in
      let description :=
        if bool_decide (color ∈ ["orange"; "indigo"])
        then "an " ++ color else "a " ++ color in
      let '(it, registry) :=
        Item_init 0 ("flower petal [" ++ color ++ "]")
          (petal_description description) false registry in
      (<[color := it]> petals, registry).

(** The names bound by the module once it is imported. *)
Record Module_ := mkModule {
      registry : gmap Z Item;
      paperclip : Item;
      fertilizer : Item;
      petals : gmap string Item;
      coin : Item;
      postcard : Item;
    }.

(** The module body, statement by statement. *)
Definition module_ : Module_ :=
      let registry : gmap Z Item := ∅ in
      let '(paperclip, registry) :=
        Item_init 0 "paper clip" paperclip_description false registry in
      let '(fertilizer, registry) :=
        Item_init 75 "EZ-Grow fertilizer" fertilizer_description true
          registry in
      let '(petals, registry) :=
        foldl petals_step (∅, registry) COLORS_PLAIN in
      let '(coin, registry) :=
        Item_init 1 "coin" coin_description false registry in
      let '(postcard, registry) :=
        Item_init 20 "postcard" postcard_description true registry in
      mkModule registry paperclip fertilizer petals coin postcard.

(** The constructor calls of the module body in the order they are
    executed, as (price, name, description, for_sale). *)
Definition petal_call (color : string) : Z * string * string * bool :=
    (0, "flower petal [" ++ color ++ "]",
     petal_description
       (if bool_decide (color ∈ ["orange"; "indigo"])
        then "an " ++ color else "a " ++ color),
     false).

Definition constructor_calls : list (Z * string * string * bool) :=
    [(0, "paper clip", paperclip_description, false);
     (75, "EZ-Grow fertilizer", fertilizer_description, true)]
    ++ map petal_call COLORS_PLAIN
    ++ [(1, "coin", coin_description, false);
        (20, "postcard", postcard_description, true)].

Definition Item_init_call (c : Z * string * string * bool)
    (registry : gmap Z Item) : Item * gmap Z Item :=
    let '(p, n, d, f) := c in Item_init p n d f registry.

Definition run_calls (calls : list (Z * string * string * bool))
    (registry : gmap Z Item) : gmap Z Item :=
    foldl (fun r c => (Item_init_call c r).2) registry calls.

(** The registry as the specification describes it: the [k]-th constructed
    item (counting from 0) carries the id [k + 1]. *)
Definition numbered_from (base : nat)
    (calls : list (Z * string * string * bool)) : list Item :=
    imap (fun k c =>
            let '(p, n, d, f) := c in
            mkItem (Z.of_nat (base + k) + 1) p n (PyStr.strip (dedent d)) f)
         calls.

Definition construction_order : list Item :=
    numbered_from 0 constructor_calls.

End Catalogue.

(** The ids in use are exactly [1 .. len(registry)]. *)
Definition dense (registry : gmap Z Item) : Prop :=
    forall i : Z,
      is_Some (registry !! i) <-> 1 <= i <= Z.of_nat (size registry).

End Items.

(** ** The records of models.py that views.py touches

    [models.py] is outside the sources at hand.  The records below hold the
    attributes the handlers read and write; the methods of the models are
    introduced further down. *)

Module Models.

Record User := mkUser {
    user_id : string;
    username : string;
}.

Record Certificate := mkCertificate {
    fingerprint : string;
    cert_user : User;
    ansi_enabled : bool;
}.

(** Timestamps are microseconds on the clock of [datetime.now()]. *)
Record Plant := mkPlant {
    plant_name : string;
    stage : Z;
    dead : bool;
    score : Z;
    watered_at : Z;
    generation : Z;
}.

#[global] Instance Plant_inhabited : Inhabited Plant :=
    populate (mkPlant "" 0 false 0 0 0).

#[global] Instance Plant_eq_dec : EqDecision Plant.
Proof. solve_decision. Defined.

Record Inbox := mkInbox {
    user_from : string;
    user_to : string;
    subject : string;
    body : string;
    is_seen : bool;
}.

(** The tables.  A user row is its [username] under its [user_id], a plant
    is kept under the [user_id] of its owner (every user owns exactly one),
    an [ItemSlot] quantity under (owner, item id), an [Inbox] row under its
    primary key. *)
Record DB := mkDB {
    users : gmap string string;
    certificates : gmap string Certificate;
    plants : gmap string Plant;
    item_slots : gmap (string * Z) Z;
    inbox : gmap Z Inbox;
}.

Definition set_plants (f : gmap string Plant -> gmap string Plant)
    (db : DB) : DB :=
    mkDB (users db) (certificates db) (f (plants db)) (item_slots db)
      (inbox db).

Definition set_item_slots (f : gmap (string * Z) Z -> gmap (string * Z) Z)
    (db : DB) : DB :=
    mkDB (users db) (certificates db) (plants db) (f (item_slots db))
      (inbox db).

Definition set_inbox (f : gmap Z Inbox -> gmap Z Inbox) (db : DB) : DB :=
    mkDB (users db) (certificates db) (plants db) (item_slots db)
      (f (inbox db)).

(** Modelled from the spec: [User.get_item_quantity], which models.py
    defines.  An absent slot counts 0. *)
Definition get_item_quantity (u : User) (item : Items.Item) (db : DB) : Z :=
    default 0 (item_slots db !! (user_id u, Items.item_id item)).

(** Modelled from the spec: [User.add_item], which models.py defines.  It
    increments the slot and creates it when absent. *)
Definition add_item (u : User) (item : Items.Item) (quantity : Z)
    (db : DB) : DB :=
    set_item_slots
      <[(user_id u, Items.item_id item) :=
          get_item_quantity u item db + quantity]> db.

(** Modelled from the spec: [User.remove_item], which models.py defines.  It
    succeeds and decrements only when the slot holds at least [quantity];
    otherwise nothing is deducted and the result is false. *)
Definition remove_item (u : User) (item : Items.Item) (quantity : Z)
    (db : DB) : bool * DB :=
    if bool_decide (quantity <= get_item_quantity u item db) then
      (true,
       set_item_slots
         <[(user_id u, Items.item_id item) :=
             get_item_quantity u item db - quantity]> db)
    else (false, db).

End Models.

(** ** views.py *)

Module Views.

Import Models.

(** The status codes of [jetforce.Status] that the handlers answer with. *)
Inductive Status :=
| INPUT
| SENSITIVE_INPUT
| SUCCESS
| REDIRECT_TEMPORARY
| BAD_REQUEST
| NOT_FOUND
| CLIENT_CERTIFICATE_REQUIRED.

(** A value handed to a template.  Rendering itself (Jinja2) is not
    modelled: a rendered page is the template name with its context.  The
    [request], which every template receives, is left out of the context. *)
Inductive Value :=
| VNone
| VStr (s : string)
| VInt (z : Z)
| VUser (u : User)
| VPlant (p : Plant)
| VPlants (ps : list (string * Plant))
| VInbox (m : Inbox).

Inductive Body :=
| NoBody
| Rendered (template : string) (context : list (string * Value))
| FileBytes (content : string).

(** [Response(status, meta)] and [Response(status, meta, body)]. *)
Record Response := mkResponse {
    status : Status;
    meta : string;
    resp_body : Body;
}.

Definition Response_ (st : Status) (meta : string) : Response :=
    mkResponse st meta NoBody.

(** [render_template(name, **context)] *)
Definition render_template (name : string)
    (context : list (string * Value)) : Body :=
    Rendered name context.

(** What the handlers read of a request and of its [environ]. *)
Record Request := mkRequest {
    path : string;
    query : string;
    has_REMOTE_USER : bool;
    TLS_CLIENT_AUTHORISED : bool;
    TLS_CLIENT_SERIAL_NUMBER : N;
    TLS_CLIENT_HASH : string;
}.

(** A request after [authenticate] has attached [cert] and [user] to it.
    [request.plant] and [request.session] are the plant and the session kept
    for that user in the shared state below. *)
Record AuthRequest := mkAuthRequest {
    request : Request;
    cert : Certificate;
    user : User;
}.

(** Calls on the model objects and reads of the derived plant attributes,
    in the order a handler performs them.  A plant is named by the
    [user_id] of its owner. *)
Inductive Call :=
| PlantRefresh (owner : string)
| PlantSave (owner : string)
| PlantReadDead (owner : string)
| PlantReadStage (owner : string)
| PlantWater (owner : string) (actor : option User)
| PlantPickPetal (owner : string) (actor : option User)
| PlantHarvest (owner : string)
| UserRemoveItem (u : User) (item : Items.Item) (quantity : Z)
| UserAddItem (u : User) (item : Items.Item)
| InboxCreate (sender recipient : User) (subject : string)
| InboxSave (message_id : Z).

(** The state shared by all requests of the single server process: the
    tables, the session dictionaries of [load_session] (one per user id,
    empty until written), the clock, and the calls made so far. *)
Record World := mkWorld {
    db : DB;
    sessions : gmap string (gmap string string);
    now : Z;
    calls : list Call;
}.

(** Handlers are state transformers over the shared state. *)
Definition M (A : Type) : Type := World -> A * World.

Definition ret {A : Type} (a : A) : M A := fun w => (a, w).

Definition bind {A B : Type} (m : M A) (k : A -> M B) : M B :=
    fun w => let '(a, w') := m w in k a w'.

Notation "'let*' x := m 'in' k" := (bind m (fun x => k))
    (at level 10, x name, m at level 100, k at level 200).
Notation "m ;;; k" := (bind m (fun _ => k))
    (at level 100, k at level 200, right associativity).

Definition call (c : Call) : M unit :=
    fun w => (tt, mkWorld (db w) (sessions w) (now w) (calls w ++ [c])).

Definition get_db : M DB := fun w => (db w, w).

Definition put_db (d : DB) : M unit :=
    fun w => (tt, mkWorld d (sessions w) (now w) (calls w)).

Definition datetime_now : M Z := fun w => (now w, w).

(** The state with other tables, and with one more call recorded. *)
Definition with_db (d : DB) (w : World) : World :=
    mkWorld d (sessions w) (now w) (calls w).

Definition with_call (c : Call) (w : World) : World :=
    mkWorld (db w) (sessions w) (now w) (calls w ++ [c]).

(** The calls made between the state [w] and the later state [w']. *)
Definition calls_since (w w' : World) : list Call :=
    drop (List.length (calls w)) (calls w').

(** [load_session(user_id)]: the dictionary kept for this user. *)
Definition load_session (uid : string) (w : World) : gmap string string :=
    default ∅ (sessions w !! uid).

(** [request.session.get(key)] *)
Definition session_get (r : AuthRequest) (key : string) : M (option string) :=
    fun w => (load_session (user_id (user r)) w !! key, w).

(** [request.session[key] = value] *)
Definition session_set (r : AuthRequest) (key value : string) : M unit :=
    fun w =>
      let uid := user_id (user r) in
      (tt, mkWorld (db w)
             (<[uid := <[key := value]> (load_session uid w)]> (sessions w))
             (now w) (calls w)).

(** [request.session.pop(key, None)] *)
Definition session_pop (r : AuthRequest) (key : string) : M (option string) :=
    fun w =>
      let uid := user_id (user r) in
      (load_session uid w !! key,
       mkWorld (db w)
         (<[uid := delete key (load_session uid w)]> (sessions w))
         (now w) (calls w)).

(** [int(s)] for the text a route captured with [[0-9]+]: only ASCII digits
    get through the route, and on those [int] cannot fail. *)
Definition int (s : string) : Z :=
    foldl (fun acc c => 10 * acc + (Z.of_N (N_of_ascii c) - 48)) 0
      (list_ascii_of_string s).

(** [f"{n:032X}"]: upper-case hexadecimal, padded with zeros to 32 digits. *)
Definition upper_hex_char (c : ascii) : ascii :=
    let n := N_of_ascii c in
    if ((97 <=? n) && (n <=? 102))%N then ascii_of_N (n - 32) else c.

Definition hex_upper (n : N) : string :=
    match n with
    | N0 => "0"
    | Npos p =>
        string_of_list_ascii
          (map upper_hex_char (list_ascii_of_string (HexString.Raw.of_pos p "")))
    end.

Fixpoint zeros (k : nat) : string :=
    match k with
    | O => ""
    | S k' => String "0" (zeros k')
    end.

Definition format_032X (n : N) : string :=
    let digits := hex_upper n in
    zeros (32 - String.length digits) ++ digits.

Coercion request : AuthRequest >-> Request.

Section Handlers.

(** [constants.COLORS_PLAIN] and [textwrap.dedent], as in the catalogue. *)
Variable COLORS_PLAIN : list string.
Variable dedent : string -> string.

(** The module [items] as views.py imports it. *)
Definition items : Items.Module_ := Items.module_ COLORS_PLAIN dedent.

(** The methods of models.py that the handlers call.  Their bodies are
    outside the sources at hand; each is taken as a transformer of what it
    can reach: [refresh] of the plant it is called on, the others of the
    tables.  [stage_names] is the table behind [Plant.stage_str], [active]
    the criterion of [Plant.all_active()], [User_login] is [User.login]. *)
Variable Plant_refresh : Z -> Plant -> Plant.
Variable Plant_water : string -> option User -> Z -> DB -> string * DB.
Variable Plant_pick_petal : string -> option User -> DB -> string * DB.
Variable Plant_harvest : string -> DB -> DB.
Variable stage_names : Z -> string.
Variable active : string -> Plant -> bool.
Variable User_login : string -> DB -> option Certificate.

(** The plant object of a user: [user.plant]. *)
Definition plant_of (u : User) (w : World) : Plant :=
    plants (db w) !!! user_id u.

(** [plant.refresh()] *)
Definition refresh (u : User) : M unit :=
    call (PlantRefresh (user_id u));;;
    let* t := datetime_now in
    let* d := get_db in
    put_db (set_plants
              <[user_id u := Plant_refresh t (plants d !!! user_id u)]> d).

(** [plant.save()]: the plant object is already the stored one. *)
Definition save (u : User) : M unit := call (PlantSave (user_id u)).

(** [plant.dead] *)
Definition read_dead (u : User) : M bool :=
    call (PlantReadDead (user_id u));;;
    fun w => (dead (plant_of u w), w).

(** [plant.stage] *)
Definition read_stage (u : User) : M Z :=
    call (PlantReadStage (user_id u));;;
    fun w => (stage (plant_of u w), w).

(** [plant.stage_str] *)
Definition read_stage_str (u : User) : M string :=
    let* s := read_stage u in ret (stage_names s).

(** [plant.water(user)] *)
Definition water_plant (owner : User) (actor : option User) : M string :=
    call (PlantWater (user_id owner) actor);;;
    let* t := datetime_now in
    let* d := get_db in
    let '(alert, d') := Plant_water (user_id owner) actor t d in
    put_db d';;; ret alert.

(** [plant.pick_petal(user)] *)
Definition pick_petal (owner : User) (actor : option User) : M string :=
    call (PlantPickPetal (user_id owner) actor);;;
    let* d := get_db in
    let '(alert, d') := Plant_pick_petal (user_id owner) actor d in
    put_db d';;; ret alert.

(** [plant.harvest()] *)
Definition harvest_plant (owner : User) : M unit :=
    call (PlantHarvest (user_id owner));;;
    let* d := get_db in
    put_db (Plant_harvest (user_id owner) d).

(** [user.remove_item(item, quantity=...)] *)
Definition User_remove_item (u : User) (item : Items.Item) (quantity : Z)
    : M bool :=
    call (UserRemoveItem u item quantity);;;
    let* d := get_db in
    let '(ok, d') := remove_item u item quantity d in
    put_db d';;; ret ok.

(** [user.add_item(item)] *)
Definition User_add_item (u : User) (item : Items.Item) : M unit :=
    call (UserAddItem u item);;;
    let* d := get_db in
    put_db (add_item u item 1 d).

(** [User.get_or_none(user_id=user_id)] *)
Definition User_get_or_none (uid : string) : M (option User) :=
    let* d := get_db in ret (mkUser uid <$> users d !! uid).

(** [Inbox.get_or_none(id=message_id, user_to=user)] *)
Definition Inbox_get_or_none (message_id : Z) (recipient : User)
    : M (option Inbox) :=
    let* d := get_db in
    ret (match inbox d !! message_id with
         | Some m =>
             if bool_decide (user_to m = user_id recipient) then Some m
             else None
         | None => None
         end).

(** [Inbox.create(user_from=..., user_to=..., subject=..., body=...)]: one
    new row under a primary key not in use. *)
Definition Inbox_create (sender recipient : User) (subject body : string)
    : M unit :=
    call (InboxCreate sender recipient subject);;;
    let* d := get_db in
    put_db (set_inbox
              <[fresh (dom (inbox d)) :=
                  mkInbox (user_id sender) (user_id recipient) subject body
                    false]> d).

(** [request.user == user]: two user objects are equal when they are the
    same row. *)
Definition same_user (u v : User) : bool :=
    bool_decide (user_id u = user_id v).

(** The wrapper [authenticate(func)]. *)
Definition authenticate (func : AuthRequest -> M Response)
    (request : Request) : M Response :=
    if negb (has_REMOTE_USER request) then
      if negb (String.eqb (path request) "/app") then
        ret (Response_ REDIRECT_TEMPORARY "/app")
      else
        ret (Response_ CLIENT_CERTIFICATE_REQUIRED
               "Attach your client certificate to continue.")
    else
      let fingerprint :=
        if TLS_CLIENT_AUTHORISED request
        then format_032X (TLS_CLIENT_SERIAL_NUMBER request)
        else TLS_CLIENT_HASH request in
      let* d := get_db in
      match User_login fingerprint d with
      | None =>
          ret (mkResponse SUCCESS "text/gemini"
                 (render_template "register.gmi"
                    [("fingerprint", VStr fingerprint)]))
      | Some cert =>
          let request := mkAuthRequest request cert (cert_user cert) in
          refresh (user request);;;
          let* response := func request in
          save (user request);;;
          ret response
      end.

(** [store_purchase], route [/app/store/purchase/(?P<item_id>[0-9]+)]. *)
Definition store_purchase (request : AuthRequest) (item_id : string)
    : M Response :=
    let item_id := int item_id in
    match Items.registry items !! item_id with
    | None => ret (Response_ BAD_REQUEST "Item was not found")
    | Some item =>
        if negb (Items.for_sale item) then
          ret (Response_ BAD_REQUEST "Item is not for sale")
        else if negb (PyStr.truthy (query request)) then
          ret (Response_ INPUT
                 ("Confirm: purchase 1 " ++ Items.name item ++ " for "
                  ++ pretty (Items.price item) ++ " coins. [Y]es/[N]o."))
        else if bool_decide
                  (PyStr.lower (PyStr.strip (query request)) ∈ ["y"; "yes"])
        then
          let* ok := User_remove_item (user request) (Items.coin items)
                       (Items.price item) in
          if ok then
            User_add_item (user request) item;;;
            ret (Response_ REDIRECT_TEMPORARY "/app/store")
          else ret (Response_ BAD_REQUEST "Insufficient funds")
        else ret (Response_ REDIRECT_TEMPORARY "/app/store")
    end.

(** [mailbox_view], route [/app/mailbox/(?P<message_id>[0-9]+)]. *)
Definition mailbox_view (request : AuthRequest) (message_id : string)
    : M Response :=
    let* message := Inbox_get_or_none (int message_id) (user request) in
    match message with
    | None => ret (Response_ BAD_REQUEST "You shouldn't be here!")
    | Some message =>
        let message :=
          mkInbox (user_from message) (user_to message) (subject message)
            (body message) true in
        call (InboxSave (int message_id));;;
        let* d := get_db in
        put_db (set_inbox <[int message_id := message]> d);;;
        ret (mkResponse SUCCESS "text/gemini"
               (render_template "mailbox_view.gmi"
                  [("message", VInbox message)]))
    end.

(** [water], route [/app/plant/water]. *)
Definition water (request : AuthRequest) : M Response :=
    let* alert := water_plant (user request) None in
    session_set request "alert" alert;;;
    ret (Response_ REDIRECT_TEMPORARY "/app/plant").

(** [search], route [/app/plant/search]. *)
Definition search (request : AuthRequest) : M Response :=
    let* is_dead := read_dead (user request) in
    let* reject :=
      if is_dead then ret true
      else let* s := read_stage (user request) in
           ret (negb (bool_decide (s = 4))) in
    if reject then ret (Response_ BAD_REQUEST "You shouldn't be here!")
    else
      let* alert := pick_petal (user request) None in
      session_set request "alert" alert;;;
      ret (Response_ REDIRECT_TEMPORARY "/app/plant").

(** [harvest], routes [/app/plant/harvest] and [/app/plant/harvest/confirm]. *)
Definition harvest (request : AuthRequest) : M Response :=
    let* is_dead := read_dead (user request) in
    let* allowed :=
      if is_dead then ret true
      else let* s := read_stage (user request) in
           ret (bool_decide (s = 5)) in
    if negb allowed then ret (Response_ BAD_REQUEST "You shouldn't be here!")
    else
      let* w := (fun w => (w, w)) in
      let plant := plant_of (user request) w in
      if PyStr.endswith (path request) "/confirm" then
        if String.eqb (PyStr.strip (query request))
             ("Goodbye " ++ plant_name plant)
        then
          harvest_plant (user request);;;
          ret (Response_ REDIRECT_TEMPORARY "/app/epilog/1")
        else if PyStr.truthy (query request) then
          ret (Response_ REDIRECT_TEMPORARY "/app/plant/harvest")
        else
          ret (Response_ INPUT
                 ("Type " ++ PyStr.dquote ++ "Goodbye " ++ plant_name plant
                  ++ PyStr.dquote ++ " to send off your plant."))
      else
        ret (mkResponse SUCCESS "text/gemini"
               (render_template "plant_harvest.gmi" [("plant", VPlant plant)])).

(** [request.plant.name = value] *)
Definition set_plant_name (u : User) (value : string) : M unit :=
    let* d := get_db in
    let p := plants d !!! user_id u in
    put_db (set_plants
              <[user_id u :=
                  mkPlant value (stage p) (dead p) (score p) (watered_at p)
                    (generation p)]> d).

(** [name], route [/app/plant/name]. *)
Definition name (request : AuthRequest) : M Response :=
    if negb (PyStr.truthy (query request)) then
      ret (Response_ INPUT "Enter a new nickname for your plant:")
    else
      set_plant_name (user request) (PyStr.take 40 (query request));;;
      let* w := (fun w => (w, w)) in
      let msg :=
        "Your plant shall henceforth be known as " ++ PyStr.dquote
        ++ plant_name (plant_of (user request) w) ++ PyStr.dquote ++ "." in
      session_set request "alert" msg;;;
      ret (Response_ REDIRECT_TEMPORARY "/app/plant").

(** [timedelta(days=8)] in microseconds. *)
Definition eight_days : Z := 8 * 86400 * 1000000.

(** [Plant.all_active()]: the rows that pass the criterion of models.py, each
    with the [user_id] of its owner.  The call takes no argument, so the
    criterion cannot look at the request. *)
Definition all_active (d : DB) : list (string * Plant) :=
    filter (fun row => active row.1 row.2) (map_to_list (plants d)).

(** [.order_by(Plant.score.desc())] *)
Definition by_score_desc (a b : string * Plant) : Prop :=
    score b.2 <= score a.2.

#[local] Instance by_score_desc_dec a b : Decision (by_score_desc a b).
Proof. unfold by_score_desc. apply _. Defined.

(** [visit], route [/app/visit]. *)
Definition visit (request : AuthRequest) : M Response :=
    let* t := datetime_now in
    let* d := get_db in
    let plants :=
      merge_sort by_score_desc
        (filter (fun row =>
                   0 < score row.2 /\ t - eight_days <= watered_at row.2)
           (all_active d)) in
    ret (mkResponse SUCCESS "text/gemini"
           (render_template "visit.gmi" [("plants", VPlants plants)])).

(** The plants a response of [visit] hands to its template. *)
Definition listed_plants (r : Response) : list (string * Plant) :=
    match resp_body r with
    | Rendered _ [(_, VPlants ps)] => ps
    | _ => []
    end.

(** [visit_plant_water], route [/app/visit/(?P<user_id>[0-9a-f]{32})/water]. *)
Definition visit_plant_water (request : AuthRequest) (user_id : string)
    : M Response :=
    let* user := User_get_or_none user_id in
    match user with
    | None => ret (Response_ NOT_FOUND "User not found")
    | Some user =>
        if same_user (Views.user request) user then
          ret (Response_ REDIRECT_TEMPORARY "/app/plant")
        else
          refresh user;;;
          let* alert := water_plant user (Some (Views.user request)) in
          session_set request "alert" alert;;;
          save user;;;
          ret (Response_ REDIRECT_TEMPORARY ("/app/visit/" ++ user_id))
    end.

(** [visit_plant_search], route
    [/app/visit/(?P<user_id>[0-9a-f]{32})/search]. *)
Definition visit_plant_search (request : AuthRequest) (user_id : string)
    : M Response :=
    let* user := User_get_or_none user_id in
    match user with
    | None => ret (Response_ NOT_FOUND "User not found")
    | Some user =>
        if same_user (Views.user request) user then
          ret (Response_ REDIRECT_TEMPORARY "/app/plant")
        else
          let* is_dead := read_dead user in
          let* reject :=
            if is_dead then ret true
            else let* s := read_stage_str user in
                 ret (negb (String.eqb s "flowering")) in
          if reject then
            ret (Response_ BAD_REQUEST "You shouldn't be here!")
          else
            refresh user;;;
            let* alert := pick_petal user (Some (Views.user request)) in
            session_set request "alert" alert;;;
            save user;;;
            ret (Response_ REDIRECT_TEMPORARY ("/app/visit/" ++ user_id))
    end.

(** [visit_plant_postcard_subject], route
    [/app/visit/(?P<user_id>[0-9a-f]{32})/postcard/subject]. *)
Definition visit_plant_postcard_subject (request : AuthRequest)
    (user_id : string) : M Response :=
    let* user := User_get_or_none user_id in
    match user with
    | None => ret (Response_ NOT_FOUND "User not found")
    | Some user =>
        if negb (PyStr.truthy (query request)) then
          ret (Response_ INPUT "Enter the message subject (max 128 chars):")
        else if bool_decide (128 < PyStr.len (query request)) then
          ret (Response_ BAD_REQUEST "Subject exceeds maximum length")
        else
          session_set request "postcard_subject" (query request);;;
          ret (Response_ REDIRECT_TEMPORARY
                 ("/app/visit/" ++ user_id ++ "/postcard"))
    end.

(** [bool(request.session.get(key))]: true for a stored, non-empty text. *)
Definition truthy_opt (v : option string) : bool :=
    match v with
    | Some s => PyStr.truthy s
    | None => false
    end.

(** [visit_plant_postcard_send], route
    [/app/visit/(?P<user_id>[0-9a-f]{32})/postcard/send].  The [pop] without
    a default is reached only when the key is present. *)
Definition visit_plant_postcard_send (request : AuthRequest)
    (user_id : string) : M Response :=
    let* user := User_get_or_none user_id in
    match user with
    | None => ret (Response_ NOT_FOUND "User not found")
    | Some user =>
        let* drafted := session_get request "postcard_subject" in
        if negb (truthy_opt drafted) then
          ret (Response_ BAD_REQUEST "Postcard subject cannot be blank.")
        else
          let* ok := User_remove_item (Views.user request)
                       (Items.postcard items) 1 in
          if negb ok then
            ret (Response_ BAD_REQUEST
                   "You do not have any postcards in your inventory.")
          else
            let* popped := session_pop request "postcard_subject" in
            let subject := default "" popped in
            let body := "Hello world!" in
            Inbox_create (Views.user request) user subject body;;;
            session_set request "alert"
              ("Your postcard to " ++ username user ++ " has been mailed!");;;
            ret (Response_ REDIRECT_TEMPORARY ("/app/visit/" ++ user_id))
    end.

End Handlers.

End Views.

(** ** The handler [files] of views.py, with the path functions of
    Python's standard library it relies on (POSIX flavour) *)

Module Files.

Import Views.

(** A [pathlib.PurePosixPath]: its root ([""], ["/"] or ["//"]) and the
    components after the root. *)
Record Path := mkPath {
    root : string;
    parts : list string;
}.

(** [splitroot] of the POSIX flavour: the root and the remainder. *)
Definition splitroot (part : string) : string * string :=
    if PyStr.startswith part "/" then
      let stripped := PyStr.lstrip_chars "/" part in
      if (String.length part - String.length stripped =? 2)%nat
      then ("//", stripped) else ("/", stripped)
    else ("", part).

Definition keeps (x : string) : bool :=
    negb (String.eqb x "") && negb (String.eqb x ".").

(** [pathlib.Path(s)]: empty and ["."] components are dropped. *)
Definition Path_of (s : string) : Path :=
    let '(root, rel) := splitroot s in
    mkPath root (List.filter keeps (PyStr.split "/" rel)).

(** [str(path)] *)
Definition Path_str (p : Path) : string :=
    let s := root p ++ PyStr.join "/" (parts p) in
    if String.eqb s "" then "." else s.

(** [path.is_absolute()] *)
Definition is_absolute (p : Path) : bool := PyStr.truthy (root p).

(** [base / p]: an absolute [p] replaces [base]. *)
Definition joinpath (base p : Path) : Path :=
    if is_absolute p then p else mkPath (root base) (parts base ++ parts p).

(** One turn of the loop of [posixpath.normpath] over the components. *)
Definition normpath_step (initial_slashes : nat) (new_comps : list string)
    (comp : string) : list string :=
    if String.eqb comp "" || String.eqb comp "." then new_comps
    else if negb (String.eqb comp "..")
            || ((initial_slashes =? 0)%nat
                && match new_comps with [] => true | _ => false end)
            || match last new_comps with
               | Some l => String.eqb l ".."
               | None => false
               end
    then new_comps ++ [comp]
    else removelast new_comps.

(** [os.path.normpath(path)] *)
Definition normpath (path : string) : string :=
    if String.eqb path "" then "."
    else
      let initial_slashes :=
        if PyStr.startswith path "/" then
          if PyStr.startswith path "//" && negb (PyStr.startswith path "///")
          then 2%nat else 1%nat
        else 0%nat in
      let comps := PyStr.split "/" path in
      let new_comps := foldl (normpath_step initial_slashes) [] comps in
      let path := PyStr.join "/" new_comps in
      let path :=
        match initial_slashes with
        | 0%nat => path
        | 1%nat => "/" ++ path
        | _ => "//" ++ path
        end in
      if String.eqb path "" then "." else path.

(** A component without separator, and a component that names an entry
    of its directory: not empty, not [.], not [..], without separator. *)
Definition sep_free (x : string) : Prop := PyStr.mem_char "/" x = false.

Definition plain (x : string) : Prop :=
    x <> "" /\ x <> "." /\ x <> ".." /\ sep_free x.

Section Handler.

(** [FILES_DIR] depends on where the package is installed.  The file
    system is seen through [exists] and [read_bytes] on the text of a path;
    [guess_type] is [mimetypes.guess_type]. *)
Variable FILES_DIR : string.
Variable path_exists : string -> bool.
Variable read_bytes : string -> string.
Variable guess_type : string -> option string * option string.

(** [files], the route [/files/] followed by any text, which is [path].
    The result is the response and the paths whose bytes were read. *)
Definition files (path : string) : Response * list string :=
    let url_path := Path_of (PyStr.strip_chars "/" path) in
    let filename := Path_of (normpath (Path_str url_path)) in
    if is_absolute filename || PyStr.startswith (Path_str filename) ".."
    then (Response_ NOT_FOUND "Not Found", [])
    else
      let filepath := joinpath (Path_of FILES_DIR) filename in
      if negb (path_exists (Path_str filepath)) then
        (Response_ NOT_FOUND "Not Found", [])
      else
        let '(mime, encoding) := guess_type (Path_str filename) in
        let mimetype :=
          if truthy_opt encoding then
            default "None" mime ++ "; charset=" ++ default "" encoding
          else if truthy_opt mime then default "" mime
          else "application/octet-stream" in
        let body := read_bytes (Path_str filepath) in
        (mkResponse SUCCESS mimetype (FileBytes body), [Path_str filepath]).

End Handler.

End Files.

(** ** Concrete data on which the handlers are evaluated *)

Module Samples.

Import Models Views.

Definition COLORS : list string :=
    ["red"; "orange"; "yellow"; "green"; "blue"; "indigo"; "violet";
     "white"; "black"; "gold"].

(** A [dedent] that leaves its text alone. *)
Definition keep_text (s : string) : string := s.

Definition alice_id : string := "0000000000000000000000000000000a".
Definition bob_id : string := "0000000000000000000000000000000b".

Definition alice : User := mkUser alice_id "alice".
Definition bob : User := mkUser bob_id "bob".

Definition alice_cert : Certificate := mkCertificate "A1" alice false.
Definition bob_cert : Certificate := mkCertificate "B1" bob false.

(** A [User.login] that looks the fingerprint up in the table. *)
Definition login (fp : string) (d : DB) : option Certificate :=
    certificates d !! fp.

(** A stage table in which stage 4 is the one named "flowering". *)
Definition stage_table (s : Z) : string :=
    if s =? 0 then "seed"
    else if s =? 1 then "seedling"
    else if s =? 2 then "young"
    else if s =? 3 then "mature"
    else if s =? 4 then "flowering"
    else if s =? 5 then "seed-bearing"
    else "".

(** A [refresh] that applies the drought rule only: a plant not watered for
    more than five days is dead. *)
Definition drought_refresh (t : Z) (p : Plant) : Plant :=
    if watered_at p + 5 * 86400 * 1000000 <? t then
      mkPlant (plant_name p) (stage p) true (score p) (watered_at p)
        (generation p)
    else p.

(** A [pick_petal] that hands the first petal of the catalogue to the
    actor, or to the owner when there is no actor. *)
Definition pick_first_petal (owner : string) (actor : option User) (d : DB)
    : string * DB :=
    let receiver := default (mkUser owner "") actor in
    match Items.registry (Views.items COLORS keep_text) !! 3 with
    | Some petal => ("You picked a petal.", add_item receiver petal 1 d)
    | None => ("", d)
    end.

(** A [harvest] that starts the next generation in place. *)
Definition next_generation (owner : string) (d : DB) : DB :=
    let p := plants d !!! owner in
    set_plants
      <[owner := mkPlant (plant_name p) 0 false (score p) (watered_at p)
                   (generation p + 1)]> d.

(** Every plant is active: a plant is never deleted, only harvested and
    reset in place. *)
Definition every_plant (owner : string) (p : Plant) : bool := true.

(** Forty days on the clock; alice's plant "fern" is dead, bob's plant
    "moss" is stored as flowering and alive but was last watered at time 0.
    Alice owns 100 coins (item 13) and one postcard (item 14); she has
    drafted a postcard subject; one message to bob waits in the inbox. *)
Definition day : Z := 86400 * 1000000.

Definition garden : DB :=
    mkDB
      (<[alice_id := "alice"]> (<[bob_id := "bob"]> ∅))
      (<["A1" := alice_cert]> (<["B1" := bob_cert]> ∅))
      (<[alice_id := mkPlant "fern" 2 true 7 (39 * day) 1]>
         (<[bob_id := mkPlant "moss" 4 false 5 0 1]> ∅))
      (<[(alice_id, 13) := 100]> (<[(alice_id, 14) := 1]> ∅))
      (<[1 := mkInbox alice_id bob_id "hello" "Hello world!" false]> ∅).

Definition world : World :=
    mkWorld garden
      (<[alice_id := <["postcard_subject" := "greetings"]> ∅]> ∅)
      (40 * day) [].

Definition request_of (path query fp : string) : Request :=
    mkRequest path query true false 0 fp.

Definition as_alice (path query : string) : AuthRequest :=
    mkAuthRequest (request_of path query "A1") alice_cert alice.

Definition as_bob (path query : string) : AuthRequest :=
    mkAuthRequest (request_of path query "B1") bob_cert bob.

End Samples.

(** ** More of items.py and views.py *)

Module Catalogue.

Import Items.

Section Petals.

Variable dedent : string -> string.

(** The petal item that the loop constructs for [color] when the registry
    already holds [before] items. *)
Definition petal_item (before : nat) (color : string) : Item :=
    mkItem (Z.of_nat before + 1) 0 ("flower petal [" ++ color ++ "]")
      (PyStr.strip
         (dedent
            (petal_description
               (if bool_decide (color ∈ ["orange"; "indigo"])
                then "an " ++ color else "a " ++ color))))
      false.

End Petals.

End Catalogue.

Module MoreViews.

Import Models Views.

(** A text handed to [Response] as its body. *)
Definition Text (s : string) : Body := FileBytes s.

(** [Message.by_date().paginate(page, paginate_by)] of peewee: page numbers
    start at 1, and page 0 is read as page 1. *)
Definition paginate {A : Type} (page paginate_by : Z) (rows : list A)
    : list A :=
    let page := if bool_decide (0 < page) then page - 1 else page in
    take (Z.to_nat paginate_by) (drop (Z.to_nat (page * paginate_by)) rows).

(** [int(math.ceil(count / paginate_by))] for a count and a positive page
    size: the quotient is a float, whose ceiling is the integer ceiling for
    every count below 2^53. *)
Definition ceil_div (count paginate_by : Z) : Z :=
    (count + paginate_by - 1) / paginate_by.

Section Handlers.

Variable COLORS_PLAIN : list string.
Variable dedent : string -> string.

(** More methods of models.py, taken as the ones before: the observation
    shown for a plant, [shake] and [fertilize] as transformers of the
    tables, [set_password] followed by [save], the primary key of the
    certificate row with a given fingerprint, and the messages of the board
    in the order of [Message.by_date()]. *)
Variable Plant_refresh : Z -> Plant -> Plant.
Variable Plant_water : string -> option User -> Z -> DB -> string * DB.
Variable Plant_get_observation : Plant -> bool -> string.
Variable Plant_shake : string -> DB -> string * DB.
Variable User_set_password : User -> string -> DB -> DB.
Variable cert_pk : string -> Z.

(** [plant], route [/app/plant]. *)
Definition plant (request : AuthRequest) : M Response :=
    let* popped := session_pop request "alert" in
    let* w := (fun w => (w, w)) in
    let alert :=
      match popped with
      | Some alert => alert
      | None =>
          Plant_get_observation (plant_of (user request) w)
            (ansi_enabled (cert request))
      end in
    ret (mkResponse SUCCESS "text/gemini"
           (render_template "plant.gmi"
              [("plant", VPlant (plant_of (user request) w));
               ("alert", VStr alert)])).

(** [shake], route [/app/plant/shake]. *)
Definition shake (request : AuthRequest) : M Response :=
    let* is_dead := read_dead (user request) in
    if is_dead then ret (Response_ BAD_REQUEST "You shouldn't be here!")
    else
      let* d := get_db in
      let '(alert, d') := Plant_shake (user_id (user request)) d in
      put_db d';;;
      session_set request "alert" alert;;;
      ret (Response_ REDIRECT_TEMPORARY "/app/plant").

(** [visit_plant], route [/app/visit/(?P<user_id>[0-9a-f]{32})]. *)
Definition visit_plant (request : AuthRequest) (user_id : string)
    : M Response :=
    let* user := User_get_or_none user_id in
    match user with
    | None => ret (Response_ NOT_FOUND "User not found")
    | Some user =>
        if same_user (Views.user request) user then
          ret (Response_ REDIRECT_TEMPORARY "/app/plant")
        else
          refresh Plant_refresh user;;;
          save user;;;
          let* d := get_db in
          let has_postcard :=
            get_item_quantity (Views.user request)
              (Items.postcard (Views.items COLORS_PLAIN dedent)) d in
          let* alert := session_pop request "alert" in
          let* w := (fun w => (w, w)) in
          ret (mkResponse SUCCESS "text/gemini"
                 (render_template "visit_plant.gmi"
                    [("plant", VPlant (plant_of user w));
                     ("alert", match alert with
                               | Some a => VStr a
                               | None => VNone
                               end);
                     ("has_postcard", VInt has_postcard)]))
    end.

(** [view_item], route [/app/items/(?P<item_id>[0-9]+)].  The registry is
    indexed directly: an id that is not registered raises [KeyError], which
    is the result [None]; otherwise the result is the item that the
    template [item.gmi] is rendered with. *)
Definition view_item (request : AuthRequest) (item_id : string)
    : M (option Items.Item) :=
    ret (Items.registry (Views.items COLORS_PLAIN dedent) !! int item_id).

(** [settings_password], route [/app/settings/password]. *)
Definition settings_password (request : AuthRequest) : M Response :=
    let* new_password := session_pop request "new_password" in
    if negb (PyStr.truthy (query request)) then
      ret (Response_ SENSITIVE_INPUT "Enter your new password:")
    else if negb (truthy_opt new_password) then
      session_set request "new_password" (query request);;;
      ret (Response_ SENSITIVE_INPUT
             "Confirm your new password (enter it again):")
    else
      let new_password := default "" new_password in
      if negb (String.eqb new_password (query request)) then
        ret (Response_ BAD_REQUEST "Passwords did not match!")
      else
        let* d := get_db in
        put_db (User_set_password (user request) new_password d);;;
        ret (mkResponse SUCCESS "text/gemini"
               (Text "Password successfully updated!

=>/app/settings back")).

(** [request.cert.ansi_enabled = value] followed by [request.cert.save()]:
    [save] on an object with a primary key updates its row, when there is
    one, with the fields of the object. *)
Definition save_ansi_enabled (c : Certificate) (value : bool) : M unit :=
    let* d := get_db in
    put_db
      (mkDB (users d)
         (alter (fun _ => mkCertificate (fingerprint c) (cert_user c) value)
            (fingerprint c) (certificates d))
         (plants d) (item_slots d) (inbox d)).

(** [settings_ansi_enabled], route [/app/settings/ansi_enabled]. *)
Definition settings_ansi_enabled (request : AuthRequest) : M Response :=
    if negb (PyStr.truthy (query request)) then
      ret (Response_ INPUT "Enable ANSI support for colors? [T]rue / [F]alse")
    else
      let answer := PyStr.lower (PyStr.strip (query request)) in
      if bool_decide (answer ∈ ["t"; "true"]) then
        save_ansi_enabled (cert request) true;;;
        ret (Response_ REDIRECT_TEMPORARY "/app/settings")
      else if bool_decide (answer ∈ ["f"; "false"]) then
        save_ansi_enabled (cert request) false;;;
        ret (Response_ REDIRECT_TEMPORARY "/app/settings")
      else
        ret (Response_ BAD_REQUEST
               ("Invalid query value: " ++ query request)).

(** [Certificate.get_or_none(id=certificate_id)]: the row with this
    primary key. *)
Definition Certificate_get_or_none (k : Z) (d : DB) : option Certificate :=
    snd <$> head (map_to_list
                    (filter (fun row : string * Certificate =>
                               cert_pk row.1 = k)
                       (certificates d))).

(** [cert.delete_instance()]: the rows with the primary key of [cert] go. *)
Definition delete_instance (c : Certificate) (d : DB) : DB :=
    mkDB (users d)
      (filter (fun row : string * Certificate =>
                 cert_pk row.1 <> cert_pk (fingerprint c))
         (certificates d))
      (plants d) (item_slots d) (inbox d).

(** The certificate table is keyed by fingerprint, and no two rows share a
    primary key. *)
Definition certificates_keyed (d : DB) : Prop :=
    (forall fp c, certificates d !! fp = Some c -> fingerprint c = fp)
    /\ (forall fp1 fp2,
          is_Some (certificates d !! fp1) -> is_Some (certificates d !! fp2) ->
          cert_pk fp1 = cert_pk fp2 -> fp1 = fp2).

(** [settings_certificates_delete], route
    [/app/settings/certificates/(?P<certificate_id>[0-9]+)/delete]. *)
Definition settings_certificates_delete (request : AuthRequest)
    (certificate_id : string) : M Response :=
    let* d := get_db in
    match Certificate_get_or_none (int certificate_id) d with
    | None => ret (Response_ BAD_REQUEST "Certificate not found")
    | Some cert =>
        if negb (same_user (cert_user cert) (user request)) then
          ret (Response_ BAD_REQUEST "Certificate not found")
        else if bool_decide (cert_pk (fingerprint cert)
                             = cert_pk (fingerprint (Views.cert request)))
        then
          ret (Response_ BAD_REQUEST
                 "You cannot delete your active certificate")
        else if negb (PyStr.truthy (query request)) then
          ret (Response_ INPUT
                 ("Are you sure you want to delete certificate "
                  ++ PyStr.take 10 (fingerprint cert) ++ "? Type "
                  ++ PyStr.dquote ++ "confirm" ++ PyStr.dquote
                  ++ " to continue."))
        else if negb (String.eqb (PyStr.lower (query request)) "confirm")
        then ret (Response_ BAD_REQUEST "Action cancelled")
        else
          put_db (delete_instance cert d);;;
          ret (Response_ REDIRECT_TEMPORARY "/app/settings/certificates")
    end.

End Handlers.

(** What [message_board] hands to its template, or the NOT_FOUND answer to
    an invalid page number. *)
Inductive BoardPage (A : Type) :=
| InvalidPage
| Board (items : list A) (page page_count : Z).

Arguments InvalidPage {A}.
Arguments Board {A} items page page_count.

(** [message_board], routes [/app/message-board] (page 1) and
    [/app/message-board/(?P<page>[0-9]+)].  [count] is
    [Message.select().count()] and [by_date] the rows of
    [Message.by_date()]. *)
Definition message_board {A : Type} (page : string) (count : Z)
    (by_date : list A) : BoardPage A :=
    let page := int page in
    let paginate_by := 10 in
    let page_count := ceil_div count paginate_by in
    let page_count := Z.max page_count 1 in
    if bool_decide (page_count < page) then InvalidPage
    else Board (paginate page paginate_by by_date) page page_count.

End MoreViews.

Module MoreSamples.

Import Models Views Samples.

(** A [water] that stamps the plant with the time of watering. *)
Definition rain (owner : string) (actor : option User) (t : Z) (d : DB)
    : string * DB :=
    let p := plants d !!! owner in
    ("You water the plant.",
     set_plants
       <[owner := mkPlant (plant_name p) (stage p) (dead p) (score p) t
                    (generation p)]> d).

(** An observation that names the plant. *)
Definition look (p : Plant) (ansi : bool) : string :=
    "You look at " ++ plant_name p ++ ".".

(** A [shake] that drops one coin into the owner's inventory. *)
Definition shake_a_coin (owner : string) (d : DB) : string * DB :=
    ("A coin falls out.",
     add_item (mkUser owner "") (Items.coin (Views.items COLORS keep_text)) 1 d).

(** The tables kept here hold no password: a [set_password] that leaves
    them as they are. *)
Definition keep_tables (u : User) (password : string) (d : DB) : DB := d.

(** Primary keys of three certificate rows. *)
Definition pk (fp : string) : Z :=
    if String.eqb fp "A1" then 1
    else if String.eqb fp "B1" then 2
    else if String.eqb fp "A2" then 3
    else 0.

(** The sample world once alice has registered a second certificate. *)
Definition second_certificate : World :=
    mkWorld
      (mkDB (users garden)
         (<["A2" := mkCertificate "A2" alice true]> (certificates garden))
         (plants garden) (item_slots garden) (inbox garden))
      (sessions world) (now world) (calls world).

End MoreSamples.

(** * Properties *)

Section CatalogueFacts.

Import Items.

Variable COLORS_PLAIN : list string.
Variable dedent : string -> string.

Lemma dense_empty : dense ∅.
Proof.
  intros i. rewrite lookup_empty, map_size_empty. split.
  - intros [x Hx]. discriminate.
  - simpl. lia.
Qed.

Lemma dense_fresh (r : gmap Z Item) :
  dense r -> r !! (Z.of_nat (size r) + 1) = None.
Proof.
  intros Hd. destruct (r !! (Z.of_nat (size r) + 1)) eqn:E; [|done].
  assert (is_Some (r !! (Z.of_nat (size r) + 1))) as Hs by eauto.
  apply Hd in Hs. lia.
Qed.

Lemma Item_init_size p n d f (r : gmap Z Item) :
  dense r -> size (Item_init dedent p n d f r).2 = S (size r).
Proof.
  intros Hd. simpl. apply map_size_insert_None, dense_fresh, Hd.
Qed.

Lemma Item_init_dense p n d f (r : gmap Z Item) :
  dense r -> dense (Item_init dedent p n d f r).2.
Proof.
  intros Hd i. rewrite Item_init_size by done. simpl.
  rewrite lookup_insert. case_decide as Hi.
  - split; [lia | eauto].
  - rewrite (Hd i). lia.
Qed.

Lemma run_calls_lookup calls : forall (r : gmap Z Item) (i : Z),
  dense r ->
  dense (run_calls dedent calls r)
  /\ size (run_calls dedent calls r) = (size r + List.length calls)%nat
  /\ run_calls dedent calls r !! i =
       if decide (i <= Z.of_nat (size r)) then r !! i
       else numbered_from dedent (size r) calls
              !! Z.to_nat (i - Z.of_nat (size r) - 1).
Proof.
  induction calls as [|c calls IH]; intros r i Hd.
  - simpl. split; [done|]. split; [lia|]. case_decide; [done|].
    symmetry. destruct (r !! i) eqn:E; [|done].
    assert (is_Some (r !! i)) as Hs by eauto. apply Hd in Hs. lia.
  - destruct c as [[[p n] d] f].
    change (run_calls dedent ((p, n, d, f) :: calls) r)
      with (run_calls dedent calls (Item_init dedent p n d f r).2).
    pose proof (Item_init_dense p n d f r Hd) as Hd'.
    pose proof (Item_init_size p n d f r Hd) as Hs'.
    destruct (IH _ i Hd') as (H1 & H2 & H3).
    split; [done|]. split; [rewrite H2, Hs'; simpl; lia|].
    rewrite H3, Hs'. unfold numbered_from. simpl.
    rewrite lookup_insert.
    repeat case_decide; try lia.
    + subst i.
      replace (Z.to_nat (Z.of_nat (size r) + 1 - Z.of_nat (size r) - 1))
        with 0%nat by lia.
      simpl. by rewrite Nat.add_0_r.
    + done.
    + replace (Z.to_nat (i - Z.of_nat (size r) - 1))
        with (S (Z.to_nat (i - Z.of_nat (S (size r)) - 1))) by lia.
      simpl. f_equal. apply imap_ext. intros k [[[p' n'] d'] f'] _.
      simpl. do 2 f_equal. lia.
Qed.

Lemma petals_loop_registry colors : forall (pt : gmap string Item) (r : gmap Z Item),
  (foldl (petals_step dedent) (pt, r) colors).2
  = run_calls dedent (map petal_call colors) r.
Proof.
  induction colors as [|c colors IH]; intros pt r; [done|].
  simpl. rewrite IH. reflexivity.
Qed.

Lemma run_calls_app calls1 calls2 (r : gmap Z Item) :
  run_calls dedent (calls1 ++ calls2) r
  = run_calls dedent calls2 (run_calls dedent calls1 r).
Proof. unfold run_calls. apply foldl_app. Qed.

Lemma module_registry :
  registry (module_ COLORS_PLAIN dedent)
  = run_calls dedent (constructor_calls COLORS_PLAIN) ∅.
Proof.
  unfold module_, constructor_calls.
  change (?a :: ?b :: ?l ++ ?t) with ([a; b] ++ (l ++ t)).
  rewrite !run_calls_app. simpl.
  match goal with
  | |- context [foldl (petals_step dedent) (?pt, ?r) COLORS_PLAIN] =>
      pose proof (petals_loop_registry COLORS_PLAIN pt r) as Hloop;
      destruct (foldl (petals_step dedent) (pt, r) COLORS_PLAIN) as [pt' r']
  end.
  simpl in *. subst r'. reflexivity.
Qed.

Lemma numbered_from_lookup base calls k it :
  numbered_from dedent base calls !! k = Some it ->
  exists p n d f,
    calls !! k = Some (p, n, d, f)
    /\ it = mkItem (Z.of_nat (base + k) + 1) p n (PyStr.strip (dedent d)) f.
Proof.
  unfold numbered_from. rewrite list_lookup_imap.
  destruct (calls !! k) as [[[[p n] d] f]|]; simpl; [|done].
  intros [= <-]. by exists p, n, d, f.
Qed.

Lemma constructor_calls_price k p n d f :
  constructor_calls COLORS_PLAIN !! k = Some (p, n, d, f) -> 0 <= p.
Proof.
  intros H. apply list_elem_of_lookup_2 in H. unfold constructor_calls in H.
  rewrite !elem_of_app, !elem_of_cons, list_elem_of_fmap, !elem_of_nil in H.
  destruct H as [[H|[H|[]]]|[(c & H & _)|[H|[H|[]]]]];
    unfold petal_call in H; inversion H; lia.
Qed.

Lemma module_lookup (i : Z) :
  registry (module_ COLORS_PLAIN dedent) !! i
  = if decide (i <= 0) then None
    else construction_order COLORS_PLAIN dedent !! Z.to_nat (i - 1).
Proof.
  rewrite module_registry.
  destruct (run_calls_lookup (constructor_calls COLORS_PLAIN) ∅ i dense_empty)
    as (_ & _ & ->).
  rewrite map_size_empty, lookup_empty. simpl.
  unfold construction_order. repeat case_decide; try lia; try done.
  do 2 f_equal. lia.
Qed.

Lemma module_coin :
  coin (module_ COLORS_PLAIN dedent)
  = mkItem (Z.of_nat (List.length COLORS_PLAIN) + 3) 1 "coin"
      (PyStr.strip (dedent coin_description)) false.
Proof.
  unfold module_.
  destruct (Item_init dedent 0 "paper clip" paperclip_description false ∅)
    as [pc r1] eqn:E1.
  destruct (Item_init dedent 75 "EZ-Grow fertilizer" fertilizer_description
              true r1) as [fz r2] eqn:E2.
  destruct (foldl (petals_step dedent) (∅, r2) COLORS_PLAIN)
    as [pt r3] eqn:E3.
  apply (f_equal snd) in E1, E2, E3. cbn [snd] in E1, E2, E3.
  rewrite petals_loop_registry in E3.
  assert (dense r1) as Hd1 by (subst r1; apply Item_init_dense, dense_empty).
  assert (dense r2) as Hd2 by (subst r2; by apply Item_init_dense).
  assert (size r2 = 2%nat) as Hsz.
  { rewrite <- E2, Item_init_size by done.
    rewrite <- E1, Item_init_size by apply dense_empty.
    by rewrite map_size_empty. }
  destruct (run_calls_lookup (map petal_call COLORS_PLAIN) r2 0 Hd2)
    as (_ & Hsize & _).
  rewrite E3, Hsz, length_map in Hsize. simpl. rewrite Hsize.
  f_equal. lia.
Qed.

Lemma construction_order_length :
  List.length (construction_order COLORS_PLAIN dedent)
  = (List.length COLORS_PLAIN + 4)%nat.
Proof.
  unfold construction_order, numbered_from, constructor_calls.
  rewrite length_imap. simpl. rewrite length_app, length_map. simpl. lia.
Qed.

Lemma registry_ids i it :
  registry (module_ COLORS_PLAIN dedent) !! i = Some it ->
  item_id it = i /\ 0 <= price it.
Proof.
  rewrite module_lookup. case_decide; [done|].
  intros Hk.
  apply numbered_from_lookup in Hk as (p & n & d & f & Hc & ->).
  simpl. split; [lia|]. eapply constructor_calls_price, Hc.
Qed.

Lemma registry_coin :
  registry (module_ COLORS_PLAIN dedent)
    !! item_id (coin (module_ COLORS_PLAIN dedent))
  = Some (coin (module_ COLORS_PLAIN dedent)).
Proof.
  rewrite module_coin. simpl.
  rewrite module_lookup. case_decide; [lia|].
  unfold construction_order, constructor_calls, numbered_from.
  rewrite list_lookup_imap.
  replace (Z.to_nat (Z.of_nat (List.length COLORS_PLAIN) + 3 - 1))
    with (2 + (List.length (map petal_call COLORS_PLAIN) + 0))%nat
    by (rewrite length_map; lia).
  simpl. rewrite lookup_app_r by lia.
  replace (List.length (map petal_call COLORS_PLAIN) + 0
           - List.length (map petal_call COLORS_PLAIN))%nat
    with 0%nat by lia.
  simpl. rewrite length_map. do 2 f_equal. lia.
Qed.

(** C8: [Item.__init__] gives a new item the id [len(registry) + 1], an id
    that is not yet in a registry whose ids are [1 .. len(registry)], and
    stores it there without touching another entry; after the module body
    has run, the registry maps the ids [1 .. n] to the items in the order
    they were constructed, each under its own id (so no two ids share an
    item), every price is non-negative and the coin has price 1. *)
Theorem item_registration_ids :
  (forall p n d f (r : gmap Z Item),
      dense r ->
      let it := (Item_init dedent p n d f r).1 in
      let r' := (Item_init dedent p n d f r).2 in
      item_id it = Z.of_nat (size r) + 1
      /\ r !! item_id it = None
      /\ r' !! item_id it = Some it
      /\ (forall j, j <> item_id it -> r' !! j = r !! j)
      /\ dense r')
  /\ (let m := module_ COLORS_PLAIN dedent in
      let order := construction_order COLORS_PLAIN dedent in
      dense (registry m)
      /\ size (registry m) = (List.length COLORS_PLAIN + 4)%nat
      /\ List.length order = size (registry m)
      /\ (forall k : nat, registry m !! (Z.of_nat k + 1) = order !! k)
      /\ (forall i it, registry m !! i = Some it ->
            item_id it = i /\ 0 <= price it)
      /\ (forall i j it, registry m !! i = Some it ->
            registry m !! j = Some it -> i = j)
      /\ registry m !! item_id (coin m) = Some (coin m)
      /\ price (coin m) = 1).
Proof.
  split.
  - intros p n d f r Hd it r'. subst it r'. simpl.
    split; [done|]. split; [by apply dense_fresh|].
    split; [by rewrite lookup_insert_eq|].
    split; [intros j Hj; by rewrite lookup_insert_ne|].
    apply (Item_init_dense p n d f r Hd).
  - intros m order.
    pose proof registry_ids as Hid.
    assert (size (registry m) = (List.length COLORS_PLAIN + 4)%nat) as Hsz.
    { subst m. rewrite module_registry.
      destruct (run_calls_lookup (constructor_calls COLORS_PLAIN) ∅ 0
                  dense_empty) as (_ & -> & _).
      rewrite map_size_empty. unfold constructor_calls. simpl.
      rewrite length_app, length_map. simpl. lia. }
    split.
    { subst m. rewrite module_registry.
      apply (run_calls_lookup (constructor_calls COLORS_PLAIN) ∅ 0
               dense_empty). }
    split; [done|].
    split; [subst order; by rewrite construction_order_length|].
    split.
    { intros k. subst m order. rewrite module_lookup.
      case_decide; [lia|]. f_equal. lia. }
    split; [done|].
    split.
    { intros i j it Hi Hj. apply Hid in Hi as [<- _].
      apply Hid in Hj as [<- _]. done. }
    split; [apply registry_coin|].
    subst m. by rewrite module_coin.
Qed.

End CatalogueFacts.

(** ** Running the primitives of the handlers *)

Section RunFacts.

Import Models Views.

Variable Plant_refresh : Z -> Plant -> Plant.
Variable Plant_water : string -> option User -> Z -> DB -> string * DB.
Variable Plant_pick_petal : string -> option User -> DB -> string * DB.
Variable Plant_harvest : string -> DB -> DB.

Lemma bind_run {A B : Type} (m : M A) (k : A -> M B) (w : World) :
  bind m k w = k (m w).1 (m w).2.
Proof. unfold bind. by destruct (m w). Qed.

Lemma ret_run {A : Type} (a : A) (w : World) : ret a w = (a, w).
Proof. done. Qed.

Lemma call_run (c : Call) (w : World) : call c w = (tt, with_call c w).
Proof. done. Qed.

Lemma get_db_run (w : World) : get_db w = (db w, w).
Proof. done. Qed.

Lemma put_db_run (d : DB) (w : World) : put_db d w = (tt, with_db d w).
Proof. done. Qed.

Lemma plant_of_with_call (u : User) (c : Call) (w : World) :
  plant_of u (with_call c w) = plant_of u w.
Proof. done. Qed.

Lemma refresh_run (u : User) (w : World) :
  refresh Plant_refresh u w
  = (tt, with_db
           (set_plants
              <[user_id u := Plant_refresh (now w) (plants (db w) !!! user_id u)]>
              (db w))
           (with_call (PlantRefresh (user_id u)) w)).
Proof. done. Qed.

Lemma save_run (u : User) (w : World) :
  save u w = (tt, with_call (PlantSave (user_id u)) w).
Proof. done. Qed.

Lemma read_dead_run (u : User) (w : World) :
  read_dead u w
  = (dead (plant_of u w), with_call (PlantReadDead (user_id u)) w).
Proof. done. Qed.

Lemma read_stage_run (u : User) (w : World) :
  read_stage u w
  = (stage (plant_of u w), with_call (PlantReadStage (user_id u)) w).
Proof. done. Qed.

Lemma pick_petal_run (owner : User) (actor : option User) (w : World) :
  pick_petal Plant_pick_petal owner actor w
  = ((Plant_pick_petal (user_id owner) actor (db w)).1,
     with_db (Plant_pick_petal (user_id owner) actor (db w)).2
       (with_call (PlantPickPetal (user_id owner) actor) w)).
Proof.
  unfold pick_petal. rewrite !bind_run, call_run, get_db_run. simpl.
  by destruct (Plant_pick_petal (user_id owner) actor (db w)).
Qed.

Lemma water_plant_run (owner : User) (actor : option User) (w : World) :
  water_plant Plant_water owner actor w
  = ((Plant_water (user_id owner) actor (now w) (db w)).1,
     with_db (Plant_water (user_id owner) actor (now w) (db w)).2
       (with_call (PlantWater (user_id owner) actor) w)).
Proof.
  unfold water_plant. rewrite !bind_run, call_run. simpl.
  by destruct (Plant_water (user_id owner) actor (now w) (db w)).
Qed.

Lemma harvest_plant_run (owner : User) (w : World) :
  harvest_plant Plant_harvest owner w
  = (tt, with_db (Plant_harvest (user_id owner) (db w))
           (with_call (PlantHarvest (user_id owner)) w)).
Proof. done. Qed.

Lemma User_remove_item_run (u : User) (item : Items.Item) (q : Z) (w : World) :
  User_remove_item u item q w
  = ((remove_item u item q (db w)).1,
     with_db (remove_item u item q (db w)).2
       (with_call (UserRemoveItem u item q) w)).
Proof.
  unfold User_remove_item. rewrite !bind_run, call_run, get_db_run. simpl.
  by destruct (remove_item u item q (db w)).
Qed.

Lemma User_add_item_run (u : User) (item : Items.Item) (w : World) :
  User_add_item u item w
  = (tt, with_db (add_item u item 1 (db w)) (with_call (UserAddItem u item) w)).
Proof. done. Qed.

Lemma User_get_or_none_run (uid : string) (w : World) :
  User_get_or_none uid w = (mkUser uid <$> users (db w) !! uid, w).
Proof. done. Qed.

(** [remove_item] fails exactly on a shortfall, and then changes nothing. *)
Lemma remove_item_fails (u : User) (item : Items.Item) (q : Z) (d : DB) :
  get_item_quantity u item d < q -> remove_item u item q d = (false, d).
Proof.
  intros Hlt. unfold remove_item. rewrite bool_decide_eq_false_2; [done|lia].
Qed.

Lemma remove_item_succeeds (u : User) (item : Items.Item) (q : Z) (d : DB) :
  q <= get_item_quantity u item d ->
  remove_item u item q d
  = (true,
     set_item_slots
       <[(user_id u, Items.item_id item) := get_item_quantity u item d - q]> d).
Proof.
  intros Hle. unfold remove_item. by rewrite bool_decide_eq_true_2.
Qed.

End RunFacts.

Ltac run :=
  repeat first
    [ rewrite bind_run | rewrite ret_run | rewrite call_run
    | rewrite get_db_run | rewrite put_db_run | rewrite refresh_run
    | rewrite save_run | rewrite read_dead_run | rewrite read_stage_run
    | rewrite pick_petal_run | rewrite water_plant_run
    | rewrite harvest_plant_run | rewrite User_remove_item_run
    | rewrite User_add_item_run | rewrite User_get_or_none_run
    | rewrite plant_of_with_call
    | progress cbn [fst snd] ].

Ltac crunch := repeat first [progress run | progress cbn [orb negb andb]].

Section StoreFacts.

Import Models Views.

Variable COLORS_PLAIN : list string.
Variable dedent : string -> string.

Local Abbreviation items := (Views.items COLORS_PLAIN dedent).
Local Abbreviation store_purchase := (Views.store_purchase COLORS_PLAIN dedent).

(** A query that confirms a purchase is not empty. *)
Lemma affirmative_truthy (q : string) :
  PyStr.lower (PyStr.strip q) ∈ ["y"; "yes"] -> PyStr.truthy q = true.
Proof.
  destruct q; [|done]. cbn. rewrite !elem_of_cons, elem_of_nil.
  intros [?|[?|[]]]; discriminate.
Qed.

(** An item on sale is not the coin, which is not for sale. *)
Lemma for_sale_not_coin (i : Z) (item : Items.Item) :
  Items.registry items !! i = Some item ->
  Items.for_sale item = true ->
  Items.item_id item <> Items.item_id (Items.coin items).
Proof.
  intros Hreg Hsale Heq.
  pose proof (registry_ids COLORS_PLAIN dedent i item Hreg) as [Hi _].
  pose proof (registry_coin COLORS_PLAIN dedent) as Hc.
  unfold Views.items in *. rewrite <- Heq, Hi, Hreg in Hc.
  injection Hc as ->. rewrite module_coin in Hsale. discriminate.
Qed.

(** C1: a confirmed purchase of a registered item on sale at price [P]
    first calls [remove_item(coin, quantity=P)].  When that fails (the buyer
    holds fewer than [P] coins) the answer is "Insufficient funds",
    [add_item] is not called and no table changes.  When it succeeds the
    buyer gains exactly one unit of the item and loses exactly [P] coins,
    and no other slot or table changes. *)
Theorem store_purchase_funds
    (request : AuthRequest) (item_id : string) (item : Items.Item)
    (w : World) :
  Items.registry items !! int item_id = Some item ->
  Items.for_sale item = true ->
  PyStr.lower (PyStr.strip (query request)) ∈ ["y"; "yes"] ->
  let buyer := user request in
  let P := Items.price item in
  let coin := Items.coin items in
  let coins := get_item_quantity buyer coin (db w) in
  let response := (store_purchase request item_id w).1 in
  let w' := (store_purchase request item_id w).2 in
  ((remove_item buyer coin P (db w)).1 = false <-> coins < P)
  /\ (coins < P ->
        response = Response_ BAD_REQUEST "Insufficient funds"
        /\ db w' = db w
        /\ calls w' = (calls w ++ [UserRemoveItem buyer coin P])%list)
  /\ (P <= coins ->
        response = Response_ REDIRECT_TEMPORARY "/app/store"
        /\ get_item_quantity buyer item (db w')
           = get_item_quantity buyer item (db w) + 1
        /\ get_item_quantity buyer coin (db w') = coins - P
        /\ (forall k, k <> (user_id buyer, Items.item_id coin) ->
                      k <> (user_id buyer, Items.item_id item) ->
                      item_slots (db w') !! k = item_slots (db w) !! k)
        /\ users (db w') = users (db w)
        /\ plants (db w') = plants (db w)
        /\ inbox (db w') = inbox (db w)
        /\ calls w'
           = (calls w ++ [UserRemoveItem buyer coin P;
                          UserAddItem buyer item])%list).
Proof.
  intros Hreg Hsale Hyes buyer P coin coins response w'.
  pose proof (for_sale_not_coin _ _ Hreg Hsale) as Hne.
  subst response w'. unfold Views.store_purchase.
  rewrite Hreg, Hsale, (affirmative_truthy _ Hyes). cbn [negb].
  rewrite (bool_decide_eq_true_2 _ Hyes).
  split.
  { unfold remove_item. case_bool_decide; simpl; split; (done || lia). }
  split.
  - intros Hlt. run. rewrite remove_item_fails by done. run.
    repeat split; done.
  - intros Hle. run. rewrite remove_item_succeeds by done. run.
    unfold get_item_quantity, add_item, set_item_slots, get_item_quantity.
    simpl.
    repeat (rewrite lookup_insert_eq
            || rewrite lookup_insert_ne by (subst coin; congruence)).
    simpl. repeat split; try done.
    + intros k Hk1 Hk2. by rewrite !lookup_insert_ne.
    + by rewrite <- app_assoc.
Qed.

End StoreFacts.

(** ** The plant handlers *)

Section PlantFacts.

Import Models Views.

Lemma take_substring (n : nat) (s : string) :
  PyStr.take n s = String.substring 0 n s.
Proof.
  revert s. induction n as [|n IH]; intros [|c s]; simpl; try done.
  by rewrite IH.
Qed.

Lemma take_length (n : nat) (s : string) :
  String.length (PyStr.take n s) = Nat.min n (String.length s).
Proof.
  revert s. induction n as [|n IH]; intros [|c s]; simpl; try done.
  by rewrite IH.
Qed.

Lemma take_all (n : nat) (s : string) :
  (String.length s <= n)%nat -> PyStr.take n s = s.
Proof.
  revert s. induction n as [|n IH]; intros [|c s]; simpl; try done; try lia.
  intros Hle. rewrite IH; [done | lia].
Qed.

Lemma truthy_nonempty (s : string) : PyStr.truthy s = true <-> s <> "".
Proof. destruct s; simpl; split; congruence. Qed.

(** C7: with a non-empty query the handler stores the first 40 characters
    of the query as the plant's name (so the stored name has at most 40
    characters, and is the whole query when that is no longer), leaving the
    rest of the plant, the other plants and the other tables alone; with an
    empty query it answers with the input prompt and changes nothing. *)
Theorem name_first_40 (request : AuthRequest) (w : World) :
  let uid := user_id (user request) in
  let q := query request in
  let response := (name request w).1 in
  let w' := (name request w).2 in
  let p := plant_of (user request) w in
  let p' := plant_of (user request) w' in
  (q <> "" ->
     plant_name p' = String.substring 0 40 q
     /\ (String.length (plant_name p') <= 40)%nat
     /\ ((String.length q <= 40)%nat -> plant_name p' = q)
     /\ p' = mkPlant (String.substring 0 40 q) (stage p) (dead p) (score p)
               (watered_at p) (generation p)
     /\ (forall other, other <> uid ->
           plants (db w') !! other = plants (db w) !! other)
     /\ item_slots (db w') = item_slots (db w)
     /\ inbox (db w') = inbox (db w)
     /\ response = Response_ REDIRECT_TEMPORARY "/app/plant")
  /\ (q = "" ->
        response = Response_ INPUT "Enter a new nickname for your plant:"
        /\ w' = w).
Proof.
  intros uid q response w' p p'. subst response w' p'.
  unfold name. fold q. split.
  - intros Hq. apply truthy_nonempty in Hq. rewrite Hq. cbn [negb].
    unfold set_plant_name, session_set. run.
    pose proof (take_length 40 q) as Hlen.
    pose proof (take_all 40 q) as Hall.
    rewrite take_substring in Hlen, Hall. rewrite !take_substring.
    unfold plant_of, with_db, set_plants.
    cbn [db plants item_slots inbox]. rewrite lookup_total_insert_eq.
    cbn [plant_name].
    split; [done|]. split; [lia|]. split; [done|]. split; [done|].
    split; [intros other Ho; by rewrite lookup_insert_ne|].
    done.
  - intros Hq. rewrite Hq. done.
Qed.

Lemma calls_since_app (w w' : World) (l : list Call) :
  calls w' = (calls w ++ l)%list -> calls_since w w' = l.
Proof. unfold calls_since. intros ->. apply drop_app_length. Qed.

Section Harvest.

Variable Plant_harvest : string -> DB -> DB.

Local Abbreviation harvest := (Views.harvest Plant_harvest).

(** C4, as amended: [plant.harvest()] is called exactly when the plant is
    dead or at stage 5, the request path ends in [/confirm] and the stripped
    query equals "Goodbye <plant name>".  A plant that is neither dead nor at
    stage 5 is answered with BAD_REQUEST.  Otherwise, on the confirm path an
    empty query gets the prompt and any other query is redirected to the
    harvest page; on the plain harvest path the harvest page is rendered
    whatever the query.  Without the call no table changes. *)
Theorem harvest_on_confirm (request : AuthRequest) (w : World) :
  let uid := user_id (user request) in
  let p := plant_of (user request) w in
  let allowed := dead p || bool_decide (stage p = 5) in
  let confirm := PyStr.endswith (path request) "/confirm" in
  let phrase := "Goodbye " ++ plant_name p in
  let response := (harvest request w).1 in
  let w' := (harvest request w).2 in
  (PlantHarvest uid ∈ calls_since w w'
   <-> allowed = true /\ confirm = true
       /\ PyStr.strip (query request) = phrase)
  /\ (PlantHarvest uid ∈ calls_since w w' ->
        db w' = Plant_harvest uid (db w)
        /\ response = Response_ REDIRECT_TEMPORARY "/app/epilog/1")
  /\ (PlantHarvest uid ∉ calls_since w w' -> db w' = db w)
  /\ (allowed = false ->
        response = Response_ BAD_REQUEST "You shouldn't be here!")
  /\ (allowed = true -> confirm = true -> query request = "" ->
        response
        = Response_ INPUT
            ("Type " ++ PyStr.dquote ++ phrase ++ PyStr.dquote
             ++ " to send off your plant."))
  /\ (allowed = true -> confirm = true -> query request <> "" ->
        PyStr.strip (query request) <> phrase ->
        response = Response_ REDIRECT_TEMPORARY "/app/plant/harvest")
  /\ (allowed = true -> confirm = false ->
        response
        = mkResponse SUCCESS "text/gemini"
            (render_template "plant_harvest.gmi" [("plant", VPlant p)])).
Proof.
  intros uid p allowed confirm phrase response w'.
  assert (calls_since w w'
          = (PlantReadDead uid
             :: (if dead p then [] else [PlantReadStage uid])
             ++ (if allowed && confirm
                    && String.eqb (PyStr.strip (query request)) phrase
                 then [PlantHarvest uid] else []))%list
          /\ db w'
             = (if allowed && confirm
                   && String.eqb (PyStr.strip (query request)) phrase
                then Plant_harvest uid (db w) else db w)
          /\ response
             = if negb allowed then
                 Response_ BAD_REQUEST "You shouldn't be here!"
               else if confirm then
                 if String.eqb (PyStr.strip (query request)) phrase then
                   Response_ REDIRECT_TEMPORARY "/app/epilog/1"
                 else if PyStr.truthy (query request) then
                   Response_ REDIRECT_TEMPORARY "/app/plant/harvest"
                 else
                   Response_ INPUT
                     ("Type " ++ PyStr.dquote ++ phrase ++ PyStr.dquote
                      ++ " to send off your plant.")
               else
                 mkResponse SUCCESS "text/gemini"
                   (render_template "plant_harvest.gmi" [("plant", VPlant p)]))
    as (Hcalls & Hdb & Hresp).
  { subst response w' allowed confirm phrase. unfold Views.harvest.
    crunch. fold p uid.
    destruct (dead p); crunch; fold p uid;
      [|destruct (bool_decide (stage p = 5)); crunch];
      try (split; [by apply calls_since_app|]; done);
      fold p uid;
      (destruct (PyStr.endswith (path request) "/confirm");
       [destruct (String.eqb (PyStr.strip (query request))
                    ("Goodbye " ++ plant_name p));
        [|destruct (PyStr.truthy (query request))]|]);
      crunch;
      (split; [apply calls_since_app; cbn [calls with_call with_db];
               by rewrite <- ?app_assoc|]; split; [done|];
       by cbn [append]). }
  rewrite Hcalls, Hdb, Hresp. clear Hcalls Hdb Hresp.
  assert (forall l : list Call, PlantHarvest uid ∈ (PlantReadDead uid
            :: (if dead p then [] else [PlantReadStage uid]) ++ l)%list
          <-> PlantHarvest uid ∈ l) as Hin.
  { intros l. rewrite elem_of_cons, elem_of_app.
    destruct (dead p); rewrite ?elem_of_cons, ?elem_of_nil; intuition discriminate. }
  rewrite Hin.
  destruct allowed, confirm; cbn [andb negb];
    destruct (String.eqb_spec (PyStr.strip (query request)) phrase) as [He|He];
    rewrite ?elem_of_cons, ?elem_of_nil;
    repeat split; try done; try (intuition congruence).
  - intros _ _ Hq. rewrite Hq in He. subst phrase. cbn in He. discriminate.
  - intros _ _ Hq. by rewrite Hq.
  - intros _ _ Hq _. apply truthy_nonempty in Hq. by rewrite Hq.
Qed.

End Harvest.

Section Search.

Variable Plant_refresh : Z -> Plant -> Plant.
Variable Plant_pick_petal : string -> option User -> DB -> string * DB.
Variable stage_names : Z -> string.
Variable User_login : string -> DB -> option Certificate.

Local Abbreviation search := (Views.search Plant_pick_petal).
Local Abbreviation visit_plant_search :=
  (Views.visit_plant_search Plant_refresh Plant_pick_petal stage_names).
Local Abbreviation authenticate :=
  (Views.authenticate Plant_refresh User_login).

(** What [search] does, as a function of the plant it is handed. *)
Lemma search_run (request : AuthRequest) (w : World) :
  let u := user request in
  let p := plant_of u w in
  let reject := dead p || negb (bool_decide (stage p = 4)) in
  let reads :=
    with_call (PlantReadDead (user_id u)) w in
  let reads :=
    if dead p then reads else with_call (PlantReadStage (user_id u)) reads in
  search request w
  = if reject then (Response_ BAD_REQUEST "You shouldn't be here!", reads)
    else
      (Response_ REDIRECT_TEMPORARY "/app/plant",
       (session_set request "alert"
          (Plant_pick_petal (user_id u) None (db w)).1
          (with_db (Plant_pick_petal (user_id u) None (db w)).2
             (with_call (PlantPickPetal (user_id u) None) reads))).2).
Proof.
  intros u p reject reads0 reads. subst reject reads reads0.
  unfold Views.search. crunch. fold u p.
  destruct (dead p); crunch; fold p; [done|].
  destruct (bool_decide (stage p = 4)); crunch; done.
Qed.

(** What [visit_plant_search] does on a target that exists and is not the
    requester: the reads of [dead] and [stage_str] come first, on the plant
    as stored, and [refresh] runs only after they let the request through. *)
Lemma visit_plant_search_run (request : AuthRequest) (target : string)
    (target_name : string) (w : World) :
  users (db w) !! target = Some target_name ->
  target <> user_id (user request) ->
  let p := plants (db w) !!! target in
  let reject :=
    dead p || negb (String.eqb (stage_names (stage p)) "flowering") in
  (visit_plant_search request target w).1
  = (if reject then Response_ BAD_REQUEST "You shouldn't be here!"
     else Response_ REDIRECT_TEMPORARY ("/app/visit/" ++ target))
  /\ calls_since w (visit_plant_search request target w).2
     = (PlantReadDead target
        :: (if dead p then [] else [PlantReadStage target])
        ++ (if reject then []
            else [PlantRefresh target;
                  PlantPickPetal target (Some (user request));
                  PlantSave target]))%list
  /\ (reject = true ->
        db (visit_plant_search request target w).2 = db w
        /\ sessions (visit_plant_search request target w).2 = sessions w).
Proof.
  intros Hu Hne p reject. subst reject.
  unfold Views.visit_plant_search. crunch. rewrite Hu. cbn [fmap option_fmap option_map].
  unfold same_user. rewrite bool_decide_eq_false_2 by (cbn; congruence).
  crunch. unfold read_stage_str. unfold plant_of. cbn [user_id db with_call].
  fold p.
  destruct (dead p); crunch.
  { split; [done|]. split; [by apply calls_since_app|]. done. }
  unfold plant_of. cbn [user_id db with_call]. fold p.
  destruct (String.eqb (stage_names (stage p)) "flowering"); crunch.
  - split; [done|]. split; [|done].
    apply calls_since_app. unfold session_set.
    cbn [calls with_call with_db snd]. by rewrite <- !app_assoc.
  - split; [done|]. split; [|done].
    apply calls_since_app. cbn [calls with_call]. by rewrite <- !app_assoc.
Qed.

(** Behind [authenticate] the requester's plant is refreshed before the
    handler runs and saved after it: the handler starts from the refreshed
    state, and its calls sit between the refresh and the save. *)
Lemma authenticate_refreshes_first (func : AuthRequest -> M Response)
    (request : Request) (cert : Certificate) (w : World) :
  has_REMOTE_USER request = true ->
  User_login
    (if TLS_CLIENT_AUTHORISED request
     then format_032X (TLS_CLIENT_SERIAL_NUMBER request)
     else TLS_CLIENT_HASH request) (db w) = Some cert ->
  let uid := user_id (cert_user cert) in
  let refreshed :=
    with_db
      (set_plants <[uid := Plant_refresh (now w) (plants (db w) !!! uid)]>
         (db w))
      (with_call (PlantRefresh uid) w) in
  let inner := func (mkAuthRequest request cert (cert_user cert)) refreshed in
  authenticate func request w
  = (inner.1, with_call (PlantSave uid) inner.2).
Proof.
  intros Hremote Hlogin uid refreshed inner. subst inner refreshed uid.
  unfold Views.authenticate. rewrite Hremote. cbn [negb]. crunch.
  rewrite Hlogin. crunch. done.
Qed.


End Search.

End PlantFacts.

(** ** The list of gardens to visit *)

Section VisitFacts.

Import Models Views.

Variable active : string -> Plant -> bool.

Local Abbreviation visit := (Views.visit active).

#[local] Instance by_score_desc_total : Total by_score_desc.
Proof. intros a b. unfold by_score_desc. lia. Qed.

(** C5, as amended: the list handed to the visit page holds exactly the
    active plants with a positive score that were watered no longer than 8
    days before the current time, each once, ordered by score descending.
    The list does not depend on who asks: the viewer's own plant is listed
    like any other when it qualifies. *)
Theorem visit_lists_active_recent (request : AuthRequest) (w : World) :
  let ps := listed_plants (visit request w).1 in
  (visit request w).1
  = mkResponse SUCCESS "text/gemini"
      (render_template "visit.gmi" [("plants", VPlants ps)])
  /\ (visit request w).2 = w
  /\ (forall owner p,
        (owner, p) ∈ ps
        <-> plants (db w) !! owner = Some p
            /\ active owner p = true
            /\ 0 < score p
            /\ now w - eight_days <= watered_at p)
  /\ Sorted by_score_desc ps
  /\ NoDup ps
  /\ (forall request' : AuthRequest,
        listed_plants (visit request' w).1 = ps).
Proof.
  intros ps. subst ps. unfold Views.visit. crunch.
  unfold datetime_now. cbn [fst snd resp_body listed_plants render_template].
  split; [done|]. split; [done|]. split.
  { intros owner p. rewrite merge_sort_Permutation.
    unfold all_active. rewrite !list_elem_of_filter, elem_of_map_to_list.
    cbn [fst snd]. rewrite Is_true_true. tauto. }
  split; [apply (Sorted_merge_sort _)|]. split; [|done].
  rewrite merge_sort_Permutation. unfold all_active.
  do 2 apply NoDup_filter. apply NoDup_map_to_list.
Qed.

End VisitFacts.

(** ** Postcards and the mailbox *)

Section MailFacts.

Import Models Views.

Variable COLORS_PLAIN : list string.
Variable dedent : string -> string.

Local Abbreviation items := (Views.items COLORS_PLAIN dedent).
Local Abbreviation visit_plant_postcard_send :=
  (Views.visit_plant_postcard_send COLORS_PLAIN dedent).

Lemma Inbox_create_run (sender recipient : User) (subject body : string)
    (w : World) :
  Inbox_create sender recipient subject body w
  = (tt,
     with_db
       (set_inbox
          <[fresh (dom (inbox (db w))) :=
              mkInbox (user_id sender) (user_id recipient) subject body false]>
          (db w))
       (with_call (InboxCreate sender recipient subject) w)).
Proof. done. Qed.

Lemma inbox_fresh (d : DB) : inbox d !! fresh (dom (inbox d)) = None.
Proof. apply not_elem_of_dom, is_fresh. Qed.

(** The drafted subject: [visit_plant_postcard_subject] either leaves the state
    as it is, or stores the query as the drafted subject, and then the query
    is not empty and has at most 128 characters. *)
Lemma postcard_subject_capped (request : AuthRequest) (target : string)
    (w : World) :
  let r := visit_plant_postcard_subject request target w in
  let uid := user_id (user request) in
  r.2 = w
  \/ (db r.2 = db w
      /\ load_session uid r.2
         = <["postcard_subject" := query request]> (load_session uid w)
      /\ query request <> ""
      /\ (String.length (query request) <= 128)%nat
      /\ r.1 = Response_ REDIRECT_TEMPORARY
                 ("/app/visit/" ++ target ++ "/postcard")).
Proof.
  intros r uid. subst r. unfold visit_plant_postcard_subject. crunch.
  destruct (users (db w) !! target); cbn [fmap option_fmap option_map];
    [|by left].
  destruct (PyStr.truthy (query request)) eqn:Hq; cbn [negb]; [|by left].
  case_bool_decide as Hlen; crunch; [by left|]. right.
  unfold session_set, load_session. cbn [fst snd db sessions].
  rewrite lookup_insert_eq. cbn [default].
  split; [done|]. split; [done|]. split; [by apply truthy_nonempty|].
  split; [|done]. unfold PyStr.len in Hlen. lia.
Qed.

(** C6: with a target that exists, [visit_plant_postcard_send] is turned
    away before anything changes when no non-empty subject is drafted; it is
    turned away with the tables and the drafted subject intact and no
    message created when [remove_item(postcard)] fails; otherwise it takes
    exactly one postcard from the actor, creates exactly one inbox row,
    addressed to the target and carrying the drafted subject, and clears the
    draft.  A drafted subject set by [visit_plant_postcard_subject] is not
    empty and has at most 128 characters. *)
Theorem postcard_send_consumes_one (request : AuthRequest)
    (target target_name : string) (w : World) :
  users (db w) !! target = Some target_name ->
  let actor := user request in
  let uid := user_id actor in
  let recipient := mkUser target target_name in
  let postcard := Items.postcard items in
  let cards := get_item_quantity actor postcard (db w) in
  let drafted := load_session uid w !! "postcard_subject" in
  let r := visit_plant_postcard_send request target w in
  (truthy_opt drafted = false ->
     r.1 = Response_ BAD_REQUEST "Postcard subject cannot be blank."
     /\ r.2 = w)
  /\ (forall s, drafted = Some s -> s <> "" -> cards < 1 ->
        r.1 = Response_ BAD_REQUEST
                "You do not have any postcards in your inventory."
        /\ db r.2 = db w
        /\ sessions r.2 = sessions w
        /\ calls_since w r.2 = [UserRemoveItem actor postcard 1])
  /\ (forall s, drafted = Some s -> s <> "" -> 1 <= cards ->
        r.1 = Response_ REDIRECT_TEMPORARY ("/app/visit/" ++ target)
        /\ get_item_quantity actor postcard (db r.2) = cards - 1
        /\ (forall k, k <> (uid, Items.item_id postcard) ->
              item_slots (db r.2) !! k = item_slots (db w) !! k)
        /\ (exists k,
              inbox (db w) !! k = None
              /\ inbox (db r.2)
                 = <[k := mkInbox uid target s "Hello world!" false]>
                     (inbox (db w)))
        /\ size (inbox (db r.2)) = S (size (inbox (db w)))
        /\ load_session uid r.2 !! "postcard_subject" = None
        /\ calls_since w r.2
           = [UserRemoveItem actor postcard 1; InboxCreate actor recipient s])
  /\ (forall (request' : AuthRequest) (target' : string) (w0 : World),
        let r' := visit_plant_postcard_subject request' target' w0 in
        r'.2 = w0
        \/ (load_session (user_id (user request')) r'.2 !! "postcard_subject"
            = Some (query request')
            /\ query request' <> ""
            /\ (String.length (query request') <= 128)%nat)).
Proof.
  intros Hu actor uid recipient postcard cards drafted r.
  assert (forall s, drafted = Some s -> s <> "" -> truthy_opt drafted = true)
    as Hdraft.
  { intros s -> Hs. by apply truthy_nonempty. }
  subst r. unfold Views.visit_plant_postcard_send. crunch.
  rewrite Hu. cbn [fmap option_fmap option_map]. crunch.
  unfold session_get. cbn [fst snd]. fold actor uid drafted postcard.
  split; [|split; [|split]].
  - intros ->. done.
  - intros s Hs Hne Hlt. rewrite (Hdraft s Hs Hne). crunch.
    rewrite remove_item_fails by done. crunch.
    split; [done|]. split; [done|]. split; [done|].
    by apply calls_since_app.
  - intros s Hs Hne Hle. rewrite (Hdraft s Hs Hne). crunch.
    rewrite remove_item_succeeds by done. crunch.
    rewrite Inbox_create_run. crunch.
    assert (default ∅ (sessions w !! user_id (user request))
              !! "postcard_subject" = Some s) as Hs' by exact Hs.
    unfold session_pop, session_set, load_session.
    cbn [fst snd db sessions with_db with_call calls now].
    rewrite Hs'. cbn [default user_id].
    rewrite !lookup_insert_eq. cbn [default].
    unfold get_item_quantity, set_item_slots, set_inbox.
    cbn [item_slots inbox users certificates plants].
    rewrite lookup_insert_eq. cbn [default].
    split; [done|]. split; [done|].
    split; [intros k Hk; by rewrite lookup_insert_ne|].
    split; [eexists; split; [apply inbox_fresh | done]|].
    split; [apply map_size_insert_None, inbox_fresh|].
    split.
    { unfold id. rewrite lookup_insert_ne by done. apply lookup_delete_eq. }
    apply calls_since_app. by rewrite <- app_assoc.
  - intros request' target' w0.
    destruct (postcard_subject_capped request' target' w0)
      as [Hsame | (_ & Hs & Hq & Hlen & _)]; [by left|].
    right. rewrite Hs, lookup_insert_eq. done.
Qed.

(** C10: [mailbox_view] marks as seen, and shows, only the inbox row with
    the requested id when that row is addressed to the requester, changing
    nothing else in it; a row addressed to someone else is never changed or
    shown, no row is created or deleted, and when no row with that id is
    addressed to the requester the answer is BAD_REQUEST and the state is
    untouched. *)
Theorem mailbox_view_own_mail (request : AuthRequest) (message_id : string)
    (w : World) :
  let me := user_id (user request) in
  let k := int message_id in
  let r := mailbox_view request message_id w in
  (forall m, inbox (db w) !! k = Some m -> user_to m = me ->
     let seen :=
       mkInbox (user_from m) (user_to m) (subject m) (body m) true in
     r.1 = mkResponse SUCCESS "text/gemini"
             (render_template "mailbox_view.gmi" [("message", VInbox seen)])
     /\ inbox (db r.2) = <[k := seen]> (inbox (db w)))
  /\ ((forall m, inbox (db w) !! k = Some m -> user_to m <> me) ->
        r.1 = Response_ BAD_REQUEST "You shouldn't be here!" /\ r.2 = w)
  /\ (forall j m, inbox (db w) !! j = Some m -> user_to m <> me ->
        inbox (db r.2) !! j = Some m)
  /\ (forall j m, inbox (db w) !! j = Some m -> j <> k ->
        inbox (db r.2) !! j = Some m)
  /\ (forall j, is_Some (inbox (db r.2) !! j) <-> is_Some (inbox (db w) !! j))
  /\ (forall tpl key m, resp_body r.1 = Rendered tpl [(key, VInbox m)] ->
        user_to m = me)
  /\ users (db r.2) = users (db w)
  /\ plants (db r.2) = plants (db w)
  /\ item_slots (db r.2) = item_slots (db w).
Proof.
  intros me k r. subst r. unfold mailbox_view, Inbox_get_or_none. crunch.
  fold k me.
  destruct (inbox (db w) !! k) as [m0|] eqn:Hk.
  - case_bool_decide as Hto; crunch.
    + cbn [db with_db with_call set_inbox inbox users plants item_slots
           resp_body render_template].
      split; [intros m [= <-] _; done|].
      split; [intros Hall; by destruct (Hall m0 eq_refl)|].
      split.
      { intros j m Hj Hm. rewrite lookup_insert_ne; [done|].
        intros <-. rewrite Hk in Hj. injection Hj as <-. done. }
      split; [intros j m Hj Hne; by rewrite lookup_insert_ne|].
      split.
      { intros j. rewrite lookup_insert. case_decide as Hj; [|done].
        subst j. rewrite Hk. split; eauto. }
      split; [intros tpl key m [= _ _ <-]; done|]. done.
    + split; [intros m [= <-] Hm; done|].
      split; [done|]. split; [done|]. split; [done|]. split; [done|].
      split; [intros tpl key m; discriminate|]. done.
  - crunch. split; [intros m; discriminate|].
    split; [done|]. split; [done|]. split; [done|]. split; [done|].
    split; [intros tpl key m; discriminate|]. done.
Qed.

End MailFacts.

(** ** Serving files *)

Section PathFacts.

Import Files.

Lemma append_cons (a : ascii) (x y : string) :
  String a x ++ y = String a (x ++ y).
Proof. reflexivity. Qed.

Lemma append_empty_r (x : string) : x ++ "" = x.
Proof. induction x as [|a x IH]; [done|]. by rewrite append_cons, IH. Qed.

Lemma split_nonempty (c : ascii) (s : string) : PyStr.split c s <> [].
Proof.
  destruct s as [|a s]; simpl; [done|].
  destruct (Ascii.eqb a c); [done|]. by destruct (PyStr.split c s).
Qed.

Lemma split_sep_free (s : string) : Forall sep_free (PyStr.split "/" s).
Proof.
  induction s as [|a s IH]; simpl.
  - by repeat constructor.
  - destruct (Ascii.eqb a "/") eqn:Ha.
    + constructor; [done | exact IH].
    + destruct (PyStr.split "/" s) as [|w ws].
      * repeat constructor. unfold sep_free. cbn [PyStr.mem_char].
        by rewrite Ascii.eqb_sym, Ha.
      * inversion IH as [|? ? Hw Hws]; subst. constructor; [|done].
        unfold sep_free in *. cbn [PyStr.mem_char].
        rewrite Ascii.eqb_sym, Ha. exact Hw.
Qed.

Lemma split_one (x : string) : sep_free x -> PyStr.split "/" x = [x].
Proof.
  unfold sep_free. induction x as [|a x IH]; [done|].
  cbn [PyStr.mem_char PyStr.split String.append].
  intros H. apply orb_false_iff in H as [Ha Hx].
  rewrite Ascii.eqb_sym, Ha, (IH Hx). done.
Qed.

Lemma split_app_sep (x rest : string) :
  sep_free x ->
  PyStr.split "/" (x ++ String "/" rest) = x :: PyStr.split "/" rest.
Proof.
  unfold sep_free. induction x as [|a x IH]; [done|].
  change (String a x ++ String "/" rest)
    with (String a (x ++ String "/" rest)).
  cbn [PyStr.mem_char PyStr.split].
  intros H. apply orb_false_iff in H as [Ha Hx].
  rewrite Ascii.eqb_sym, Ha, (IH Hx). done.
Qed.

Lemma split_join (l : list string) :
  l <> [] -> Forall sep_free l -> PyStr.split "/" (PyStr.join "/" l) = l.
Proof.
  induction l as [|x l IH]; [done|]. intros _ Hl.
  inversion Hl as [|? ? Hx Hl']; subst.
  destruct l as [|y l]; [by apply split_one|].
  change (PyStr.join "/" (x :: y :: l))
    with (x ++ String "/" (PyStr.join "/" (y :: l))).
  rewrite split_app_sep by done. f_equal. by apply IH.
Qed.

Lemma join_empty (l : list string) :
  Forall (fun x => x <> "") l -> PyStr.join "/" l = "" -> l = [].
Proof.
  destruct l as [|x l]; [done|]. intros Hl. inversion Hl as [|? ? Hx _]; subst.
  destruct l; simpl; [done|]. destruct x; [done|].
  rewrite append_cons. discriminate.
Qed.

Lemma join_head (x : string) (l : list string) :
  exists rest, PyStr.join "/" (x :: l) = x ++ rest.
Proof.
  destruct l as [|y l].
  - exists "". by rewrite append_empty_r.
  - by eexists.
Qed.

Lemma filter_keeps_id (l : list string) :
  Forall (fun x => x <> "" /\ x <> ".") l -> List.filter keeps l = l.
Proof.
  induction 1 as [|x l [H1 H2] _ IH]; simpl; [done|].
  unfold keeps at 1.
  destruct (String.eqb_spec x ""); [done|].
  destruct (String.eqb_spec x "."); [done|]. simpl. by rewrite IH.
Qed.

Lemma filter_keeps_spec (l : list string) :
  Forall sep_free l ->
  Forall (fun x => (x <> "" /\ x <> ".") /\ sep_free x) (List.filter keeps l).
Proof.
  induction 1 as [|x l Hx _ IH]; simpl; [constructor|].
  unfold keeps at 1.
  destruct (String.eqb_spec x ""); simpl; [done|].
  destruct (String.eqb_spec x "."); simpl; [done|]. by constructor.
Qed.

(** A text whose first character is not the separator does not start
    with it. *)
Lemma startswith_sep_cons (a : ascii) (s : string) :
  Ascii.eqb a "/" = false -> PyStr.startswith (String a s) "/" = false.
Proof.
  intros Ha. unfold PyStr.startswith. cbn [String.prefix].
  destruct (ascii_dec "/" a) as [<-|]; [|done].
  by rewrite Ascii.eqb_refl in Ha.
Qed.

Lemma startswith_sep_app (x rest : string) :
  x <> "" -> sep_free x -> PyStr.startswith (x ++ rest) "/" = false.
Proof.
  destruct x as [|a x]; [done|]. intros _ Hx. rewrite append_cons.
  apply startswith_sep_cons. unfold sep_free in Hx.
  cbn [PyStr.mem_char] in Hx. apply orb_false_iff in Hx as [Ha _].
  by rewrite Ascii.eqb_sym.
Qed.

Lemma lstrip_with_head (p : ascii -> bool) (s : string) :
  PyStr.lstrip_with p s = ""
  \/ exists a t, PyStr.lstrip_with p s = String a t /\ p a = false.
Proof.
  induction s as [|a s IH]; [by left|]. cbn [PyStr.lstrip_with].
  destruct (p a) eqn:Ha; [exact IH|]. right. by exists a, s.
Qed.

Lemma rstrip_with_head (p : ascii -> bool) (a : ascii) (t : string) :
  p a = false -> exists t', PyStr.rstrip_with p (String a t) = String a t'.
Proof.
  intros Ha. cbn [PyStr.rstrip_with]. rewrite Ha.
  destruct (PyStr.rstrip_with p t); by eexists.
Qed.

Lemma strip_slashes_relative (path : string) :
  PyStr.startswith (PyStr.strip_chars "/" path) "/" = false.
Proof.
  unfold PyStr.strip_chars.
  destruct (lstrip_with_head (fun c => PyStr.mem_char c "/") path)
    as [-> | (a & t & -> & Ha)]; [done|].
  destruct (rstrip_with_head (fun c => PyStr.mem_char c "/") a t Ha)
    as [t' ->].
  apply startswith_sep_cons. cbn [PyStr.mem_char] in Ha.
  by apply orb_false_iff in Ha as [Ha _].
Qed.

(** The loop of [normpath] on a relative path keeps its result in the
    shape: some [..] components, then plain ones. *)
Lemma normpath_loop (comps : list string) :
  forall (k : nat) (clean : list string),
    Forall sep_free comps ->
    Forall plain clean ->
    exists k' clean',
      foldl (normpath_step 0) (replicate k ".." ++ clean)%list comps
      = (replicate k' ".." ++ clean')%list
      /\ Forall plain clean'.
Proof.
  induction comps as [|comp comps IH]; intros k clean Hc Hclean.
  { by exists k, clean. }
  inversion Hc as [|? ? Hcomp Hcomps]; subst.
  cbn [foldl]. unfold normpath_step at 2.
  destruct (String.eqb_spec comp "") as [|Hne]; [by apply IH|].
  destruct (String.eqb_spec comp ".") as [|Hnd]; [by apply IH|].
  cbn [orb].
  destruct (String.eqb_spec comp "..") as [->|Hndd]; cbn [negb orb].
  - destruct clean as [|z clean0 _] using rev_ind.
    + rewrite app_nil_r. destruct k as [|k].
      * cbn. apply (IH 1%nat []); [done | constructor].
      * replace (match replicate (S k) ".." with [] => true | _ => false end)
          with false by done.
        cbn [Nat.eqb andb orb].
        assert (last (replicate (S k) "..") = Some "..") as ->.
        { clear. induction k as [|k IHk]; [done|].
          change (replicate (S (S k)) "..")
            with (".." :: replicate (S k) ".."). by rewrite last_cons, IHk. }
        cbn [String.eqb]. rewrite Ascii.eqb_refl. cbn.
        replace (".." :: (replicate k ".." ++ [".."]))%list
          with (replicate (S (S k)) ".." ++ [])%list.
        { apply IH; [done | constructor]. }
        rewrite app_nil_r. cbn. f_equal.
        clear. induction k as [|k IHk]; [done|]. cbn. by rewrite IHk.
    + apply Forall_app in Hclean as [Hclean0 Hz].
      inversion Hz as [|? ? (_ & _ & Hzdd & _) _]; subst.
      rewrite app_assoc, last_snoc.
      destruct (String.eqb_spec z ".."); [done|].
      replace (match (replicate k ".." ++ clean0) ++ [z] with
               | [] => true | _ => false end)%list
        with false by (by destruct (replicate k ".." ++ clean0)%list).
      cbn [andb orb]. rewrite removelast_last. by apply IH.
  - rewrite <- app_assoc. apply IH; [done|].
    apply Forall_app. split; [done|]. by repeat constructor.
Qed.

Lemma startswith_dotdot (rest : string) :
  PyStr.startswith (".." ++ rest) ".." = true.
Proof.
  rewrite !append_cons. unfold PyStr.startswith. cbn [String.prefix].
  destruct (ascii_dec "." ".") as [_|Hd]; [by destruct rest | done].
Qed.

Lemma Path_of_relative (s : string) :
  PyStr.startswith s "/" = false ->
  Path_of s = mkPath "" (List.filter keeps (PyStr.split "/" s)).
Proof. intros Hs. unfold Path_of, splitroot. by rewrite Hs. Qed.

Lemma Path_str_relative (l : list string) :
  PyStr.join "/" l <> "" -> Path_str (mkPath "" l) = PyStr.join "/" l.
Proof.
  intros Hl. unfold Path_str. cbn [root parts].
  change ("" ++ PyStr.join "/" l) with (PyStr.join "/" l).
  by destruct (String.eqb_spec (PyStr.join "/" l) "").
Qed.

(** The file name that [files] derives from the requested path is
    relative: some [..] components followed by plain ones, and its text
    starts with [..] as soon as there is one. *)
Lemma filename_shape (path : string) :
  let filename :=
    Path_of (normpath (Path_str (Path_of (PyStr.strip_chars "/" path)))) in
  root filename = ""
  /\ exists (k : nat) (clean : list string),
       parts filename = (replicate k ".." ++ clean)%list
       /\ Forall plain clean
       /\ (k <> 0%nat -> PyStr.startswith (Path_str filename) ".." = true).
Proof.
  rewrite (Path_of_relative _ (strip_slashes_relative path)).
  pose proof (filter_keeps_spec _
                (split_sep_free (PyStr.strip_chars "/" path))) as Hparts.
  destruct (List.filter keeps (PyStr.split "/" (PyStr.strip_chars "/" path)))
    as [|x l] eqn:Hl.
  { cbn. split; [done|]. exists 0%nat, []. repeat split; done. }
  assert (PyStr.join "/" (x :: l) <> "") as Hjoin.
  { intros E. apply join_empty in E; [done|].
    eapply Forall_impl; [exact Hparts|]. by intros ? [[? ?] ?]. }
  assert (Forall sep_free (x :: l)) as Hsep.
  { eapply Forall_impl; [exact Hparts|]. by intros ? [? ?]. }
  rewrite Path_str_relative by done.
  assert (forall nc : list string,
            nc <> [] -> Forall (fun c => c <> "" /\ sep_free c) nc ->
            PyStr.startswith (PyStr.join "/" nc) "/" = false) as Hrel.
  { intros [|c nc] Hne Hnc; [done|].
    inversion Hnc as [|? ? [Hc1 Hc2] _]; subst.
    destruct (join_head c nc) as [rest ->]. by apply startswith_sep_app. }
  unfold normpath.
  destruct (String.eqb_spec (PyStr.join "/" (x :: l)) ""); [done|].
  rewrite Hrel; [|done|];
    [|eapply Forall_impl; [exact Hparts|]; by intros ? [[? ?] ?]].
  rewrite split_join by done.
  destruct (normpath_loop (x :: l) 0 [] Hsep (Forall_nil_2 _))
    as (k & clean & Hloop & Hclean).
  cbn [replicate app] in Hloop. rewrite Hloop.
  assert (Forall (fun c => (c <> "" /\ c <> ".") /\ sep_free c)
            (replicate k ".." ++ clean)%list) as Hnc.
  { apply Forall_app. split.
    - apply Forall_replicate. repeat split; done.
    - eapply Forall_impl; [exact Hclean|]. by intros ? (? & ? & ? & ?). }
  destruct (String.eqb_spec
              (PyStr.join "/" (replicate k ".." ++ clean)%list) "") as [E|E].
  { apply join_empty in E;
      [|eapply Forall_impl; [exact Hnc|]; by intros ? [[? ?] ?]].
    apply app_eq_nil in E as [Ek ->]. destruct k; [|done].
    cbn. split; [done|]. exists 0%nat, []. repeat split; done. }
  assert ((replicate k ".." ++ clean)%list <> []) as Hne.
  { intros E'. rewrite E' in E. done. }
  rewrite Path_of_relative;
    [|apply Hrel; [done|];
      eapply Forall_impl; [exact Hnc|]; by intros ? [[? ?] ?]].
  rewrite split_join;
    [|done|eapply Forall_impl; [exact Hnc|]; by intros ? [? ?]].
  rewrite filter_keeps_id;
    [|eapply Forall_impl; [exact Hnc|]; by intros ? [? ?]].
  cbn [root parts]. split; [done|]. exists k, clean.
  split; [done|]. split; [done|]. intros Hk.
  rewrite Path_str_relative by done.
  destruct k as [|k]; [done|]. cbn [replicate app].
  destruct (join_head ".." (replicate k ".." ++ clean)%list) as [rest ->].
  apply startswith_dotdot.
Qed.

Section FilesHandler.

Import Views.

Variable FILES_DIR : string.
Variable path_exists : string -> bool.
Variable read_bytes : string -> string.
Variable guess_type : string -> option string * option string.

Local Abbreviation files :=
  (Files.files FILES_DIR path_exists read_bytes guess_type).

(** C9: when the normalized file name is absolute or starts with [..], or
    the file does not exist, [files] answers NOT_FOUND and reads nothing.
    Whenever it does read, it reads one path, which exists and is
    [FILES_DIR] followed by plain components only (none of them [..]), and
    the bytes of that path are the body of a SUCCESS response. *)
Theorem files_under_files_dir (path : string) :
  let filename :=
    Path_of (normpath (Path_str (Path_of (PyStr.strip_chars "/" path)))) in
  let filepath := joinpath (Path_of FILES_DIR) filename in
  let r := files path in
  (is_absolute filename = true
   \/ PyStr.startswith (Path_str filename) ".." = true
   \/ path_exists (Path_str filepath) = false ->
   r = (Response_ NOT_FOUND "Not Found", []))
  /\ (r.2 = [] \/ r.2 = [Path_str filepath])
  /\ (forall p, p ∈ r.2 ->
        p = Path_str filepath
        /\ path_exists p = true
        /\ root filepath = root (Path_of FILES_DIR)
        /\ (exists rel,
              parts filepath = (parts (Path_of FILES_DIR) ++ rel)%list
              /\ Forall plain rel)
        /\ status r.1 = SUCCESS
        /\ resp_body r.1 = FileBytes (read_bytes p))
  /\ (r.2 = [] -> r = (Response_ NOT_FOUND "Not Found", [])).
Proof.
  intros filename filepath r.
  destruct (filename_shape path) as (Hroot & k & clean & Hparts & Hclean & Hk).
  fold filename in Hroot, Hparts, Hk.
  assert (is_absolute filename = false) as Habs
    by (unfold is_absolute; by rewrite Hroot).
  subst r. unfold Files.files. fold filename. rewrite Habs. cbn [orb].
  destruct (PyStr.startswith (Path_str filename) "..") eqn:Hdd.
  { split; [done|]. split; [by left|]. split; [|done].
    intros p Hp. cbn in Hp. by apply elem_of_nil in Hp. }
  fold filepath.
  destruct (path_exists (Path_str filepath)) eqn:Hex; cbn [negb].
  - destruct (guess_type (Path_str filename)) as [mime encoding].
    cbn [fst snd].
    split; [intros [?|[?|?]]; done|]. split; [by right|].
    split; [|done]. intros p Hp. apply list_elem_of_singleton in Hp as ->.
    split; [done|]. split; [done|].
    assert (k = 0%nat) as ->.
    { destruct k; [done|]. by discriminate Hk. }
    cbn [replicate app] in Hparts.
    unfold filepath, joinpath. rewrite Habs. cbn [root parts].
    split; [done|]. split; [|done]. exists clean. by rewrite Hparts.
  - split; [done|]. split; [by left|]. split; [|done].
    intros p Hp. cbn in Hp. by apply elem_of_nil in Hp.
Qed.

End FilesHandler.

End PathFacts.

(** ** The handlers on concrete requests *)

Section Evaluations.

Import Models Views Files Samples.


(** C2, evaluated: alice asks to pick a petal from bob's plant, stored as
    flowering and alive but unwatered for forty days.  The handler reads
    [dead] and [stage_str] from the stored plant, lets the request through,
    and only then refreshes: the petal is picked from a plant that the
    refresh has just found dead.  The same plant, searched by bob himself
    behind [authenticate], is refreshed first and turned away. *)
Theorem visit_plant_search_checks_before_refresh :
  let r :=
    Views.visit_plant_search drought_refresh pick_first_petal stage_table
      (as_alice "/app/visit/0000000000000000000000000000000b/search" "")
      bob_id world in
  dead (plants (db world) !!! bob_id) = false
  /\ dead (drought_refresh (now world) (plants (db world) !!! bob_id)) = true
  /\ r.1 = Response_ REDIRECT_TEMPORARY
             "/app/visit/0000000000000000000000000000000b"
  /\ calls r.2
     = [PlantReadDead bob_id; PlantReadStage bob_id; PlantRefresh bob_id;
        PlantPickPetal bob_id (Some alice); PlantSave bob_id]
  /\ dead (plants (db r.2) !!! bob_id) = true
  /\ item_slots (db r.2) !! (alice_id, 3) = Some 1
  /\ (Views.authenticate drought_refresh login
        (fun request => Views.search pick_first_petal request)
        (request_of "/app/plant/search" "" "B1") world).1
     = Response_ BAD_REQUEST "You shouldn't be here!".
Proof. vm_compute. repeat split. Qed.

Lemma item_registration_ids_witness :
  Items.dense ∅
  /\ Items.item_id (Items.Item_init keep_text 1 "coin" "" false ∅).1 = 1.
Proof.
  split; [apply dense_empty|].
  destruct (item_registration_ids COLORS keep_text) as [Hstep _].
  destruct (Hstep 1 "coin" "" false ∅ dense_empty) as [Hid _].
  exact Hid.
Defined.

Lemma store_purchase_funds_witness :
  let r :=
    Views.store_purchase COLORS keep_text
      (as_alice "/app/store/purchase/2" " Yes ") "2" world in
  r.1 = Response_ REDIRECT_TEMPORARY "/app/store"
  /\ get_item_quantity alice (Items.coin (Views.items COLORS keep_text))
       (db r.2) = 25.
Proof.
  destruct (store_purchase_funds COLORS keep_text
              (as_alice "/app/store/purchase/2" " Yes ") "2"
              (Items.fertilizer (Views.items COLORS keep_text)) world)
    as (_ & _ & Hok).
  - vm_compute. reflexivity.
  - reflexivity.
  - apply list_elem_of_further, list_elem_of_here.
  - destruct Hok as (Hresp & _ & Hcoins & _).
    + apply Z.leb_le. vm_compute. reflexivity.
    + split; [exact Hresp|].
      etransitivity; [exact Hcoins|]. vm_compute. reflexivity.
Defined.


Lemma harvest_on_confirm_witness :
  PlantHarvest alice_id
    ∈ calls_since world
        (Views.harvest next_generation
           (as_alice "/app/plant/harvest/confirm" "Goodbye fern ") world).2.
Proof.
  destruct (harvest_on_confirm next_generation
              (as_alice "/app/plant/harvest/confirm" "Goodbye fern ") world)
    as [Hiff _].
  apply Hiff. vm_compute. repeat split.
Defined.

(** C4, as first stated, fails: on the plain harvest path a dead plant and
    the exact phrase "Goodbye fern" do not make the handler call
    [plant.harvest()]; the harvest page is rendered instead. *)
Lemma harvest_needs_confirm_path :
  ~ (forall (Plant_harvest : string -> DB -> DB) (request : AuthRequest)
            (w : World),
        let p := plant_of (user request) w in
        PlantHarvest (user_id (user request))
          ∈ calls_since w (Views.harvest Plant_harvest request w).2
        <-> (dead p || bool_decide (stage p = 5) = true
             /\ PyStr.strip (query request) = "Goodbye " ++ plant_name p)).
Proof.
  intros Hclaim.
  destruct (Hclaim next_generation
              (as_alice "/app/plant/harvest" "Goodbye fern") world)
    as [_ Hback].
  assert (PlantHarvest alice_id ∈ [PlantReadDead alice_id]) as Hin.
  { apply Hback. vm_compute. by split. }
  apply list_elem_of_singleton in Hin. discriminate Hin.
Qed.

Lemma name_first_40_witness :
  plant_name
    (plant_of alice
       (Views.name
          (as_alice "/app/plant/name"
             "0123456789012345678901234567890123456789abc") world).2)
  = "0123456789012345678901234567890123456789".
Proof.
  destruct (name_first_40
              (as_alice "/app/plant/name"
                 "0123456789012345678901234567890123456789abc") world)
    as [Hset _].
  destruct Hset as [Hname _]; [discriminate|]. exact Hname.
Defined.

Lemma visit_lists_active_recent_witness :
  Sorted by_score_desc
    (listed_plants (Views.visit every_plant (as_alice "/app/visit" "") world).1).
Proof.
  destruct (visit_lists_active_recent every_plant
              (as_alice "/app/visit" "") world)
    as (_ & _ & _ & Hsorted & _).
  exact Hsorted.
Defined.

(** C5, as first stated, fails: alice's own plant, with a positive score
    and watered the day before, is in the list that alice gets. *)
Lemma visit_lists_own_plant :
  ~ (forall (active : string -> Plant -> bool) (request : AuthRequest)
            (w : World) (p : Plant),
        (user_id (user request), p)
          ∉ listed_plants (Views.visit active request w).1).
Proof.
  intros Hclaim.
  apply (Hclaim every_plant (as_alice "/app/visit" "") world
           (mkPlant "fern" 2 true 7 (39 * day) 1)).
  vm_compute. apply list_elem_of_here.
Qed.

Lemma postcard_send_consumes_one_witness :
  let r :=
    Views.visit_plant_postcard_send COLORS keep_text
      (as_alice "/app/visit/0000000000000000000000000000000b/postcard/send" "")
      bob_id world in
  r.1 = Response_ REDIRECT_TEMPORARY
          "/app/visit/0000000000000000000000000000000b"
  /\ size (inbox (db r.2)) = 2%nat.
Proof.
  destruct (postcard_send_consumes_one COLORS keep_text
              (as_alice
                 "/app/visit/0000000000000000000000000000000b/postcard/send"
                 "")
              bob_id "bob" world)
    as (_ & _ & Hsend & _).
  - vm_compute. reflexivity.
  - destruct (Hsend "greetings") as (Hresp & _ & _ & _ & Hsize & _).
    + vm_compute. reflexivity.
    + discriminate.
    + apply Z.leb_le. vm_compute. reflexivity.
    + split; [exact Hresp|].
      etransitivity; [exact Hsize|]. vm_compute. reflexivity.
Defined.

Lemma mailbox_view_own_mail_witness :
  Views.mailbox_view (as_alice "/app/mailbox/1" "") "1" world
  = (Response_ BAD_REQUEST "You shouldn't be here!", world).
Proof.
  destruct (mailbox_view_own_mail (as_alice "/app/mailbox/1" "") "1" world)
    as (_ & Hother & _).
  destruct Hother as [Hresp Hworld].
  - intros m Hm. vm_compute in Hm. injection Hm as <-. discriminate.
  - destruct (Views.mailbox_view (as_alice "/app/mailbox/1" "") "1" world).
    simpl in *. by subst.
Defined.

Lemma files_under_files_dir_witness :
  Files.files "/srv/astrobotany/files" (fun _ => true) (fun p => p)
    (fun _ => (None, None)) "art/../../secret.txt"
  = (Response_ NOT_FOUND "Not Found", []).
Proof.
  destruct (files_under_files_dir "/srv/astrobotany/files" (fun _ => true)
              (fun p => p) (fun _ => (None, None)) "art/../../secret.txt")
    as [Hguard _].
  apply Hguard. right. left. vm_compute. reflexivity.
Defined.

End Evaluations.

(** * Further properties of the handlers *)

Section WrapperFacts.

Import Models Views.

Variable Plant_refresh : Z -> Plant -> Plant.
Variable User_login : string -> DB -> option Certificate.

Local Abbreviation authenticate :=
  (Views.authenticate Plant_refresh User_login).


End WrapperFacts.

Section StoreMore.

Import Models Views.

Variable COLORS_PLAIN : list string.
Variable dedent : string -> string.

Local Abbreviation items := (Views.items COLORS_PLAIN dedent).
Local Abbreviation store_purchase := (Views.store_purchase COLORS_PLAIN dedent).

(** X2: [store_purchase] touches the state only for a registered item on
    sale and an affirmative query.  An unknown id and an item not on sale
    are answered with BAD_REQUEST, an empty query with the confirmation
    prompt quoting the name and the price, and any other query that is not
    [y] or [yes] (after strip and lower) with the redirect back to the
    store: in all these cases nothing is bought and no call is made. *)
Theorem store_purchase_needs_confirmation
    (request : AuthRequest) (item_id : string) (w : World) :
  let r := store_purchase request item_id w in
  let confirmed :=
    PyStr.lower (PyStr.strip (query request)) ∈ ["y"; "yes"] in
  (Items.registry items !! int item_id = None ->
     r = (Response_ BAD_REQUEST "Item was not found", w))
  /\ (forall item,
        Items.registry items !! int item_id = Some item ->
        (Items.for_sale item = false ->
           r = (Response_ BAD_REQUEST "Item is not for sale", w))
        /\ (Items.for_sale item = true -> query request = "" ->
              r = (Response_ INPUT
                     ("Confirm: purchase 1 " ++ Items.name item ++ " for "
                      ++ pretty (Items.price item) ++ " coins. [Y]es/[N]o."),
                   w))
        /\ (Items.for_sale item = true -> query request <> "" ->
              ~ confirmed ->
              r = (Response_ REDIRECT_TEMPORARY "/app/store", w)))
  /\ (r.2 <> w ->
        exists item,
          Items.registry items !! int item_id = Some item
          /\ Items.for_sale item = true
          /\ confirmed).
Proof.
  intros r confirmed. subst r confirmed. unfold Views.store_purchase.
  destruct (Items.registry items !! int item_id) as [item|]; [|done].
  split; [done|]. split.
  - intros ? [= <-]. split; [by intros ->|].
    split; [by intros -> ->|].
    intros -> Hq Hno. apply truthy_nonempty in Hq. rewrite Hq. cbn [negb].
    by rewrite bool_decide_eq_false_2.
  - intros Hchanged. exists item. split; [done|].
    destruct (Items.for_sale item); cbn [negb] in *; [|done].
    split; [done|].
    destruct (PyStr.truthy (query request)); cbn [negb] in *; [|done].
    case_bool_decide; done.
Qed.

End StoreMore.

Section SessionFacts.

Import Models Views.

Lemma load_session_set (r : AuthRequest) (key value : string) (w : World)
    (uid k : string) :
  load_session uid (session_set r key value w).2 !! k
  = if decide ((uid, k) = (user_id (user r), key)) then Some value
    else load_session uid w !! k.
Proof.
  unfold session_set, load_session. cbn [snd sessions].
  rewrite lookup_insert. case_decide as Hu.
  - subst uid. cbn [default from_option]. unfold id.
    rewrite lookup_insert. repeat case_decide; congruence.
  - case_decide; [congruence | done].
Qed.

Lemma load_session_pop (r : AuthRequest) (key : string) (w : World)
    (uid k : string) :
  load_session uid (session_pop r key w).2 !! k
  = if decide ((uid, k) = (user_id (user r), key)) then None
    else load_session uid w !! k.
Proof.
  unfold session_pop, load_session. cbn [snd sessions].
  rewrite lookup_insert. case_decide as Hu.
  - subst uid. cbn [default from_option]. unfold id.
    rewrite lookup_delete. repeat case_decide; congruence.
  - case_decide; [congruence | done].
Qed.

Lemma load_session_with_db (d : DB) (w : World) (uid : string) :
  load_session uid (with_db d w) = load_session uid w.
Proof. done. Qed.

Lemma load_session_with_call (c : Call) (w : World) (uid : string) :
  load_session uid (with_call c w) = load_session uid w.
Proof. done. Qed.

Lemma session_get_run (r : AuthRequest) (key : string) (w : World) :
  session_get r key w = (load_session (user_id (user r)) w !! key, w).
Proof. done. Qed.

Lemma session_set_run (r : AuthRequest) (key value : string) (w : World) :
  session_set r key value w
  = (tt,
     mkWorld (db w)
       (<[user_id (user r) :=
            <[key := value]> (load_session (user_id (user r)) w)]>
          (sessions w))
       (now w) (calls w)).
Proof. done. Qed.

Lemma session_pop_run (r : AuthRequest) (key : string) (w : World) :
  session_pop r key w
  = (load_session (user_id (user r)) w !! key,
     mkWorld (db w)
       (<[user_id (user r) :=
            delete key (load_session (user_id (user r)) w)]>
          (sessions w))
       (now w) (calls w)).
Proof. done. Qed.

End SessionFacts.

Ltac steps :=
  repeat first
    [ progress crunch
    | rewrite session_get_run | rewrite session_set_run
    | rewrite session_pop_run | rewrite Inbox_create_run
    | rewrite load_session_with_db | rewrite load_session_with_call
    | progress cbn [fst snd Views.db Views.sessions Views.now Views.calls
                    Views.with_db Views.with_call] ].

Section GardenMore.

Import Models Views.

Variable Plant_refresh : Z -> Plant -> Plant.
Variable Plant_water : string -> option User -> Z -> DB -> string * DB.
Variable Plant_pick_petal : string -> option User -> DB -> string * DB.
Variable stage_names : Z -> string.

Local Abbreviation visit_plant_water :=
  (Views.visit_plant_water Plant_refresh Plant_water).
Local Abbreviation visit_plant_search :=
  (Views.visit_plant_search Plant_refresh Plant_pick_petal stage_names).
Local Abbreviation search := (Views.search Plant_pick_petal).

(** The tables once the plant of [uid] has been refreshed. *)
Local Abbreviation refreshed_db uid w :=
  (set_plants <[uid := Plant_refresh (now w) (plants (db w) !!! uid)]> (db w)).

(** X3: [visit_plant_water] on an unknown user answers NOT_FOUND, and on
    the requester's own id redirects to [/app/plant]; in both cases nothing
    is watered and the state is untouched.  On another user's plant the
    calls are refresh, water (with the requester as actor), save, in this
    order: the plant is watered as refreshed, the message of [water] becomes
    the requester's alert, and the answer is the redirect to the visited
    garden. *)
Theorem visit_plant_water_refreshes_first
    (request : AuthRequest) (target : string) (w : World) :
  let r := visit_plant_water request target w in
  let me := user request in
  (users (db w) !! target = None ->
     r = (Response_ NOT_FOUND "User not found", w))
  /\ (is_Some (users (db w) !! target) -> target = user_id me ->
        r = (Response_ REDIRECT_TEMPORARY "/app/plant", w))
  /\ (is_Some (users (db w) !! target) -> target <> user_id me ->
        let watered :=
          Plant_water target (Some me) (now w) (refreshed_db target w) in
        r.1 = Response_ REDIRECT_TEMPORARY ("/app/visit/" ++ target)
        /\ calls_since w r.2
           = [PlantRefresh target; PlantWater target (Some me);
              PlantSave target]
        /\ db r.2 = watered.2
        /\ load_session (user_id me) r.2 !! "alert" = Some watered.1
        /\ (forall uid key,
              (uid, key) <> (user_id me, "alert") ->
              load_session uid r.2 !! key = load_session uid w !! key)).
Proof.
  intros r me. subst r. unfold Views.visit_plant_water. crunch.
  destruct (users (db w) !! target) as [name|] eqn:Hu;
    cbn [fmap option_fmap option_map]; crunch.
  2: { split; [done|]. split; intros [? ?]; done. }
  split; [done|]. unfold same_user. cbn [user_id]. fold me. split.
  - intros _ ->. by rewrite bool_decide_eq_true_2.
  - intros _ Hne. rewrite bool_decide_eq_false_2 by congruence. crunch.
    unfold session_set, load_session, with_call, with_db.
    cbn [fst snd db sessions calls now user_id].
    fold me. split; [done|].
    split; [apply calls_since_app; cbn [calls]; by rewrite <- !app_assoc|].
    split; [done|].
    split; [rewrite lookup_insert_eq; cbn [default from_option]; unfold id;
            by rewrite lookup_insert_eq|].
    intros uid key Hk. rewrite lookup_insert. case_decide as Hu'; [|done].
    subst uid. cbn [default from_option]. unfold id.
    rewrite lookup_insert_ne; [done | congruence].
Qed.

(** X4: [search] on the requester's own plant, alive and at stage 4,
    calls [pick_petal] exactly once, without an actor, after the two reads;
    the tables are the ones [pick_petal] returns, its message becomes the
    requester's alert, and the answer is the redirect to [/app/plant]. *)
Theorem search_picks_one_petal (request : AuthRequest) (w : World) :
  let me := user request in
  let p := plant_of me w in
  dead p = false -> stage p = 4 ->
  let r := search request w in
  let picked := Plant_pick_petal (user_id me) None (db w) in
  r.1 = Response_ REDIRECT_TEMPORARY "/app/plant"
  /\ calls_since w r.2
     = [PlantReadDead (user_id me); PlantReadStage (user_id me);
        PlantPickPetal (user_id me) None]
  /\ db r.2 = picked.2
  /\ load_session (user_id me) r.2 !! "alert" = Some picked.1.
Proof.
  intros me p Hdead Hstage r picked. subst r. rewrite search_run.
  fold me p. rewrite Hdead, Hstage.
  rewrite bool_decide_eq_true_2 by done. cbn [orb negb fst snd].
  split; [done|].
  split.
  { apply calls_since_app. unfold session_set, with_db, with_call.
    cbn [snd calls]. by rewrite <- !app_assoc. }
  split; [done|].
  rewrite load_session_set. by rewrite decide_True.
Qed.

(** X5: [visit_plant_search] on another user's plant, stored as alive and
    flowering, refreshes it and then calls [pick_petal] once with the
    requester as actor: the tables are the ones [pick_petal] returns from
    the refreshed tables, its message becomes the requester's alert (not the
    owner's), and the answer is the redirect to the visited garden. *)
Theorem visit_plant_search_picks_for_visitor
    (request : AuthRequest) (target target_name : string) (w : World) :
  let me := user request in
  let p := plants (db w) !!! target in
  users (db w) !! target = Some target_name ->
  target <> user_id me ->
  dead p = false -> stage_names (stage p) = "flowering" ->
  let r := visit_plant_search request target w in
  let picked := Plant_pick_petal target (Some me) (refreshed_db target w) in
  r.1 = Response_ REDIRECT_TEMPORARY ("/app/visit/" ++ target)
  /\ calls_since w r.2
     = [PlantReadDead target; PlantReadStage target; PlantRefresh target;
        PlantPickPetal target (Some me); PlantSave target]
  /\ db r.2 = picked.2
  /\ load_session (user_id me) r.2 !! "alert" = Some picked.1
  /\ load_session target r.2 = load_session target w.
Proof.
  intros me p Hu Hne Hdead Hstage r picked.
  destruct (visit_plant_search_run Plant_refresh Plant_pick_petal stage_names
              request target target_name w Hu Hne) as (Hresp & Hcalls & _).
  fold p in Hresp, Hcalls. rewrite Hdead, Hstage in Hresp, Hcalls.
  cbn in Hresp, Hcalls. fold r in Hresp, Hcalls.
  split; [done|]. split; [done|].
  subst r. unfold Views.visit_plant_search. crunch.
  rewrite Hu. cbn [fmap option_fmap option_map]. crunch.
  unfold same_user.
  rewrite bool_decide_eq_false_2 by (cbn; intros E; apply Hne; by rewrite <- E).
  crunch. unfold read_stage_str, plant_of. crunch.
  cbn [user_id db with_call]. fold p. rewrite Hdead. crunch.
  unfold plant_of. cbn [user_id db with_call]. fold p.
  rewrite Hstage, String.eqb_refl. crunch.
  split; [done|]. fold me.
  rewrite !load_session_with_call, !load_session_set.
  split; [by rewrite decide_True|].
  apply map_eq. intros k. rewrite load_session_set.
  rewrite decide_False; [done|]. intros [= Ht _]. done.
Qed.

End GardenMore.

Section MailMore.

Import Models Views.

Variable COLORS_PLAIN : list string.
Variable dedent : string -> string.

Local Abbreviation items := (Views.items COLORS_PLAIN dedent).
Local Abbreviation visit_plant_postcard_send :=
  (Views.visit_plant_postcard_send COLORS_PLAIN dedent).

(** X6: viewing the same message twice is the same as viewing it once: the
    second [mailbox_view] gives the answer of the first and leaves the
    tables and the sessions as the first left them. *)
Theorem mailbox_view_idempotent (request : AuthRequest) (message_id : string)
    (w : World) :
  let r1 := mailbox_view request message_id w in
  let r2 := mailbox_view request message_id r1.2 in
  r2.1 = r1.1 /\ db r2.2 = db r1.2 /\ sessions r2.2 = sessions r1.2.
Proof.
  intros r1 r2. subst r2 r1. unfold mailbox_view, Inbox_get_or_none. crunch.
  destruct (inbox (db w) !! int message_id) as [m|] eqn:Hm.
  - case_bool_decide as Hto; crunch.
    + cbn [db with_db with_call set_inbox inbox]. rewrite lookup_insert_eq.
      cbn [user_to]. rewrite bool_decide_eq_true_2 by done. crunch.
      cbn [db with_db with_call set_inbox inbox user_from user_to subject
             body sessions].
      unfold set_inbox. cbn [users certificates plants item_slots inbox].
      rewrite insert_insert_eq. done.
    + rewrite Hm. rewrite bool_decide_eq_false_2 by done. crunch. done.
  - crunch. rewrite Hm. crunch. done.
Qed.

(** What a successful [visit_plant_postcard_send] leaves behind. *)
Lemma postcard_send_run (request : AuthRequest) (target target_name : string)
    (s : string) (w : World) :
  let me := user request in
  users (db w) !! target = Some target_name ->
  load_session (user_id me) w !! "postcard_subject" = Some s ->
  s <> "" ->
  1 <= get_item_quantity me (Items.postcard items) (db w) ->
  let r := visit_plant_postcard_send request target w in
  r.1 = Response_ REDIRECT_TEMPORARY ("/app/visit/" ++ target)
  /\ users (db r.2) = users (db w)
  /\ inbox (db r.2)
     = <[fresh (dom (inbox (db w))) :=
           mkInbox (user_id me) target s "Hello world!" false]>
         (inbox (db w))
  /\ get_item_quantity me (Items.postcard items) (db r.2)
     = get_item_quantity me (Items.postcard items) (db w) - 1
  /\ load_session (user_id me) r.2 !! "postcard_subject" = None.
Proof.
  intros me Hu Hs Hne Hle r. subst r.
  unfold Views.visit_plant_postcard_send. steps.
  rewrite Hu. cbn [fmap option_fmap option_map]. steps.
  fold me. rewrite Hs.
  cbn [truthy_opt]. rewrite (proj2 (truthy_nonempty s) Hne). steps.
  rewrite remove_item_succeeds by done. steps. fold me. rewrite Hs. steps.
  cbn [default from_option user_id]. unfold id.
  split; [done|]. split; [done|]. split; [done|].
  split.
  { unfold get_item_quantity, set_inbox, set_item_slots.
    cbn [item_slots]. by rewrite lookup_insert_eq. }
  unfold load_session. cbn [sessions]. rewrite lookup_insert_eq.
  cbn [default from_option]. unfold id.
  rewrite lookup_insert_ne by done. rewrite lookup_insert_eq.
  cbn [default from_option]. unfold id. apply lookup_delete_eq.
Qed.

(** X7: a drafted subject is used for exactly one postcard.  After
    [visit_plant_postcard_subject] has taken a query of 1 to 128 characters,
    a [visit_plant_postcard_send] by the same user with a postcard in hand
    delivers a message with that very subject to the target; a second send
    right after it is turned away for want of a subject and changes
    nothing, however many postcards are left. *)
Theorem postcard_draft_is_sent_once
    (draft send : AuthRequest) (target target_name : string) (w : World) :
  user draft = user send ->
  users (db w) !! target = Some target_name ->
  query draft <> "" ->
  (String.length (query draft) <= 128)%nat ->
  1 <= get_item_quantity (user send) (Items.postcard items) (db w) ->
  let w1 := (visit_plant_postcard_subject draft target w).2 in
  let r := visit_plant_postcard_send send target w1 in
  let again := visit_plant_postcard_send send target r.2 in
  r.1 = Response_ REDIRECT_TEMPORARY ("/app/visit/" ++ target)
  /\ inbox (db r.2)
     = <[fresh (dom (inbox (db w))) :=
           mkInbox (user_id (user send)) target (query draft) "Hello world!"
             false]>
         (inbox (db w))
  /\ again
     = (Response_ BAD_REQUEST "Postcard subject cannot be blank.", r.2).
Proof.
  intros Hsame Hu Hq Hlen Hcards w1 r again.
  assert (db w1 = db w
          /\ load_session (user_id (user send)) w1 !! "postcard_subject"
             = Some (query draft)) as [Hdb Hdraft].
  { subst w1. unfold visit_plant_postcard_subject. crunch. rewrite Hu.
    cbn [fmap option_fmap option_map].
    rewrite (proj2 (truthy_nonempty _) Hq). cbn [negb].
    rewrite bool_decide_eq_false_2 by (unfold PyStr.len; lia). crunch.
    split; [done|]. rewrite load_session_set, Hsame. by rewrite decide_True. }
  destruct (postcard_send_run send target target_name (query draft) w1)
    as (Hresp & Husers & Hinbox & _ & Hgone); try done.
  { by rewrite Hdb. } { by rewrite Hdb. }
  fold r in Hresp, Husers, Hinbox, Hgone. rewrite Hdb in Hinbox, Husers.
  split; [done|]. split; [done|].
  subst again. unfold Views.visit_plant_postcard_send. crunch.
  rewrite Husers, Hu. cbn [fmap option_fmap option_map]. crunch.
  unfold session_get. cbn [fst snd]. rewrite Hgone. done.
Qed.

End MailMore.

(** ** The catalogue, entry by entry *)

Section CatalogueMore.

Import Items Catalogue.

Variable COLORS_PLAIN : list string.
Variable dedent : string -> string.

Local Abbreviation m := (module_ COLORS_PLAIN dedent).
Local Abbreviation petal_item := (Catalogue.petal_item dedent).

Lemma last_occurrence (color : string) (l : list string) :
  color ∈ l ->
  exists k, l !! k = Some color /\ forall j, (k < j)%nat -> l !! j <> Some color.
Proof.
  induction l as [|c l IH]; [by intros ?%elem_of_nil|].
  intros Hin. destruct (decide (color ∈ l)) as [Hl|Hl].
  - destruct (IH Hl) as (k & Hk & Hlast). exists (S k). split; [done|].
    intros [|j] Hj; [lia|]. apply Hlast. lia.
  - apply elem_of_cons in Hin as [->|]; [|done]. exists 0%nat.
    split; [done|]. intros [|j] Hj; [lia|]. cbn. intros Hj'.
    apply Hl. by eapply list_elem_of_lookup_2.
Qed.

(** The petals dictionary after the loop: a colour that does not occur
    keeps its entry, a colour that occurs gets the item constructed at its
    last occurrence. *)
Lemma petals_loop (colors : list string) :
  forall (pt : gmap string Item) (r : gmap Z Item),
    dense r ->
    let st := foldl (petals_step dedent) (pt, r) colors in
    (forall color, color ∉ colors -> st.1 !! color = pt !! color)
    /\ (forall k color,
          colors !! k = Some color ->
          (forall j, (k < j)%nat -> colors !! j <> Some color) ->
          st.1 !! color = Some (petal_item (size r + k) color)).
Proof.
  induction colors as [|c cs IH]; intros pt r Hd st.
  { split; [done|]. intros k color Hk. done. }
  subst st. cbn [foldl]. unfold petals_step at 2.
  pose proof (Item_init_dense dedent 0 ("flower petal [" ++ c ++ "]")
                (petal_description
                   (if bool_decide (c ∈ ["orange"; "indigo"])
                    then "an " ++ c else "a " ++ c)) false r Hd) as Hd'.
  pose proof (Item_init_size dedent 0 ("flower petal [" ++ c ++ "]")
                (petal_description
                   (if bool_decide (c ∈ ["orange"; "indigo"])
                    then "an " ++ c else "a " ++ c)) false r Hd) as Hs'.
  cbn [Item_init] in *. cbn [fst snd] in Hd', Hs'.
  match goal with
  | |- context [foldl _ (?pt1, ?r1) cs] =>
      destruct (IH pt1 r1 Hd') as [IHout IHin]
  end.
  split.
  - intros color Hout. apply not_elem_of_cons in Hout as [Hne Hout].
    etransitivity; [by apply IHout|]. by rewrite lookup_insert_ne.
  - intros [|k] color Hk Hlast.
    + injection Hk as ->. etransitivity; [apply IHout|].
      * intros Hin. apply list_elem_of_lookup_1 in Hin as [j Hj].
        by apply (Hlast (S j)); [lia|].
      * rewrite lookup_insert_eq. unfold Catalogue.petal_item.
        by rewrite Nat.add_0_r.
    + etransitivity; [apply (IHin k color Hk)|].
      * intros j Hj. apply (Hlast (S j)). lia.
      * unfold Item_init in Hs'. cbn [snd] in Hs'. rewrite Hs'.
        f_equal. unfold Catalogue.petal_item. do 3 f_equal. lia.
Qed.

Local Abbreviation the_paperclip :=
  (mkItem 1 0 "paper clip" (PyStr.strip (dedent paperclip_description)) false).
Local Abbreviation the_fertilizer :=
  (mkItem 2 75 "EZ-Grow fertilizer"
     (PyStr.strip (dedent fertilizer_description)) true).
Local Abbreviation first_two :=
  (<[2 := the_fertilizer]> (<[1 := the_paperclip]> (∅ : gmap Z Item))).

Lemma first_two_dense : dense first_two /\ size first_two = 2%nat.
Proof.
  assert (Item_init dedent 0 "paper clip" paperclip_description false ∅
          = (the_paperclip, <[1 := the_paperclip]> ∅)) as H1.
  { unfold Item_init. cbn [item_id]. by rewrite map_size_empty. }
  assert (size (<[1 := the_paperclip]> (∅ : gmap Z Item)) = 1%nat) as Hs1.
  { by rewrite map_size_insert_None, map_size_empty. }
  assert (Item_init dedent 75 "EZ-Grow fertilizer" fertilizer_description true
            (<[1 := the_paperclip]> ∅)
          = (the_fertilizer, first_two)) as H2.
  { unfold Item_init. cbn [item_id]. by rewrite Hs1. }
  pose proof (Item_init_dense dedent 0 "paper clip" paperclip_description
                false ∅ dense_empty) as Hd1.
  rewrite H1 in Hd1. cbn [snd] in Hd1.
  pose proof (Item_init_dense dedent 75 "EZ-Grow fertilizer"
                fertilizer_description true _ Hd1) as Hd2.
  pose proof (Item_init_size dedent 75 "EZ-Grow fertilizer"
                fertilizer_description true _ Hd1) as Hs2.
  rewrite H2 in Hd2, Hs2. cbn [snd] in Hd2, Hs2. rewrite Hs1 in Hs2. done.
Qed.

(** The names that the module binds, written out. *)
Lemma module_fields :
  let n := Z.of_nat (List.length COLORS_PLAIN) in
  paperclip m = the_paperclip
  /\ fertilizer m = the_fertilizer
  /\ petals m = (foldl (petals_step dedent) (∅, first_two) COLORS_PLAIN).1
  /\ postcard m
     = mkItem (n + 4) 20 "postcard"
         (PyStr.strip (dedent postcard_description)) true.
Proof.
  intros n. destruct first_two_dense as [Hd2 Hs2].
  assert (Item_init dedent 0 "paper clip" paperclip_description false ∅
          = (the_paperclip, <[1 := the_paperclip]> ∅)) as H1.
  { unfold Item_init. cbn [item_id]. by rewrite map_size_empty. }
  assert (Item_init dedent 75 "EZ-Grow fertilizer" fertilizer_description true
            (<[1 := the_paperclip]> ∅)
          = (the_fertilizer, first_two)) as H2.
  { unfold Item_init. cbn [item_id].
    by rewrite map_size_insert_None, map_size_empty. }
  unfold module_. rewrite H1, H2.
  pose proof (petals_loop_registry dedent COLORS_PLAIN ∅ first_two) as Hloop.
  destruct (run_calls_lookup dedent (map petal_call COLORS_PLAIN) first_two 0
              Hd2) as (Hd3 & Hs3 & _).
  destruct (foldl (petals_step dedent) (∅, first_two) COLORS_PLAIN)
    as [pt r3].
  cbn [snd] in Hloop. subst r3.
  pose proof (Item_init_size dedent 1 "coin" coin_description false _ Hd3)
    as Hs4.
  destruct (Item_init dedent 1 "coin" coin_description false
              (run_calls dedent (map petal_call COLORS_PLAIN) first_two))
    as [cn r4]. cbn [snd] in Hs4.
  unfold Item_init. cbn [paperclip fertilizer petals postcard fst].
  split; [done|]. split; [done|]. split; [done|].
  rewrite Hs4, Hs3, Hs2, length_map. f_equal. lia.
Qed.

Lemma constructor_calls_lookup (k : nat) (c : Z * string * string * bool) :
  let n := List.length COLORS_PLAIN in
  constructor_calls COLORS_PLAIN !! k = Some c
  <-> (k = 0%nat /\ c = (0, "paper clip", paperclip_description, false))
      \/ (k = 1%nat
          /\ c = (75, "EZ-Grow fertilizer", fertilizer_description, true))
      \/ (exists j color,
            k = (2 + j)%nat /\ COLORS_PLAIN !! j = Some color
            /\ c = petal_call color)
      \/ (k = (2 + n)%nat /\ c = (1, "coin", coin_description, false))
      \/ (k = (3 + n)%nat /\ c = (20, "postcard", postcard_description, true)).
Proof.
  intros n. subst n. unfold constructor_calls.
  destruct k as [|[|k]];
    [rewrite lookup_app_l by (cbn; lia) | rewrite lookup_app_l by (cbn; lia)
    | rewrite lookup_app_r by (cbn; lia); cbn [List.length Nat.sub];
      rewrite Nat.sub_0_r].
  - split; [intros [= <-]; by left|].
    intros [[_ ->]|[[? _]|[(j & ? & ? & _)|[[? _]|[? _]]]]]; done || lia.
  - split; [intros [= <-]; right; by left|].
    intros [[? _]|[[_ ->]|[(j & ? & ? & _)|[[? _]|[? _]]]]]; done || lia.
  - destruct (decide (k < List.length COLORS_PLAIN)%nat) as [Hk|Hk].
    + rewrite lookup_app_l by (rewrite length_map; lia).
      rewrite list_lookup_fmap. split.
      * intros Hc. destruct (COLORS_PLAIN !! k) as [color|] eqn:E;
          [|by inversion Hc].
        inversion Hc; subst c. right. right. left. by exists k, color.
      * intros [[? _]|[[? _]|[(j & color & Hj & Hcol & ->)|[[? _]|[? _]]]]];
          try lia.
        assert (j = k) as -> by lia. by rewrite Hcol.
    + rewrite lookup_app_r by (rewrite length_map; lia).
      rewrite length_map.
      destruct (k - List.length COLORS_PLAIN)%nat as [|[|d]] eqn:Hd.
      * split.
        -- intros [= <-]. do 3 right. left. split; [lia | done].
        -- intros [[? _]|[[? _]|[(j & color & Hj & Hcol & _)|[[_ ->]
                                                              |[? _]]]]];
             try lia; try done.
           apply lookup_lt_Some in Hcol. lia.
      * split.
        -- intros [= <-]. do 4 right. split; [lia | done].
        -- intros [[? _]|[[? _]|[(j & color & Hj & Hcol & _)|[[? _]
                                                              |[_ ->]]]]];
             try lia; try done.
           apply lookup_lt_Some in Hcol. lia.
      * split; [done|].
        intros [[? _]|[[? _]|[(j & color & Hj & Hcol & _)|[[? _]|[? _]]]]];
          try lia.
        apply lookup_lt_Some in Hcol. lia.
Qed.

Lemma registry_lookup_call (i : Z) (it : Item) :
  registry m !! i = Some it
  <-> 1 <= i
      /\ exists p n d f,
           constructor_calls COLORS_PLAIN !! Z.to_nat (i - 1)
           = Some (p, n, d, f)
           /\ it = mkItem i p n (PyStr.strip (dedent d)) f.
Proof.
  rewrite module_lookup. case_decide as Hi.
  { split; [done|]. intros [? _]. lia. }
  unfold construction_order, numbered_from. rewrite list_lookup_imap.
  destruct (constructor_calls COLORS_PLAIN !! Z.to_nat (i - 1))
    as [[[[p n] d] f]|]; cbn [fmap option_fmap option_map].
  - replace (Z.of_nat (0 + Z.to_nat (i - 1)) + 1) with i by lia. split.
    + intros [= <-]. split; [lia|]. by exists p, n, d, f.
    + intros (_ & p' & n' & d' & f' & [= <- <- <- <-] & ->). done.
  - split; [done|]. intros (_ & ? & ? & ? & ? & ? & _). done.
Qed.

Lemma registry_entries (i : Z) (it : Item) :
  let n := Z.of_nat (List.length COLORS_PLAIN) in
  registry m !! i = Some it
  <-> (i = 1 /\ it = paperclip m)
      \/ (i = 2 /\ it = fertilizer m)
      \/ (exists (k : nat) (color : string),
            COLORS_PLAIN !! k = Some color
            /\ i = Z.of_nat k + 3
            /\ it = petal_item (k + 2) color)
      \/ (i = n + 3 /\ it = coin m)
      \/ (i = n + 4 /\ it = postcard m).
Proof.
  intros n. destruct module_fields as (-> & -> & _ & ->).
  rewrite module_coin. fold n. rewrite registry_lookup_call. split.
  - intros (Hi & p & nm & d & f & Hc & ->).
    apply constructor_calls_lookup in Hc
      as [[Hk Hc]|[[Hk Hc]|[(j & color & Hk & Hcol & Hc)|[[Hk Hc]|[Hk Hc]]]]];
      try (injection Hc as -> -> -> ->).
    + left. split; [lia|]. f_equal. lia.
    + right. left. split; [lia|]. f_equal. lia.
    + right. right. left. exists j, color. split; [done|]. split; [lia|].
      unfold Catalogue.petal_item. f_equal. lia.
    + do 3 right. left. subst n. split; [lia|]. f_equal. lia.
    + do 4 right. subst n. split; [lia|]. f_equal. lia.
  - intros [[-> ->]|[[-> ->]|[(k & color & Hcol & -> & ->)|[[-> ->]|[-> ->]]]]].
    + split; [lia|]. eexists _, _, _, _. split; [|done].
      apply constructor_calls_lookup. by left.
    + split; [lia|]. eexists _, _, _, _. split; [|done].
      apply constructor_calls_lookup. right. by left.
    + split; [lia|]. eexists _, _, _, _. split.
      * apply constructor_calls_lookup. right. right. left.
        exists k, color. split; [lia|]. split; [done|]. reflexivity.
      * unfold Catalogue.petal_item. f_equal. lia.
    + split; [lia|]. eexists _, _, _, _. split; [|done].
      apply constructor_calls_lookup. do 3 right. left. subst n.
      split; [lia | done].
    + split; [lia|]. eexists _, _, _, _. split; [|done].
      apply constructor_calls_lookup. do 4 right. subst n.
      split; [lia | done].
Qed.

(** X8: the catalogue, entry by entry.  Whatever [COLORS_PLAIN] holds, the
    registry has the paper clip under id 1, the fertilizer under id 2, one
    petal per colour in the order of [COLORS_PLAIN] under the ids from 3,
    then the coin and the postcard, and nothing else; the names [paperclip],
    [fertilizer], [coin] and [postcard] of the module are these entries,
    with the ids, prices, names and sale flags of their constructor calls;
    the registry holds as many items as there are colours, plus 4. *)
Theorem catalogue_by_id (i : Z) (it : Item) :
  let n := Z.of_nat (List.length COLORS_PLAIN) in
  (registry m !! i = Some it
   <-> (i = 1 /\ it = paperclip m)
       \/ (i = 2 /\ it = fertilizer m)
       \/ (exists (k : nat) (color : string),
             COLORS_PLAIN !! k = Some color
             /\ i = Z.of_nat k + 3
             /\ it = petal_item (k + 2) color)
       \/ (i = n + 3 /\ it = coin m)
       \/ (i = n + 4 /\ it = postcard m))
  /\ paperclip m
     = mkItem 1 0 "paper clip" (PyStr.strip (dedent paperclip_description))
         false
  /\ fertilizer m
     = mkItem 2 75 "EZ-Grow fertilizer"
         (PyStr.strip (dedent fertilizer_description)) true
  /\ coin m = mkItem (n + 3) 1 "coin" (PyStr.strip (dedent coin_description))
               false
  /\ postcard m
     = mkItem (n + 4) 20 "postcard" (PyStr.strip (dedent postcard_description))
         true
  /\ (forall j, is_Some (registry m !! j) <-> 1 <= j <= n + 4).
Proof.
  intros n. split; [apply registry_entries|].
  destruct module_fields as (Hpaperclip & Hfertilizer & _ & Hpostcard).
  split; [done|]. split; [done|]. split; [apply module_coin|].
  split; [done|]. intros j. rewrite module_lookup.
  pose proof (construction_order_length COLORS_PLAIN dedent) as Hlen.
  case_decide as Hj.
  - split; [by intros [? ?] | lia].
  - rewrite lookup_lt_is_Some. lia.
Qed.

(** X9: the only registered items on sale are the fertilizer, at 75
    coins, and the postcard, at 20: the paper clip, every petal and the
    coin itself cannot be bought. *)
Theorem only_fertilizer_and_postcard_for_sale (i : Z) (it : Item) :
  let n := Z.of_nat (List.length COLORS_PLAIN) in
  (registry m !! i = Some it /\ for_sale it = true
   <-> (i = 2 /\ it = fertilizer m) \/ (i = n + 4 /\ it = postcard m))
  /\ price (fertilizer m) = 75
  /\ price (postcard m) = 20.
Proof.
  intros n. destruct module_fields as (Hp & Hf & _ & Hpc).
  split; [|by rewrite Hf, Hpc]. rewrite registry_entries. fold n. split.
  - intros [[[-> ->]|[[-> ->]|[(k & color & _ & -> & ->)|[[-> ->]|[-> ->]]]]]
            Hsale].
    + by rewrite Hp in Hsale.
    + by left.
    + done.
    + by rewrite module_coin in Hsale.
    + by right.
  - intros [[-> ->]|[-> ->]].
    + split; [right; by left|]. by rewrite Hf.
    + split; [by do 4 right|]. by rewrite Hpc.
Qed.

(** X10: the dictionary [petals] has an entry exactly for the colours of
    [COLORS_PLAIN].  The entry of a colour is the registered petal item
    constructed at the last place the colour occurs, named after the
    colour, with price 0 and not for sale; when no colour occurs twice, the
    colour at place [k] maps to the item with id [k + 3]. *)
Theorem petals_by_color :
  (forall color, is_Some (petals m !! color) <-> color ∈ COLORS_PLAIN)
  /\ (forall color it,
        petals m !! color = Some it ->
        name it = "flower petal [" ++ color ++ "]"
        /\ price it = 0
        /\ for_sale it = false
        /\ exists k : nat,
             COLORS_PLAIN !! k = Some color
             /\ (forall j, (k < j)%nat -> COLORS_PLAIN !! j <> Some color)
             /\ item_id it = Z.of_nat k + 3
             /\ registry m !! item_id it = Some it)
  /\ (NoDup COLORS_PLAIN ->
      forall (k : nat) color,
        COLORS_PLAIN !! k = Some color ->
        petals m !! color = registry m !! (Z.of_nat k + 3)).
Proof.
  destruct module_fields as (_ & _ & Hpetals & _).
  destruct first_two_dense as [Hd2 Hs2].
  destruct (petals_loop COLORS_PLAIN ∅ first_two Hd2) as [Hout Hin].
  rewrite <- Hpetals in Hout, Hin. rewrite Hs2 in Hin.
  assert (forall (k : nat) color,
            COLORS_PLAIN !! k = Some color ->
            registry m !! (Z.of_nat k + 3) = Some (petal_item (2 + k) color))
    as Hreg.
  { intros k color Hk. apply registry_entries. right. right. left.
    exists k, color. split; [done|]. split; [done|]. f_equal. lia. }
  assert (forall color it,
            petals m !! color = Some it ->
            exists k : nat,
              COLORS_PLAIN !! k = Some color
              /\ (forall j, (k < j)%nat -> COLORS_PLAIN !! j <> Some color)
              /\ it = petal_item (2 + k) color) as Hentry.
  { intros color it Hit.
    destruct (decide (color ∈ COLORS_PLAIN)) as [Hc|Hc].
    - destruct (last_occurrence color COLORS_PLAIN Hc) as (k & Hk & Hlast).
      exists k. split; [done|]. split; [done|].
      rewrite (Hin k color Hk Hlast) in Hit. by injection Hit as <-.
    - rewrite (Hout color Hc), lookup_empty in Hit. done. }
  split; [|split].
  - intros color. split.
    + intros [it Hit]. destruct (Hentry color it Hit) as (k & Hk & _).
      by eapply list_elem_of_lookup_2.
    + intros Hc.
      destruct (last_occurrence color COLORS_PLAIN Hc) as (k & Hk & Hlast).
      rewrite (Hin k color Hk Hlast). eauto.
  - intros color it Hit.
    destruct (Hentry color it Hit) as (k & Hk & Hlast & ->).
    cbn [Catalogue.petal_item name price for_sale item_id].
    split; [done|]. split; [done|]. split; [done|].
    exists k. split; [done|]. split; [done|]. split; [lia|].
    replace (Z.of_nat (2 + k) + 1) with (Z.of_nat k + 3) by lia.
    by apply Hreg.
  - intros Hnd k color Hk. rewrite (Hreg k color Hk). apply Hin; [done|].
    intros j Hj Hcol.
    pose proof (NoDup_lookup _ _ _ _ Hnd Hk Hcol). lia.
Qed.

End CatalogueMore.

(** ** The plant page and the visited garden *)

Section PlantPage.

Import Models Views MoreViews.

Variable COLORS_PLAIN : list string.
Variable dedent : string -> string.
Variable Plant_refresh : Z -> Plant -> Plant.
Variable Plant_water : string -> option User -> Z -> DB -> string * DB.
Variable Plant_get_observation : Plant -> bool -> string.
Variable Plant_shake : string -> DB -> string * DB.

Local Abbreviation plant := (MoreViews.plant Plant_get_observation).
Local Abbreviation shake := (MoreViews.shake Plant_shake).
Local Abbreviation water := (Views.water Plant_water).
Local Abbreviation visit_plant :=
  (MoreViews.visit_plant COLORS_PLAIN dedent Plant_refresh).

(** The page [plant.gmi] for a plant and an alert. *)
Local Abbreviation plant_page p alert :=
  (mkResponse SUCCESS "text/gemini"
     (render_template "plant.gmi" [("plant", VPlant p); ("alert", VStr alert)])).

Lemma plant_run (request : AuthRequest) (w : World) :
  let me := user request in
  plant request w
  = (plant_page (plant_of me w)
       (default (Plant_get_observation (plant_of me w)
                   (ansi_enabled (cert request)))
          (load_session (user_id me) w !! "alert")),
     mkWorld (db w)
       (<[user_id me := delete "alert" (load_session (user_id me) w)]>
          (sessions w))
       (now w) (calls w)).
Proof.
  intros me. unfold MoreViews.plant. steps. fold me.
  unfold plant_of. cbn [db].
  by destruct (load_session (user_id me) w !! "alert").
Qed.

(** X11: an alert is shown once.  [plant] shows the pending alert of the
    requester, or the observation of the plant when none is pending, and
    clears it: asked again, the page shows the observation, and the state
    stays as the first request left it.  The tables, the call log and the
    sessions of other users are never touched. *)
Theorem plant_shows_alert_once (request : AuthRequest) (w : World) :
  let me := user request in
  let observation :=
    Plant_get_observation (plant_of me w) (ansi_enabled (cert request)) in
  let r := plant request w in
  r.1 = plant_page (plant_of me w)
          (default observation (load_session (user_id me) w !! "alert"))
  /\ db r.2 = db w
  /\ calls r.2 = calls w
  /\ (forall uid key,
        load_session uid r.2 !! key
        = if decide ((uid, key) = (user_id me, "alert")) then None
          else load_session uid w !! key)
  /\ plant request r.2 = (plant_page (plant_of me w) observation, r.2).
Proof.
  intros me observation r. subst r. rewrite !plant_run. fold me.
  cbn [fst snd db calls]. split; [done|]. split; [done|]. split; [done|].
  split.
  { intros uid key. unfold load_session at 1. cbn [sessions].
    rewrite lookup_insert. case_decide as Hu.
    - subst uid. cbn [default from_option]. unfold id.
      case_decide as Hk.
      + injection Hk as ->. apply lookup_delete_eq.
      + rewrite lookup_delete_ne; [done | congruence].
    - rewrite decide_False; [done | congruence]. }
  set (w1 := mkWorld _ _ _ _).
  assert (load_session (user_id me) w1
          = delete "alert" (load_session (user_id me) w)) as Hs.
  { unfold load_session at 1. subst w1. cbn [sessions].
    by rewrite lookup_insert_eq. }
  rewrite Hs, lookup_delete_eq. cbn [default from_option].
  rewrite delete_id by apply lookup_delete_eq.
  f_equal. subst w1. cbn [db sessions now calls].
  by rewrite insert_insert_eq.
Qed.

(** X12: the message of [water] is what the next plant page shows.  After
    [water], [plant] renders the watered plant with the message that
    [plant.water()] returned, whatever alert was pending before. *)
Theorem water_message_on_plant_page (request : AuthRequest) (w : World) :
  let me := user request in
  let watered := Plant_water (user_id me) None (now w) (db w) in
  let w1 := (water request w).2 in
  db w1 = watered.2
  /\ (plant request w1).1
     = plant_page (plants watered.2 !!! user_id me) watered.1.
Proof.
  intros me watered w1. subst w1. unfold Views.water. steps. fold me watered.
  split; [done|]. rewrite plant_run. cbn [fst]. unfold plant_of, load_session.
  cbn [db sessions user_id]. fold me. rewrite lookup_insert_eq.
  cbn [default from_option]. unfold id. rewrite lookup_insert_eq. done.
Qed.

Lemma shake_run (request : AuthRequest) (w : World) :
  let me := user request in
  shake request w
  = if dead (plant_of me w) then
      (Response_ BAD_REQUEST "You shouldn't be here!",
       with_call (PlantReadDead (user_id me)) w)
    else
      (Response_ REDIRECT_TEMPORARY "/app/plant",
       (session_set request "alert" (Plant_shake (user_id me) (db w)).1
          (with_db (Plant_shake (user_id me) (db w)).2
             (with_call (PlantReadDead (user_id me)) w))).2).
Proof.
  intros me. unfold MoreViews.shake. crunch. fold me.
  destruct (dead (plant_of me w)); [done|]. crunch.
  cbn [db with_call].
  destruct (Plant_shake (user_id me) (db w)) as [alert d']. crunch. done.
Qed.

(** X13: a dead plant is never shaken.  [shake] on a dead plant answers
    BAD_REQUEST and leaves the tables and the sessions alone; on a live
    plant the tables become the ones [plant.shake()] returns, and its
    message is what the next plant page shows. *)
Theorem shake_live_plants_only (request : AuthRequest) (w : World) :
  let me := user request in
  let r := shake request w in
  let shaken := Plant_shake (user_id me) (db w) in
  (dead (plant_of me w) = true ->
     r.1 = Response_ BAD_REQUEST "You shouldn't be here!"
     /\ db r.2 = db w /\ sessions r.2 = sessions w)
  /\ (dead (plant_of me w) = false ->
       r.1 = Response_ REDIRECT_TEMPORARY "/app/plant"
       /\ db r.2 = shaken.2
       /\ (plant request r.2).1
          = plant_page (plants shaken.2 !!! user_id me) shaken.1).
Proof.
  intros me r shaken. subst r. rewrite shake_run. fold me shaken. split.
  - intros ->. done.
  - intros ->. steps. split; [done|]. split; [done|].
    rewrite plant_run. cbn [fst]. unfold plant_of, load_session.
    cbn [db sessions user_id]. fold me. rewrite lookup_insert_eq.
    cbn [default from_option]. unfold id. rewrite lookup_insert_eq. done.
Qed.

(** X14: [visit_plant] on an unknown user answers NOT_FOUND and on the
    requester's own id redirects to [/app/plant], with the state untouched.
    For another user the plant is refreshed and saved, in this order, and
    the page shows the refreshed plant, the requester's pending alert, which
    is cleared, and the number of postcards the requester holds; nothing
    but the visited plant changes in the tables. *)
Theorem visit_plant_shows_refreshed_plant
    (request : AuthRequest) (target : string) (w : World) :
  let me := user request in
  let r := visit_plant request target w in
  let refreshed := Plant_refresh (now w) (plants (db w) !!! target) in
  (users (db w) !! target = None ->
     r = (Response_ NOT_FOUND "User not found", w))
  /\ (is_Some (users (db w) !! target) -> target = user_id me ->
        r = (Response_ REDIRECT_TEMPORARY "/app/plant", w))
  /\ (is_Some (users (db w) !! target) -> target <> user_id me ->
        r.1 = mkResponse SUCCESS "text/gemini"
                (render_template "visit_plant.gmi"
                   [("plant", VPlant refreshed);
                    ("alert",
                     match load_session (user_id me) w !! "alert" with
                     | Some a => VStr a
                     | None => VNone
                     end);
                    ("has_postcard",
                     VInt (get_item_quantity me
                             (Items.postcard (Views.items COLORS_PLAIN dedent))
                             (db w)))])
        /\ calls_since w r.2 = [PlantRefresh target; PlantSave target]
        /\ db r.2 = set_plants <[target := refreshed]> (db w)
        /\ load_session (user_id me) r.2 !! "alert" = None).
Proof.
  intros me r refreshed. subst r. unfold MoreViews.visit_plant. crunch.
  destruct (users (db w) !! target) as [name|] eqn:Hu;
    cbn [fmap option_fmap option_map]; crunch.
  2: { split; [done|]. split; intros [? ?]; done. }
  split; [done|]. unfold same_user. cbn [user_id]. fold me. split.
  - intros _ ->. by rewrite bool_decide_eq_true_2.
  - intros _ Hne. rewrite bool_decide_eq_false_2 by congruence. steps.
    fold me refreshed. split.
    { unfold plant_of. cbn [db user_id].
      unfold set_plants. cbn [plants]. rewrite lookup_total_insert_eq.
      unfold get_item_quantity. cbn [item_slots].
      by destruct (load_session (user_id me) w !! "alert"). }
    split; [apply calls_since_app; cbn [calls]; by rewrite <- !app_assoc|].
    split; [done|].
    unfold load_session. cbn [sessions]. rewrite lookup_insert_eq.
    cbn [default from_option]. unfold id. apply lookup_delete_eq.
Qed.

End PlantPage.

(** ** The settings pages *)

Section SettingsFacts.

Import Models Views MoreViews.

Variable User_set_password : User -> string -> DB -> DB.

Local Abbreviation settings_password :=
  (MoreViews.settings_password User_set_password).

(** The password that waits in the session of a user for its second
    entry. *)
Local Abbreviation pending_password u w :=
  (load_session (user_id u) w !! "new_password").

Lemma settings_password_run (request : AuthRequest) (w : World) :
  let me := user request in
  let q := query request in
  let popped := (session_pop request "new_password" w).2 in
  settings_password request w
  = if negb (PyStr.truthy q) then
      (Response_ SENSITIVE_INPUT "Enter your new password:", popped)
    else if negb (truthy_opt (pending_password me w)) then
      (Response_ SENSITIVE_INPUT "Confirm your new password (enter it again):",
       (session_set request "new_password" q popped).2)
    else if negb (String.eqb (default "" (pending_password me w)) q) then
      (Response_ BAD_REQUEST "Passwords did not match!", popped)
    else
      (mkResponse SUCCESS "text/gemini"
         (Text "Password successfully updated!

=>/app/settings back"),
       with_db
         (User_set_password me (default "" (pending_password me w)) (db w))
         popped).
Proof.
  intros me q popped. unfold MoreViews.settings_password. crunch.
  fold q. destruct (PyStr.truthy q); cbn [negb]; [|done].
  change (session_pop request "new_password" w).1
    with (pending_password me w).
  destruct (truthy_opt (pending_password me w)); cbn [negb]; [|by crunch].
  destruct (String.eqb (default "" (pending_password me w)) q);
    cbn [negb]; by crunch.
Qed.

(** X15: the password is changed only by a non-empty query that repeats the
    password waiting in the session, and then to that very password.  An
    empty query asks for the password; a query with nothing waiting is
    stored and asked for again; a query that differs from the waiting
    password is answered with BAD_REQUEST.  Whatever the request, a password
    that was waiting is dropped from the session, so it can be confirmed at
    most once. *)
Theorem password_changed_on_repeated_entry_only
    (request : AuthRequest) (w : World) :
  let me := user request in
  let q := query request in
  let r := settings_password request w in
  (db r.2 <> db w -> q <> "" /\ pending_password me w = Some q)
  /\ (q = "" ->
        r.1 = Response_ SENSITIVE_INPUT "Enter your new password:"
        /\ db r.2 = db w /\ pending_password me r.2 = None)
  /\ (q <> "" ->
        pending_password me w = None \/ pending_password me w = Some "" ->
        r.1 = Response_ SENSITIVE_INPUT
                "Confirm your new password (enter it again):"
        /\ db r.2 = db w /\ pending_password me r.2 = Some q)
  /\ (forall p,
        q <> "" -> pending_password me w = Some p -> p <> "" -> p <> q ->
        r.1 = Response_ BAD_REQUEST "Passwords did not match!"
        /\ db r.2 = db w /\ pending_password me r.2 = None)
  /\ (q <> "" -> pending_password me w = Some q ->
        r.1.(status) = SUCCESS
        /\ db r.2 = User_set_password me q (db w)
        /\ pending_password me r.2 = None).
Proof.
  intros me q r. subst r. rewrite settings_password_run. fold me q.
  assert (pending_password me (session_pop request "new_password" w).2 = None)
    as Hpop by (rewrite load_session_pop; by rewrite decide_True).
  assert (forall v,
            pending_password me
              (session_set request "new_password" v
                 (session_pop request "new_password" w).2).2 = Some v)
    as Hset by (intros v; rewrite load_session_set; by rewrite decide_True).
  split.
  { destruct (PyStr.truthy q) eqn:Hq; cbn [negb]; [|done].
    apply truthy_nonempty in Hq.
    destruct (pending_password me w) as [p|]; cbn [truthy_opt negb]; [|done].
    destruct (PyStr.truthy p); cbn [negb]; [|done].
    cbn [default from_option]. unfold id.
    destruct (String.eqb_spec p q) as [->|]; cbn [negb]; done. }
  split.
  { intros ->. done. }
  split.
  { intros Hq Hpending. rewrite (proj2 (truthy_nonempty q) Hq). cbn [negb].
    destruct Hpending as [-> | ->]; cbn [truthy_opt PyStr.truthy negb fst snd];
      split; done. }
  split.
  { intros p Hq -> Hp Hpq. rewrite (proj2 (truthy_nonempty q) Hq).
    cbn [truthy_opt negb]. rewrite (proj2 (truthy_nonempty p) Hp).
    cbn [negb default from_option]. unfold id.
    destruct (String.eqb_spec p q); [done|]. cbn [negb fst snd]. done. }
  intros Hq ->. rewrite (proj2 (truthy_nonempty q) Hq).
  cbn [truthy_opt negb]. rewrite (proj2 (truthy_nonempty q) Hq).
  cbn [negb default from_option]. unfold id. rewrite String.eqb_refl.
  cbn [negb fst snd]. split; [done|]. split; [done|]. exact Hpop.
Qed.

(** X16: entering the same non-empty password twice sets it.  Starting with
    nothing waiting, a first request stores the query, a second request of
    the same user with the same query sets the password to it and answers
    SUCCESS; a third one starts over with the confirmation prompt and leaves
    the tables alone. *)
Theorem password_set_by_entering_it_twice
    (first second : AuthRequest) (w : World) :
  user first = user second ->
  query first = query second ->
  query first <> "" ->
  pending_password (user first) w = None ->
  let w1 := (settings_password first w).2 in
  let r := settings_password second w1 in
  let again := settings_password second r.2 in
  db w1 = db w
  /\ r.1.(status) = SUCCESS
  /\ db r.2 = User_set_password (user second) (query second) (db w)
  /\ again.1 = Response_ SENSITIVE_INPUT
                 "Confirm your new password (enter it again):"
  /\ db again.2 = db r.2.
Proof.
  intros Hsame Hquery Hq Hnone w1 r again.
  assert (db w1 = db w /\ pending_password (user second) w1
                           = Some (query second)) as [Hdb Hwait].
  { subst w1. rewrite settings_password_run.
    rewrite (proj2 (truthy_nonempty _) Hq), Hnone. cbn [truthy_opt negb snd].
    split; [done|]. rewrite load_session_set, Hsame, Hquery.
    by rewrite decide_True. }
  rewrite <- Hquery in Hwait |- *.
  assert (r.1.(status) = SUCCESS
          /\ db r.2 = User_set_password (user second) (query first) (db w)
          /\ pending_password (user second) r.2 = None) as (Hok & Hset & Hgone).
  { subst r. rewrite settings_password_run. rewrite <- Hquery.
    rewrite (proj2 (truthy_nonempty _) Hq), Hwait.
    cbn [truthy_opt negb]. rewrite (proj2 (truthy_nonempty _) Hq).
    cbn [negb default from_option]. unfold id. rewrite String.eqb_refl.
    cbn [negb fst snd]. split; [done|]. split; [by rewrite <- Hdb|].
    rewrite load_session_with_db, load_session_pop. by rewrite decide_True. }
  split; [done|]. split; [done|]. split; [done|].
  subst again. rewrite settings_password_run. rewrite <- Hquery.
  rewrite (proj2 (truthy_nonempty _) Hq), Hgone. cbn [truthy_opt negb fst snd].
  done.
Qed.

(** X17: [settings_ansi_enabled] changes nothing but the colour flag of the
    requester's own certificate.  The answers [t] and [true] (after strip
    and lower) set the flag, [f] and [false] clear it, and the row of the
    certificate then holds the certificate of the request with that flag;
    any other non-empty answer is BAD_REQUEST and an empty one the prompt,
    with the state untouched.  Rows of other certificates and all other
    tables and sessions stay as they are. *)
Theorem ansi_flag_of_own_certificate_only (request : AuthRequest) (w : World) :
  let c := cert request in
  let q := query request in
  let answer := PyStr.lower (PyStr.strip q) in
  let r := settings_ansi_enabled request w in
  (q = "" ->
     r = (Response_ INPUT "Enable ANSI support for colors? [T]rue / [F]alse",
          w))
  /\ (q <> "" -> answer ∉ ["t"; "true"; "f"; "false"] ->
        r = (Response_ BAD_REQUEST ("Invalid query value: " ++ q), w))
  /\ (forall value : bool,
        q <> "" ->
        answer ∈ (if value then ["t"; "true"] else ["f"; "false"]) ->
        r.1 = Response_ REDIRECT_TEMPORARY "/app/settings"
        /\ (is_Some (certificates (db w) !! fingerprint c) ->
            certificates (db r.2) !! fingerprint c
            = Some (mkCertificate (fingerprint c) (cert_user c) value)))
  /\ (forall fp,
        fp <> fingerprint c ->
        certificates (db r.2) !! fp = certificates (db w) !! fp)
  /\ dom (certificates (db r.2)) = dom (certificates (db w))
  /\ users (db r.2) = users (db w)
  /\ plants (db r.2) = plants (db w)
  /\ item_slots (db r.2) = item_slots (db w)
  /\ inbox (db r.2) = inbox (db w)
  /\ sessions r.2 = sessions w.
Proof.
  intros c q answer r. subst r. unfold settings_ansi_enabled.
  fold q c answer.
  destruct (PyStr.truthy q) eqn:Hq; cbn [negb].
  2: { assert (q = "") as Hempty.
       { destruct (decide (q = "")) as [|Hne]; [done|].
         apply truthy_nonempty in Hne. congruence. }
       repeat split; try done. all: intros; congruence. }
  apply truthy_nonempty in Hq. clearbody answer.
  destruct (decide (answer ∈ ["t"; "true"])) as [Ht|Ht].
  { rewrite bool_decide_eq_true_2 by done. unfold save_ansi_enabled. crunch.
    cbn [db with_db certificates users plants item_slots inbox sessions].
    split; [done|]. split.
    { intros _ Hno. exfalso. apply Hno.
      rewrite !elem_of_cons in Ht. rewrite !elem_of_cons. tauto. }
    split.
    { intros [|] _ Hv.
      - split; [done|]. intros [row Hrow]. rewrite lookup_alter_eq, Hrow. done.
      - exfalso. rewrite !elem_of_cons, elem_of_nil in Ht, Hv.
        destruct Ht as [->|[->|[]]]; destruct Hv as [Hv|[Hv|[]]];
          discriminate Hv. }
    split; [intros fp Hfp; by rewrite lookup_alter_ne|].
    split; [apply dom_alter_L|]. done. }
  rewrite bool_decide_eq_false_2 by done.
  destruct (decide (answer ∈ ["f"; "false"])) as [Hf|Hf].
  { rewrite bool_decide_eq_true_2 by done. unfold save_ansi_enabled. crunch.
    cbn [db with_db certificates users plants item_slots inbox sessions].
    split; [done|]. split.
    { intros _ Hno. exfalso. apply Hno.
      rewrite !elem_of_cons in Hf. rewrite !elem_of_cons. tauto. }
    split.
    { intros [|] _ Hv.
      - done.
      - split; [done|]. intros [row Hrow]. rewrite lookup_alter_eq, Hrow. done. }
    split; [intros fp Hfp; by rewrite lookup_alter_ne|].
    split; [apply dom_alter_L|]. done. }
  rewrite bool_decide_eq_false_2 by done. crunch.
  split; [done|]. split; [done|]. split; [|done].
  intros [|] _ Hv; done.
Qed.

End SettingsFacts.

Section CertificateFacts.

Import Models Views MoreViews.

Variable cert_pk : string -> Z.

Local Abbreviation settings_certificates_delete :=
  (MoreViews.settings_certificates_delete cert_pk).
Local Abbreviation certificates_keyed := (MoreViews.certificates_keyed cert_pk).

Lemma Certificate_get_or_none_Some (k : Z) (d : DB) (c : Certificate) :
  Certificate_get_or_none cert_pk k d = Some c ->
  exists fp, certificates d !! fp = Some c /\ cert_pk fp = k.
Proof.
  unfold Certificate_get_or_none. intros Hhead.
  destruct (map_to_list _) as [|[fp c'] rest] eqn:Hlist; [done|].
  injection Hhead as ->.
  assert ((fp, c) ∈ map_to_list
            (filter (fun row : string * Certificate => cert_pk row.1 = k)
               (certificates d))) as Hin
    by (rewrite Hlist; apply list_elem_of_here).
  apply elem_of_map_to_list, map_lookup_filter_Some in Hin as [Hrow Hpk].
  by exists fp.
Qed.

Lemma Certificate_get_or_none_row (d : DB) (fp : string) (c : Certificate) :
  certificates_keyed d ->
  certificates d !! fp = Some c ->
  Certificate_get_or_none cert_pk (cert_pk fp) d = Some c.
Proof.
  intros [_ Hinj] Hrow.
  destruct (Certificate_get_or_none cert_pk (cert_pk fp) d) as [c'|] eqn:Hget.
  - apply Certificate_get_or_none_Some in Hget as (fp' & Hrow' & Hpk).
    apply Hinj in Hpk; [|by eexists..]. subst fp'. congruence.
  - exfalso. unfold Certificate_get_or_none in Hget.
    destruct (map_to_list _) as [|row rest] eqn:Hlist; [|done].
    apply map_to_list_empty_iff in Hlist.
    assert (filter (fun row : string * Certificate => cert_pk row.1 = cert_pk fp)
              (certificates d) !! fp = Some c) as Hin
      by (by apply map_lookup_filter_Some).
    rewrite Hlist, lookup_empty in Hin. done.
Qed.

(** X18: a certificate is deleted only when it belongs to the requester, is
    not the certificate of the request, and the query is [confirm] in any
    letter case; then exactly its row goes.  The row with another owner is
    answered like a missing one, and in every other case the state is
    untouched; no other table is ever changed. *)
Theorem certificate_delete_own_inactive_confirmed
    (request : AuthRequest) (certificate_id : string) (w : World) :
  certificates_keyed (db w) ->
  let k := int certificate_id in
  let r := settings_certificates_delete request certificate_id w in
  ((forall fp c,
      certificates (db w) !! fp = Some c -> cert_pk fp = k ->
      user_id (cert_user c) <> user_id (user request)) ->
   r = (Response_ BAD_REQUEST "Certificate not found", w))
  /\ (forall fp c,
        certificates (db w) !! fp = Some c -> cert_pk fp = k ->
        user_id (cert_user c) = user_id (user request) ->
        (cert_pk fp = cert_pk (fingerprint (cert request)) ->
           r = (Response_ BAD_REQUEST
                  "You cannot delete your active certificate", w))
        /\ (cert_pk fp <> cert_pk (fingerprint (cert request)) ->
            PyStr.lower (query request) <> "confirm" ->
            r.2 = w /\ r.1.(status) <> REDIRECT_TEMPORARY)
        /\ (cert_pk fp <> cert_pk (fingerprint (cert request)) ->
            PyStr.lower (query request) = "confirm" ->
            r.1 = Response_ REDIRECT_TEMPORARY "/app/settings/certificates"
            /\ certificates (db r.2) = delete fp (certificates (db w))))
  /\ users (db r.2) = users (db w)
  /\ plants (db r.2) = plants (db w)
  /\ item_slots (db r.2) = item_slots (db w)
  /\ inbox (db r.2) = inbox (db w)
  /\ sessions r.2 = sessions w.
Proof.
  intros Hkeyed k r. subst r. unfold MoreViews.settings_certificates_delete.
  crunch. fold k.
  destruct (Certificate_get_or_none cert_pk k (db w)) as [found|] eqn:Hget.
  2: { split; [done|]. split; [|done].
       intros fp c Hrow Hpk _. subst k. rewrite <- Hpk in Hget.
       rewrite (Certificate_get_or_none_row _ _ _ Hkeyed Hrow) in Hget.
       done. }
  pose proof Hget as Hfound.
  apply Certificate_get_or_none_Some in Hfound as (fp0 & Hrow0 & Hpk0).
  destruct Hkeyed as [Hkey Hinj].
  pose proof (Hkey _ _ Hrow0) as Hfp0.
  assert (forall fp c,
            certificates (db w) !! fp = Some c -> cert_pk fp = k ->
            fp = fp0 /\ c = found) as Honly.
  { intros fp c Hrow Hpk. rewrite <- Hpk0 in Hpk.
    apply Hinj in Hpk; [|by eexists..]. subst fp. split; congruence. }
  unfold same_user. rewrite Hfp0.
  destruct (decide (user_id (cert_user found) = user_id (user request)))
    as [Hown|Hown].
  2: { rewrite bool_decide_eq_false_2 by done. cbn [negb]. crunch.
       split; [done|]. split; [|done].
       intros fp c Hrow Hpk Hmine.
       destruct (Honly _ _ Hrow Hpk) as [-> ->]. done. }
  rewrite bool_decide_eq_true_2 by done. cbn [negb].
  split.
  { intros Hothers. exfalso. by eapply Hothers. }
  destruct (decide (cert_pk fp0 = cert_pk (fingerprint (cert request))))
    as [Hactive|Hactive].
  { rewrite bool_decide_eq_true_2 by done. crunch. split; [|done].
    intros fp c Hrow Hpk _. destruct (Honly _ _ Hrow Hpk) as [-> ->].
    split; [done|]. split; intros; done. }
  rewrite bool_decide_eq_false_2 by done.
  destruct (PyStr.truthy (query request)) eqn:Hq; cbn [negb].
  2: { crunch. split; [|done].
       intros fp c Hrow Hpk _. destruct (Honly _ _ Hrow Hpk) as [-> ->].
       split; [done|]. split; [done|]. intros _ Hconfirm. exfalso.
       destruct (query request); [|discriminate Hq].
       vm_compute in Hconfirm. discriminate Hconfirm. }
  destruct (String.eqb_spec (PyStr.lower (query request)) "confirm")
    as [Hconfirm|Hconfirm]; cbn [negb]; crunch.
  2: { split; [|done].
       intros fp c Hrow Hpk _. destruct (Honly _ _ Hrow Hpk) as [-> ->].
       split; [done|]. split; done. }
  unfold delete_instance. rewrite Hfp0.
  cbn [db with_db certificates users plants item_slots inbox sessions].
  split; [|done].
  intros fp c Hrow Hpk _. destruct (Honly _ _ Hrow Hpk) as [-> ->].
  split; [done|]. split; [done|]. intros _ _. split; [done|].
  apply map_eq. intros fp. destruct (decide (fp = fp0)) as [->|Hne].
  - rewrite lookup_delete_eq. apply map_lookup_filter_None. right.
    intros c _ Hdiff. done.
  - rewrite lookup_delete_ne by done.
    destruct (certificates (db w) !! fp) as [c|] eqn:Hfp.
    + apply map_lookup_filter_Some. split; [done|]. cbn [fst].
      intros Hsame. apply Hne, Hinj; [by eexists..|done].
    + apply map_lookup_filter_None. by left.
Qed.

End CertificateFacts.

(** ** The message board *)

Section BoardFacts.

Import Views MoreViews.

Context {A : Type}.

Lemma paginate_from_one (j : nat) (rows : list A) :
  paginate (Z.of_nat (S j)) 10 rows = take 10 (drop (j * 10) rows).
Proof.
  unfold paginate. rewrite bool_decide_eq_true_2 by lia.
  replace (Z.to_nat 10) with 10%nat by done.
  by replace (Z.to_nat ((Z.of_nat (S j) - 1) * 10)) with (j * 10)%nat by lia.
Qed.

Lemma chunks_of_ten (rows : list A) (n k : nat) :
  List.concat ((fun p => take 10 (drop (p * 10) rows)) <$> seq k n)
  = take (n * 10) (drop (k * 10) rows).
Proof.
  revert k. induction n as [|n IH]; intros k; [done|].
  cbn [seq fmap list_fmap List.concat]. rewrite IH.
  replace (S k * 10)%nat with (k * 10 + 10)%nat by lia.
  rewrite <- drop_drop.
  replace (S n * 10)%nat with (10 + n * 10)%nat by lia.
  apply take_take_drop.
Qed.

(** X19: the message board is cut into pages of ten that together hold
    every message once, in the order of [by_date].  The number of pages is
    the least one that holds all messages, and at least 1; a page number
    above it is answered as invalid; every page before the last holds
    exactly ten messages, the last one the rest; page 0 shows what page 1
    shows. *)
Theorem message_board_pages (count : Z) (by_date : list A) :
  count = Z.of_nat (List.length by_date) ->
  let page_count := Z.max (ceil_div count 10) 1 in
  1 <= page_count
  /\ (page_count - 1) * 10 < Z.max count 1 <= page_count * 10
  /\ (forall page,
        page_count < int page -> message_board page count by_date = InvalidPage)
  /\ (forall page,
        0 <= int page <= page_count ->
        let j := Z.to_nat (int page - 1) in
        message_board page count by_date
        = Board (take 10 (drop (j * 10) by_date)) (int page) page_count
        /\ (1 <= int page < page_count ->
            List.length (take 10 (drop (j * 10) by_date)) = 10%nat)
        /\ (int page = page_count ->
            take 10 (drop (j * 10) by_date) = drop (j * 10) by_date))
  /\ List.concat ((fun p => take 10 (drop (p * 10) by_date))
               <$> seq 0 (Z.to_nat page_count))
     = by_date.
Proof.
  intros Hcount page_count.
  assert ((page_count - 1) * 10 < Z.max count 1 <= page_count * 10) as Hpc.
  { subst page_count. unfold ceil_div. Z.div_mod_to_equations. lia. }
  split; [lia|]. split; [done|]. split.
  { intros page Hpage. unfold message_board. fold page_count.
    by rewrite bool_decide_eq_true_2. }
  split.
  { intros page Hpage j. unfold message_board. fold page_count.
    rewrite bool_decide_eq_false_2 by lia. split; [|split].
    - f_equal. destruct (decide (int page = 0)) as [Hzero|Hpos].
      + subst j. rewrite Hzero. unfold paginate.
        by rewrite bool_decide_eq_false_2 by lia.
      + replace (int page) with (Z.of_nat (S j)) by lia.
        by rewrite paginate_from_one.
    - intros Hbefore. rewrite length_take, length_drop. lia.
    - intros Hlast. apply take_ge. rewrite length_drop. lia. }
  rewrite chunks_of_ten. cbn [drop Nat.mul]. apply take_ge. lia.
Qed.

End BoardFacts.

(** ** The item page *)

Section ItemPage.

Import Items Views MoreViews.

Variable COLORS_PLAIN : list string.
Variable dedent : string -> string.

Local Abbreviation view_item := (MoreViews.view_item COLORS_PLAIN dedent).

(** X20: [view_item] finds an item exactly for the ids from 1 to the number
    of colours plus 4, and the item found carries the id asked for; any
    other id raises [KeyError].  The state is never touched. *)
Theorem view_item_registered_ids_only
    (request : AuthRequest) (item_id : string) (w : World) :
  let n := Z.of_nat (List.length COLORS_PLAIN) in
  let r := view_item request item_id w in
  r.2 = w
  /\ (is_Some r.1 <-> 1 <= int item_id <= n + 4)
  /\ (forall it, r.1 = Some it -> Items.item_id it = int item_id).
Proof.
  intros n r. subst r. unfold MoreViews.view_item. crunch.
  split; [done|].
  split; [|intros it Hit; by apply registry_ids in Hit as [? _]].
  split.
  - intros [it Hit]. apply registry_entries in Hit. fold n in Hit.
    destruct Hit as [[-> _]|[[-> _]|[(k & color & Hk & -> & _)|[[-> _]|[-> _]]]]];
      try lia.
    apply lookup_lt_Some in Hk. lia.
  - intros Hrange.
    destruct (decide (int item_id = 1)) as [H1|H1].
    { eexists. apply registry_entries. left. by split. }
    destruct (decide (int item_id = 2)) as [H2|H2].
    { eexists. apply registry_entries. right. left. by split. }
    destruct (decide (int item_id = n + 3)) as [H3|H3].
    { eexists. apply registry_entries. do 3 right. left. by split. }
    destruct (decide (int item_id = n + 4)) as [H4|H4].
    { eexists. apply registry_entries. do 4 right. by split. }
    destruct (lookup_lt_is_Some_2 COLORS_PLAIN (Z.to_nat (int item_id - 3)))
      as [color Hcolor]; [lia|].
    eexists. apply registry_entries. do 2 right. left.
    exists (Z.to_nat (int item_id - 3)), color.
    split; [done|]. split; [lia|done].
Qed.

End ItemPage.

(** ** The further properties on the sample world *)

Section MoreEvaluations.

Import Models Views MoreViews Samples MoreSamples.


Lemma store_purchase_needs_confirmation_witness :
  Views.store_purchase COLORS keep_text
    (as_alice "/app/store/purchase/2" "no") "2" world
  = (Response_ REDIRECT_TEMPORARY "/app/store", world).
Proof.
  destruct (store_purchase_needs_confirmation COLORS keep_text
              (as_alice "/app/store/purchase/2" "no") "2" world)
    as (_ & Hitem & _).
  destruct (Hitem (Items.fertilizer (Views.items COLORS keep_text)))
    as (_ & _ & Hno).
  - vm_compute. reflexivity.
  - apply Hno.
    + reflexivity.
    + discriminate.
    + intros Hin. rewrite !elem_of_cons, elem_of_nil in Hin.
      destruct Hin as [Hin|[Hin|[]]]; vm_compute in Hin; discriminate Hin.
Defined.

Lemma visit_plant_water_refreshes_first_witness :
  calls_since world
    (Views.visit_plant_water drought_refresh rain
       (as_alice "/app/visit/0000000000000000000000000000000b/water" "")
       bob_id world).2
  = [PlantRefresh bob_id; PlantWater bob_id (Some alice); PlantSave bob_id].
Proof.
  destruct (visit_plant_water_refreshes_first drought_refresh rain
              (as_alice "/app/visit/0000000000000000000000000000000b/water"
                 "")
              bob_id world)
    as (_ & _ & Hother).
  destruct Hother as (_ & Hcalls & _).
  - exists "bob". vm_compute. reflexivity.
  - intros E. discriminate E.
  - exact Hcalls.
Defined.

Lemma search_picks_one_petal_witness :
  (Views.search pick_first_petal (as_bob "/app/plant/search" "") world).1
  = Response_ REDIRECT_TEMPORARY "/app/plant".
Proof.
  destruct (search_picks_one_petal pick_first_petal
              (as_bob "/app/plant/search" "") world)
    as [Hresp _].
  - vm_compute. reflexivity.
  - vm_compute. reflexivity.
  - exact Hresp.
Defined.

Lemma visit_plant_search_picks_for_visitor_witness :
  calls_since world
    (Views.visit_plant_search drought_refresh pick_first_petal stage_table
       (as_alice "/app/visit/0000000000000000000000000000000b/search" "")
       bob_id world).2
  = [PlantReadDead bob_id; PlantReadStage bob_id; PlantRefresh bob_id;
     PlantPickPetal bob_id (Some alice); PlantSave bob_id].
Proof.
  destruct (visit_plant_search_picks_for_visitor drought_refresh
              pick_first_petal stage_table
              (as_alice "/app/visit/0000000000000000000000000000000b/search"
                 "")
              bob_id "bob" world)
    as (_ & Hcalls & _).
  - vm_compute. reflexivity.
  - intros E. discriminate E.
  - vm_compute. reflexivity.
  - vm_compute. reflexivity.
  - exact Hcalls.
Defined.

Lemma postcard_draft_is_sent_once_witness :
  let w1 :=
    (visit_plant_postcard_subject
       (as_alice "/app/visit/0000000000000000000000000000000b/postcard/subject"
          "hi")
       bob_id world).2 in
  (Views.visit_plant_postcard_send COLORS keep_text
     (as_alice "/app/visit/0000000000000000000000000000000b/postcard/send" "")
     bob_id w1).1
  = Response_ REDIRECT_TEMPORARY "/app/visit/0000000000000000000000000000000b".
Proof.
  destruct (postcard_draft_is_sent_once COLORS keep_text
              (as_alice
                 "/app/visit/0000000000000000000000000000000b/postcard/subject"
                 "hi")
              (as_alice
                 "/app/visit/0000000000000000000000000000000b/postcard/send"
                 "")
              bob_id "bob" world)
    as (Hresp & _).
  - reflexivity.
  - vm_compute. reflexivity.
  - discriminate.
  - simpl. lia.
  - apply Z.leb_le. vm_compute. reflexivity.
  - exact Hresp.
Defined.

Lemma petals_by_color_witness :
  Items.petals (Items.module_ COLORS keep_text) !! "red"
  = Items.registry (Items.module_ COLORS keep_text) !! (Z.of_nat 0 + 3).
Proof.
  destruct (petals_by_color COLORS keep_text) as (_ & _ & Hplace).
  apply Hplace.
  - apply (bool_decide_unpack _). vm_compute. exact I.
  - reflexivity.
Defined.

Lemma shake_live_plants_only_witness :
  (MoreViews.shake shake_a_coin (as_bob "/app/plant/shake" "") world).1
  = Response_ REDIRECT_TEMPORARY "/app/plant".
Proof.
  destruct (shake_live_plants_only look shake_a_coin
              (as_bob "/app/plant/shake" "") world)
    as (_ & Hlive).
  destruct Hlive as (Hresp & _).
  - vm_compute. reflexivity.
  - exact Hresp.
Defined.

Lemma visit_plant_shows_refreshed_plant_witness :
  calls_since world
    (MoreViews.visit_plant COLORS keep_text drought_refresh
       (as_alice "/app/visit/0000000000000000000000000000000b" "")
       bob_id world).2
  = [PlantRefresh bob_id; PlantSave bob_id].
Proof.
  destruct (visit_plant_shows_refreshed_plant COLORS keep_text drought_refresh
              (as_alice "/app/visit/0000000000000000000000000000000b" "")
              bob_id world)
    as (_ & _ & Hother).
  destruct Hother as (_ & Hcalls & _).
  - exists "bob". vm_compute. reflexivity.
  - intros E. discriminate E.
  - exact Hcalls.
Defined.

Lemma password_changed_on_repeated_entry_only_witness :
  (MoreViews.settings_password keep_tables
     (as_alice "/app/settings/password" "secret") world).1
  = Response_ SENSITIVE_INPUT "Confirm your new password (enter it again):".
Proof.
  destruct (password_changed_on_repeated_entry_only keep_tables
              (as_alice "/app/settings/password" "secret") world)
    as (_ & _ & Hfirst & _).
  destruct Hfirst as (Hresp & _).
  - discriminate.
  - left. vm_compute. reflexivity.
  - exact Hresp.
Defined.

Lemma password_set_by_entering_it_twice_witness :
  let w1 :=
    (MoreViews.settings_password keep_tables
       (as_alice "/app/settings/password" "secret") world).2 in
  (MoreViews.settings_password keep_tables
     (as_alice "/app/settings/password" "secret") w1).1.(status)
  = SUCCESS.
Proof.
  destruct (password_set_by_entering_it_twice keep_tables
              (as_alice "/app/settings/password" "secret")
              (as_alice "/app/settings/password" "secret") world)
    as (_ & Hok & _).
  - reflexivity.
  - reflexivity.
  - discriminate.
  - vm_compute. reflexivity.
  - exact Hok.
Defined.

Lemma ansi_flag_of_own_certificate_only_witness :
  certificates
    (db (settings_ansi_enabled
           (as_alice "/app/settings/ansi_enabled" " True ") world).2)
    !! "A1"
  = Some (mkCertificate "A1" alice true).
Proof.
  destruct (ansi_flag_of_own_certificate_only
              (as_alice "/app/settings/ansi_enabled" " True ") world)
    as (_ & _ & Hset & _).
  destruct (Hset true) as (_ & Hrow).
  - discriminate.
  - apply list_elem_of_further, list_elem_of_here.
  - apply Hrow. exists alice_cert. vm_compute. reflexivity.
Defined.

Lemma second_certificate_keyed :
  certificates_keyed pk (db second_certificate).
Proof.
  assert (forall fp c,
            certificates (db second_certificate) !! fp = Some c ->
            (fp = "A2" \/ fp = "A1" \/ fp = "B1") /\ fingerprint c = fp)
    as Hrows.
  { intros fp c Hrow. unfold second_certificate, garden in Hrow.
    cbn [db certificates] in Hrow.
    rewrite !lookup_insert_Some, lookup_empty in Hrow.
    destruct Hrow as [[<- <-]|[_ [[<- <-]|[_ [[<- <-]|[_ Hrow]]]]]];
      try discriminate Hrow; split; auto. }
  split.
  - intros fp c Hrow. by apply Hrows in Hrow as [_ ?].
  - intros fp1 fp2 [c1 H1] [c2 H2] Hpk.
    apply Hrows in H1 as [[-> | [-> | ->]] _];
      apply Hrows in H2 as [[-> | [-> | ->]] _];
      try reflexivity; vm_compute in Hpk; discriminate Hpk.
Qed.

Lemma certificate_delete_own_inactive_confirmed_witness :
  (MoreViews.settings_certificates_delete pk
     (as_alice "/app/settings/certificates/3/delete" "Confirm") "3"
     second_certificate).1
  = Response_ REDIRECT_TEMPORARY "/app/settings/certificates".
Proof.
  destruct (certificate_delete_own_inactive_confirmed pk
              (as_alice "/app/settings/certificates/3/delete" "Confirm") "3"
              second_certificate second_certificate_keyed)
    as (_ & Hrow & _).
  destruct (Hrow "A2" (mkCertificate "A2" alice true)) as (_ & _ & Hdelete).
  - vm_compute. reflexivity.
  - vm_compute. reflexivity.
  - reflexivity.
  - destruct Hdelete as [Hresp _].
    + vm_compute. intros E. discriminate E.
    + vm_compute. reflexivity.
    + exact Hresp.
Defined.

Lemma message_board_pages_witness :
  message_board "2" 3 ["first"; "second"; "third"] = InvalidPage.
Proof.
  destruct (message_board_pages 3 ["first"; "second"; "third"])
    as (_ & _ & Hinvalid & _).
  - reflexivity.
  - apply Hinvalid. vm_compute. reflexivity.
Defined.

Lemma view_item_registered_ids_only_witness :
  is_Some
    (MoreViews.view_item COLORS keep_text (as_alice "/app/items/2" "") "2"
       world).1.
Proof.
  destruct (view_item_registered_ids_only COLORS keep_text
              (as_alice "/app/items/2" "") "2" world)
    as (_ & Hrange & _).
  apply Hrange. vm_compute. split; intros E; discriminate E.
Defined.

End MoreEvaluations.
